(** * UAV strategic deconfliction: the conflict engine of FLYTBASE

    A shallow embedding of [src/utils.py] and [src/conflict_checker.py]
    and the properties of the engine proved over it.

    Modelling conventions.
    - A Python [datetime] is a point of one timeline, counted in
      microseconds ([Z]); a [timedelta] is a difference of two such points.
      The day number of a datetime is its proleptic Gregorian ordinal
      (0001-01-01 is day 1), so a date can be read back from it.  The
      datetimes of one run are all naive or all aware: Python refuses to
      compare or subtract a naive and an aware one.
    - A waypoint dictionary carries its ['timestamp'] as the datetime that
      a well-formed ISO string denotes: [isoformat] and [fromisoformat]
      are inverse on datetimes, hence the strings that
      [interpolate_waypoints] writes and [detect_path_conflicts] reads
      back are represented by the datetime itself.  [parse_time] is
      modelled on strings on its own, with the two library parsers it
      dispatches to.
    - Python numbers are exact rationals ([Q]); [**0.5] is a parameter of
      the development ([pow_half]) of which nothing is assumed.
    - Python exceptions are values: a computation returns
      [py_error + A]. *)

From Stdlib Require Import ZArith QArith Qabs Qround List String Ascii Bool Lia Lqa.
Import ListNotations.

Local Open Scope Z_scope.

(** ** Python run-time: exceptions *)

Inductive py_error : Type :=
| KeyError (key : string)
| IndexError
| ZeroDivisionError
| ValueError
| TypeError.

Definition result (A : Type) : Type := (py_error + A)%type.

Definition ret {A : Type} (a : A) : result A := inr a.

Definition raise {A : Type} (e : py_error) : result A := inl e.

Definition bind {A B : Type} (m : result A) (k : A -> result B) : result B :=
  match m with
  | inl e => inl e
  | inr a => k a
  end.

Notation "x <- m ;; k" := (bind m (fun x => k))
  (at level 61, m at next level, right associativity).

Notation "' pat <- m ;; k" :=
  (bind m (fun x => match x with pat => k end))
  (at level 61, pat pattern, m at next level, right associativity).

(** [for x in xs: ys.append(f(x))], stopping at the first exception. *)
Fixpoint mapM {A B : Type} (f : A -> result B) (xs : list A) : result (list B) :=
  match xs with
  | [] => ret []
  | x :: xs' => y <- f x ;; ys <- mapM f xs' ;; ret (y :: ys)
  end.

(** ** Python run-time: numbers and time *)

Definition datetime : Type := Z.
Definition timedelta : Type := Z.

(** [timedelta.total_seconds()]. *)
Definition total_seconds (td : timedelta) : Q := td # 1000000.

Arguments total_seconds td%_Z.

(** [timedelta(seconds=s)] for an integer [s]. *)
Definition timedelta_seconds (s : Z) : timedelta := s * 1000000.

(** [a / b] on numbers. *)
Definition py_div (a b : Q) : result Q :=
  if Qeq_bool b 0 then raise ZeroDivisionError else ret (a / b)%Q.

(** [int(q)]: truncation towards zero. *)
Definition py_int (q : Q) : Z := Z.quot (Qnum q) (Zpos (Qden q)).

(** Rounding to the nearest integer, ties to the even one. *)
Definition round_half_even (q : Q) : Z :=
  let f := Qfloor q in
  match (q - inject_Z f ?= 1 # 2)%Q with
  | Lt => f
  | Gt => f + 1
  | Eq => if Z.even f then f else f + 1
  end.

(** [round(q, 2)]. *)
Definition py_round2 (q : Q) : Q := round_half_even (q * 100) # 100.

(** [range(n)]. *)
Definition range (n : Z) : list Z := map Z.of_nat (seq 0 (Z.to_nat n)).

(** [l[i]] for a non-negative constant index. *)
Definition index {A : Type} (l : list A) (i : nat) : result A :=
  match nth_error l i with
  | Some a => ret a
  | None => raise IndexError
  end.

(** ** Data model *)

(** The two coordinate encodings of a waypoint dictionary: the keys
    ['x'], ['y'] and an optional ['z'], or the key ['position'] bound to a
    list. *)
Inductive coords : Type :=
| Named (x y : Q) (z : option Q)
| Packed (position : list Q).

Record waypoint : Type := mkWaypoint {
  wp_coords : coords;
  timestamp : datetime
}.

(** A mission or a simulated flight. *)
Record mission : Type := mkMission {
  waypoints : list waypoint;
  drone_id : option string;
  id : option string
}.

Record location : Type := mkLocation {
  loc_x : Q;
  loc_y : Q;
  loc_z : Q
}.

(** The dictionary built for a detected conflict.  The three time strings
    are [strftime('%Y-%m-%dT%H:%M:%S')] of the sampling instant, kept as
    that instant cut to the second. *)
Record conflict : Type := mkConflict {
  conflicting_drone : string;
  c_drone_id : string;
  c_location : location;
  primary_location : location;
  time : datetime;
  primary_time : datetime;
  sim_time : datetime;
  distance : Q;
  time_difference : Q;
  timestamp_obj : datetime
}.

Inductive status : Type := Clear | Conflict.

Record deconfliction_result : Type := mkResult {
  res_status : status;
  details : list conflict
}.

(** ** utils.py *)

Module Utils.

(** *** Strings *)

(** ['T' in s]. *)
Fixpoint contains_char (c : ascii) (s : string) : bool :=
  match s with
  | EmptyString => false
  | String a s' => Ascii.eqb a c || contains_char c s'
  end.

(** [s.endswith(c)] for a one-character suffix. *)
Fixpoint endswith_char (s : string) (c : ascii) : bool :=
  match s with
  | EmptyString => false
  | String a EmptyString => Ascii.eqb a c
  | String _ s' => endswith_char s' c
  end.

(** [s.replace(c, new)] for a one-character pattern. *)
Fixpoint replace_char (c : ascii) (new : string) (s : string) : string :=
  match s with
  | EmptyString => EmptyString
  | String a s' =>
      if Ascii.eqb a c then new ++ replace_char c new s'
      else String a (replace_char c new s')
  end.

(** [try: body except ValueError: handler]. *)
Definition except_ValueError {A : Type} (body handler : result A) : result A :=
  match body with
  | inl ValueError => handler
  | other => other
  end.

(** *** The calendar of the [datetime] library *)

Definition is_leap (year : Z) : bool :=
  (year mod 4 =? 0) && (negb (year mod 100 =? 0) || (year mod 400 =? 0)).

Definition days_before_year (year : Z) : Z :=
  let y := year - 1 in y * 365 + y / 4 - y / 100 + y / 400.

Definition days_in_month (year month : Z) : Z :=
  if month =? 2 then (if is_leap year then 29 else 28)
  else if (month =? 4) || (month =? 6) || (month =? 9) || (month =? 11) then 30
  else 31.

Definition days_before_month (year month : Z) : Z :=
  nth (Z.to_nat month) [0; 0; 31; 59; 90; 120; 151; 181; 212; 243; 273; 304; 334] 0
  + (if (2 <? month) && is_leap year then 1 else 0).

(** The ordinal of a date: 0001-01-01 is day 1. *)
Definition ymd2ord (year month day : Z) : Z :=
  days_before_year year + days_before_month year month + day.

(** [datetime(year, month, day, hour, minute, second)]. *)
Definition make_datetime (year month day hour minute second : Z) : datetime :=
  (ymd2ord year month day * 86400 + hour * 3600 + minute * 60 + second) * 1000000.

(** [d.toordinal()], the date of a datetime. *)
Definition toordinal (d : datetime) : Z := d / 86400000000.

(** *** The two library parsers, on ASCII input *)

Definition digit (c : ascii) : option Z :=
  let n := Z.of_N (N_of_ascii c) in
  if (48 <=? n) && (n <=? 57) then Some (n - 48) else None.

(** A field of one or two digits. *)
Definition number12 (s : string) : option Z :=
  match s with
  | String a EmptyString => digit a
  | String a (String b EmptyString) =>
      match digit a, digit b with
      | Some x, Some y => Some (10 * x + y)
      | _, _ => None
      end
  | _ => None
  end.

(** A field of exactly [n] digits, and what follows it. *)
Fixpoint digits (n : nat) (acc : Z) (s : string) : option (Z * string) :=
  match n with
  | O => Some (acc, s)
  | S n' =>
      match s with
      | String a s' =>
          match digit a with
          | Some x => digits n' (10 * acc + x) s'
          | None => None
          end
      | EmptyString => None
      end
  end.

(** [s.split(c)]. *)
Fixpoint split_char (c : ascii) (s : string) : list string :=
  match s with
  | EmptyString => [EmptyString]
  | String a s' =>
      match split_char c s' with
      | field :: fields =>
          if Ascii.eqb a c then EmptyString :: field :: fields
          else String a field :: fields
      | [] => []
      end
  end.

(** [datetime.strptime(s, "%H:%M:%S")].  The format compiles to the
    pattern [(2[0-3]|[0-1]\d|\d):([0-5]\d|\d):(6[0-1]|[0-5]\d|\d)], which
    has to match the whole string; the date defaults to 1900-01-01, and a
    second of 60 or 61 is refused by the [datetime] constructor. *)
Definition py_strptime_HMS (s : string) : result datetime :=
  match map number12 (split_char ":" s) with
  | [Some hour; Some minute; Some second] =>
      if (hour <=? 23) && (minute <=? 59) && (second <=? 59) then
        ret (make_datetime 1900 1 1 hour minute second)
      else raise ValueError
  | _ => raise ValueError
  end.

(** Expect the character [c]. *)
Definition expect (c : ascii) (s : string) : option string :=
  match s with
  | String a s' => if Ascii.eqb a c then Some s' else None
  | EmptyString => None
  end.

(** [datetime.fromisoformat(s)] on the fixed-width form
    [YYYY-MM-DDTHH:MM:SS] that [isoformat()] writes for a datetime of
    whole seconds; any other string is refused here. *)
Definition py_fromisoformat_seconds (s : string) : result datetime :=
  let parsed :=
    match digits 4 0 s with
    | Some (year, s) =>
    match expect "-" s with Some s =>
    match digits 2 0 s with Some (month, s) =>
    match expect "-" s with Some s =>
    match digits 2 0 s with Some (day, s) =>
    match expect "T" s with Some s =>
    match digits 2 0 s with Some (hour, s) =>
    match expect ":" s with Some s =>
    match digits 2 0 s with Some (minute, s) =>
    match expect ":" s with Some s =>
    match digits 2 0 s with Some (second, EmptyString) =>
      if (1 <=? year) && (1 <=? month) && (month <=? 12) && (1 <=? day)
         && (day <=? days_in_month year month)
         && (hour <=? 23) && (minute <=? 59) && (second <=? 59)
      then Some (make_datetime year month day hour minute second)
      else None
    | _ => None end | None => None end | None => None end | None => None end
    | None => None end | None => None end | None => None end | None => None end
    | None => None end | None => None end
    | None => None
    end in
  match parsed with
  | Some d => ret d
  | None => raise ValueError
  end.

(** *** parse_time *)

Section ParseTime.

(** [datetime.fromisoformat], [datetime.strptime(_, "%H:%M:%S")] and the
    value of [datetime.now()] at the call. *)
Variable fromisoformat : string -> result datetime.
Variable strptime_HMS : string -> result datetime.
Variable now : datetime.

(** The body of the [try] block. *)
Definition parse_time_body (timestamp : string) : result datetime :=
  if contains_char "T" timestamp then
    if endswith_char timestamp "Z" then
      fromisoformat (replace_char "Z" "+00:00" timestamp)
    else fromisoformat timestamp
  else strptime_HMS timestamp.

Definition parse_time (timestamp : string) : result datetime :=
  except_ValueError (parse_time_body timestamp) (ret now).

End ParseTime.

(** *** interpolate_waypoints *)

(** [wp["z"]]. *)
Definition key_z (z : option Q) : result Q :=
  match z with
  | Some v => ret v
  | None => raise (KeyError "z")
  end.

(** [wp["position"]]. *)
Definition key_position (c : coords) : result (list Q) :=
  match c with
  | Packed p => ret p
  | Named _ _ _ => raise (KeyError "position")
  end.

(** [wp["x"]] and [wp["y"]]. *)
Definition key_x (c : coords) : result Q :=
  match c with
  | Named x _ _ => ret x
  | Packed _ => raise (KeyError "x")
  end.

Definition key_y (c : coords) : result Q :=
  match c with
  | Named _ y _ => ret y
  | Packed _ => raise (KeyError "y")
  end.

Definition key_z_of (c : coords) : result Q :=
  match c with
  | Named _ _ z => key_z z
  | Packed _ => raise (KeyError "z")
  end.

(** [a + t * (b - a)], the operands read in Python's evaluation order. *)
Definition lerp (ra rb : result Q) (t : Q) : result Q :=
  a <- ra ;; b <- rb ;; a' <- ra ;; ret (a + t * (b - a'))%Q.

(** The position of sample [t] between [wp1] and [wp2], in the encoding
    of [wp1]. *)
Definition interpolate_position (c1 c2 : coords) (t : Q) : result coords :=
  match c1 with
  | Packed p1 =>
      let at2 k := p2 <- key_position c2 ;; index p2 k in
      x <- lerp (index p1 0) (at2 0%nat) t ;;
      y <- lerp (index p1 1) (at2 1%nat) t ;;
      z <- lerp (index p1 2) (at2 2%nat) t ;;
      ret (Packed [x; y; z])
  | Named x1 y1 z1 =>
      x <- lerp (ret x1) (key_x c2) t ;;
      y <- lerp (ret y1) (key_y c2) t ;;
      z <- lerp (key_z z1) (key_z_of c2) t ;;
      ret (Named x y (Some z))
  end.

(** [num_steps = max(1, int(duration / step_seconds))]. *)
Definition num_steps (duration : Q) (step_seconds : Z) : result Z :=
  q <- py_div duration (inject_Z step_seconds) ;;
  ret (Z.max 1 (py_int q)).

(** [t = i / num_steps if num_steps > 0 else 0]. *)
Definition interpolation_parameter (i n : Z) : result Q :=
  if 0 <? n then py_div (inject_Z i) (inject_Z n) else ret 0%Q.

Definition interpolate_waypoints (wp1 wp2 : waypoint) (step_seconds : Z)
  : result (list waypoint) :=
  let start_time := timestamp wp1 in
  let end_time := timestamp wp2 in
  let duration := total_seconds (end_time - start_time) in
  if Qle_bool duration 0 then ret [wp1]
  else
    n <- num_steps duration step_seconds ;;
    mapM (fun i =>
            t <- interpolation_parameter i n ;;
            pos <- interpolate_position (wp_coords wp1) (wp_coords wp2) t ;;
            let interpolated_time := start_time + timedelta_seconds (i * step_seconds) in
            ret (mkWaypoint pos interpolated_time))
         (range (n + 1)).

(** *** euclidean_distance *)

(** What [euclidean_distance] is called on: a dictionary or a list
    [[x, y, z]]. *)
Inductive position : Type :=
| Dict (c : coords)
| Array (l : list Q).

(** [get_coords] of [euclidean_distance]: here the key ['z'] has no
    default. *)
Definition get_coords (pos : position) : result (Q * Q * Q) :=
  match pos with
  | Dict (Packed p) =>
      x <- index p 0 ;; y <- index p 1 ;; z <- index p 2 ;; ret (x, y, z)
  | Dict (Named x y z) =>
      z <- key_z z ;; ret (x, y, z)
  | Array l =>
      x <- index l 0 ;; y <- index l 1 ;; z <- index l 2 ;; ret (x, y, z)
  end.

Section Distance.

(** [math.sqrt]. *)
Variable sqrt : Q -> Q.

Definition euclidean_distance (pos1 pos2 : position) : result Q :=
  '(x1, y1, z1) <- get_coords pos1 ;;
  '(x2, y2, z2) <- get_coords pos2 ;;
  ret (sqrt ((x2 - x1) ^ 2 + (y2 - y1) ^ 2 + (z2 - z1) ^ 2)%Q).

End Distance.

(** *** time_difference *)

(** [abs((t1 - t2).total_seconds())]. *)
Definition seconds_between (t1 t2 : datetime) : Q :=
  Qabs (total_seconds (t1 - t2)).

(** [t1 - t2] on datetimes: an aware datetime (one with a UTC offset) and
    a naive one cannot be subtracted. *)
Definition py_sub_datetime (aware1 aware2 : bool) (t1 t2 : datetime)
  : result timedelta :=
  if Bool.eqb aware1 aware2 then ret (t1 - t2) else raise TypeError.

Section TimeDifference.

Variable fromisoformat : string -> result datetime.
Variable strptime_HMS : string -> result datetime.

(** Whether the datetime that [datetime.fromisoformat] returns for a
    string is aware, that is whether the string carries a UTC offset. *)
Variable has_offset : string -> bool.

(** The values of [datetime.now()] at the first and at the second call
    of [parse_time]. *)
Variables now1 now2 : datetime.

(** Whether [parse_time] returns an aware datetime: only
    [fromisoformat] can; [strptime] and [datetime.now()] return naive
    ones. *)
Definition parse_time_aware (timestamp : string) : bool :=
  match parse_time_body fromisoformat strptime_HMS timestamp with
  | inr _ =>
      if contains_char "T" timestamp then
        if endswith_char timestamp "Z" then
          has_offset (replace_char "Z" "+00:00" timestamp)
        else has_offset timestamp
      else false
  | inl _ => false
  end.

Definition time_difference (time1 time2 : string) : result Q :=
  t1 <- parse_time fromisoformat strptime_HMS now1 time1 ;;
  t2 <- parse_time fromisoformat strptime_HMS now2 time2 ;;
  d <- py_sub_datetime (parse_time_aware time1) (parse_time_aware time2) t1 t2 ;;
  ret (Qabs (total_seconds d)).

End TimeDifference.

(** *** interpolate_mission_path *)

(** The loop of [interpolate_mission_path]: each segment without its
    first point. *)
Fixpoint mission_segments (waypoints : list waypoint) (step_seconds : Z)
  : result (list waypoint) :=
  match waypoints with
  | [] => ret []
  | wp1 :: rest =>
      match rest with
      | [] => ret []
      | wp2 :: _ =>
          interpolated_segment <- interpolate_waypoints wp1 wp2 step_seconds ;;
          later <- mission_segments rest step_seconds ;;
          ret ((if (1 <? List.length interpolated_segment)%nat
                then tl interpolated_segment else []) ++ later)
      end
  end.

Definition interpolate_mission_path (waypoints : list waypoint) (step_seconds : Z)
  : result (list waypoint) :=
  match waypoints with
  | [] => ret waypoints
  | wp :: rest =>
      match rest with
      | [] => ret waypoints
      | _ :: _ =>
          interpolated_path <- mission_segments waypoints step_seconds ;;
          ret (wp :: interpolated_path)
      end
  end.

End Utils.

(** ** conflict_checker.py *)

Module ConflictChecker.

(** The segments of [generate_continuous_path]: the loop
    [for i in range(len(waypoints) - 1)] over consecutive pairs. *)
Fixpoint interpolate_segments (waypoints : list waypoint) (step_seconds : Z)
  : result (list waypoint) :=
  match waypoints with
  | [] => ret []
  | wp1 :: rest =>
      match rest with
      | [] => ret []
      | wp2 :: _ =>
          interpolated_points <- Utils.interpolate_waypoints wp1 wp2 step_seconds ;;
          continuous_path <- interpolate_segments rest step_seconds ;;
          ret (interpolated_points ++ continuous_path)
      end
  end.

Definition generate_continuous_path (mission_or_flight : mission) (step_seconds : Z)
  : result (list waypoint) :=
  let waypoints := waypoints mission_or_flight in
  continuous_path <- interpolate_segments waypoints step_seconds ;;
  match waypoints with
  | [] => ret continuous_path
  | wp :: wps => ret (continuous_path ++ [last wps wp])
  end.

(** [get_coords] of [get_drone_position_at_time], which is also
    [get_position_coords] of [detect_path_conflicts]. *)
Definition get_coords (point : coords) : result (Q * Q * Q) :=
  match point with
  | Packed p =>
      x <- index p 0 ;; y <- index p 1 ;; z <- index p 2 ;; ret (x, y, z)
  | Named x y z =>
      ret (x, y, match z with Some v => v | None => 0%Q end)
  end.

(** The search for the bracketing waypoints: the [for] loop with its
    [break], started with [before_point = None]. The result is
    [(before_point, after_point)]. *)
Fixpoint find_brackets (drone_path : list waypoint) (target_time : datetime)
    (before_point : option waypoint) : option waypoint * option waypoint :=
  match drone_path with
  | [] => (before_point, None)
  | point :: rest =>
      let point_time := timestamp point in
      if point_time <=? target_time then
        find_brackets rest target_time (Some point)
      else if point_time >? target_time then
        (before_point, Some point)
      else find_brackets rest target_time before_point
  end.

(** The dictionary [{'x': x, 'y': y, 'z': z, 'timestamp': target_time}]. *)
Definition position_dict (x y z : Q) (target_time : datetime) : waypoint :=
  mkWaypoint (Named x y (Some z)) target_time.

Definition get_drone_position_at_time (drone_path : list waypoint)
    (target_time : datetime) : result (option waypoint) :=
  match drone_path with
  | [] => ret None
  | _ :: _ =>
      match find_brackets drone_path target_time None with
      | (None, _) => ret None
      | (Some before_point, None) =>
          '(before_x, before_y, before_z) <- get_coords (wp_coords before_point) ;;
          ret (Some (position_dict before_x before_y before_z target_time))
      | (Some before_point, Some after_point) =>
          let before_time := timestamp before_point in
          let after_time := timestamp after_point in
          let total_time := total_seconds (after_time - before_time) in
          if Qeq_bool total_time 0 then
            '(before_x, before_y, before_z) <- get_coords (wp_coords before_point) ;;
            ret (Some (position_dict before_x before_y before_z target_time))
          else
            let elapsed_time := total_seconds (target_time - before_time) in
            factor <- py_div elapsed_time total_time ;;
            '(before_x, before_y, before_z) <- get_coords (wp_coords before_point) ;;
            '(after_x, after_y, after_z) <- get_coords (wp_coords after_point) ;;
            let interpolated_x := (before_x + factor * (after_x - before_x))%Q in
            let interpolated_y := (before_y + factor * (after_y - before_y))%Q in
            let interpolated_z := (before_z + factor * (after_z - before_z))%Q in
            ret (Some (position_dict interpolated_x interpolated_y interpolated_z
                         target_time))
      end
  end.

(** [min(times)] and [max(times)] of a non-empty list [t :: ts]. *)
Definition py_min (t : datetime) (ts : list datetime) : datetime :=
  fold_left Z.min ts t.

Definition py_max (t : datetime) (ts : list datetime) : datetime :=
  fold_left Z.max ts t.

(** [strftime('%Y-%m-%dT%H:%M:%S')]: the microseconds are dropped. *)
Definition strftime_seconds (t : datetime) : datetime := t - t mod 1000000.

Definition check_interval : Z := 5.

Section Detection.

(** [x ** 0.5]. *)
Variable pow_half : Q -> Q.

(** The dictionary [potential_conflict]. *)
Definition potential_conflict (sim_drone_id : string)
    (primary sim : Q * Q * Q) (dist : Q) (current_time : datetime) : conflict :=
  let '(primary_x, primary_y, primary_z) := primary in
  let '(sim_x, sim_y, sim_z) := sim in
  {| conflicting_drone := sim_drone_id;
     c_drone_id := sim_drone_id;
     c_location := mkLocation (py_round2 sim_x) (py_round2 sim_y) (py_round2 sim_z);
     primary_location :=
       mkLocation (py_round2 primary_x) (py_round2 primary_y) (py_round2 primary_z);
     time := strftime_seconds current_time;
     primary_time := strftime_seconds current_time;
     sim_time := strftime_seconds current_time;
     distance := py_round2 dist;
     time_difference := 0;
     timestamp_obj := current_time |}.

(** The separation of the two drones at [current_time], before rounding:
    [None] when one of them is not active. *)
Definition separation_at (primary_path sim_path : list waypoint)
    (current_time : datetime)
  : result (option ((Q * Q * Q) * (Q * Q * Q) * Q)) :=
  primary_pos <- get_drone_position_at_time primary_path current_time ;;
  sim_pos <- get_drone_position_at_time sim_path current_time ;;
  match primary_pos, sim_pos with
  | Some primary_pos, Some sim_pos =>
      '(primary_x, primary_y, primary_z) <- get_coords (wp_coords primary_pos) ;;
      '(sim_x, sim_y, sim_z) <- get_coords (wp_coords sim_pos) ;;
      let dist :=
        pow_half ((primary_x - sim_x) ^ 2 + (primary_y - sim_y) ^ 2
                  + (primary_z - sim_z) ^ 2)%Q in
      ret (Some ((primary_x, primary_y, primary_z), (sim_x, sim_y, sim_z), dist))
  | _, _ => ret None
  end.

(** STEP 2 of the loop body: the conflict detected at [current_time], if
    any. *)
Definition detect_at (primary_path sim_path : list waypoint)
    (sim_drone_id : string) (safety_distance : Q) (current_time : datetime)
  : result (option conflict) :=
  sep <- separation_at primary_path sim_path current_time ;;
  match sep with
  | Some (primary, sim, dist) =>
      if Qle_bool dist safety_distance then
        ret (Some (potential_conflict sim_drone_id primary sim dist current_time))
      else ret None
  | None => ret None
  end.

Definition time_diff (potential existing : conflict) : Q :=
  Qabs (total_seconds (timestamp_obj potential - timestamp_obj existing)).

Definition spatial_distance (potential existing : conflict) : Q :=
  pow_half
    ((loc_x (primary_location potential) - loc_x (primary_location existing)) ^ 2
     + (loc_y (primary_location potential) - loc_y (primary_location existing)) ^ 2
     + (loc_z (primary_location potential) - loc_z (primary_location existing)) ^ 2)%Q.

(** The deduplication decision
    [time_diff <= 120 or spatial_distance <= 50]. *)
Definition same_zone (potential existing : conflict) : bool :=
  Qle_bool (time_diff potential existing) 120
  || Qle_bool (spatial_distance potential existing) 50.

(** STEP 3: the loop [for existing in detected_conflicts] with its
    [break]. *)
Fixpoint is_new_conflict (potential : conflict) (detected_conflicts : list conflict)
  : bool :=
  match detected_conflicts with
  | [] => true
  | existing :: rest =>
      if same_zone potential existing then false
      else is_new_conflict potential rest
  end.

(** One iteration of the [while] loop on the pair
    [(conflicts, detected_conflicts)].  The dictionary appended to both
    lists is one and the same object, [timestamp_obj] included. *)
Definition scan_step (primary_path sim_path : list waypoint)
    (sim_drone_id : string) (safety_distance : Q) (current_time : datetime)
    (state : list conflict * list conflict)
  : result (list conflict * list conflict) :=
  let '(conflicts, detected_conflicts) := state in
  found <- detect_at primary_path sim_path sim_drone_id safety_distance current_time ;;
  match found with
  | Some potential =>
      if is_new_conflict potential detected_conflicts then
        ret (conflicts ++ [potential], detected_conflicts ++ [potential])
      else ret state
  | None => ret state
  end.

(** [while current_time <= end_time], unrolled at most [fuel] times. *)
Fixpoint scan_loop (fuel : nat) (primary_path sim_path : list waypoint)
    (sim_drone_id : string) (safety_distance : Q) (end_time current_time : datetime)
    (state : list conflict * list conflict) : result (list conflict) :=
  if current_time <=? end_time then
    match fuel with
    | O => ret (fst state)
    | S fuel' =>
        state' <- scan_step primary_path sim_path sim_drone_id safety_distance
                    current_time state ;;
        scan_loop fuel' primary_path sim_path sim_drone_id safety_distance end_time
          (current_time + timedelta_seconds check_interval) state'
    end
  else ret (fst state).

(** The number of iterations the loop makes from [current_time]. *)
Definition iterations (end_time current_time : datetime) : nat :=
  if current_time <=? end_time then
    S (Z.to_nat ((end_time - current_time) / timedelta_seconds check_interval))
  else O.

Definition detect_path_conflicts (primary_path sim_path : list waypoint)
    (sim_drone_id : string) (safety_distance : Q) (time_threshold : Z)
  : result (list conflict) :=
  let primary_times := map timestamp primary_path in
  let sim_times := map timestamp sim_path in
  match primary_times, sim_times with
  | p :: ps, s :: ss =>
      let start_time := Z.max (py_min p ps) (py_min s ss) in
      let end_time := Z.min (py_max p ps) (py_max s ss) in
      if start_time >=? end_time then ret []
      else
        scan_loop (iterations end_time start_time) primary_path sim_path
          sim_drone_id safety_distance end_time start_time ([], [])
  | _, _ => ret []
  end.

(** [sim_flight.get('drone_id', sim_flight.get('id', 'Unknown_Drone'))]. *)
Definition flight_id (sim_flight : mission) : string :=
  match drone_id sim_flight with
  | Some d => d
  | None => match id sim_flight with
            | Some i => i
            | None => "Unknown_Drone"
            end
  end.

(** The loop [for sim_flight in simulated_flights]. *)
Fixpoint check_flights (primary_path : list waypoint)
    (simulated_flights : list mission) (safety_distance : Q) (time_threshold : Z)
    (conflicts : list conflict) : result (list conflict) :=
  match simulated_flights with
  | [] => ret conflicts
  | sim_flight :: rest =>
      sim_path <- generate_continuous_path sim_flight 1 ;;
      flight_conflicts <-
        detect_path_conflicts primary_path sim_path (flight_id sim_flight)
          safety_distance time_threshold ;;
      check_flights primary_path rest safety_distance time_threshold
        (conflicts ++ flight_conflicts)
  end.

Definition check_deconfliction (primary_mission : mission)
    (simulated_flights : list mission) (safety_distance : Q) (time_threshold : Z)
  : result deconfliction_result :=
  primary_path <- generate_continuous_path primary_mission 1 ;;
  conflicts <- check_flights primary_path simulated_flights safety_distance
                 time_threshold [] ;;
  ret {| res_status := match conflicts with [] => Clear | _ :: _ => Conflict end;
         details := conflicts |}.

End Detection.

(** *** check_waypoint_conflicts *)

(** A detail of [check_waypoint_conflicts]. *)
Record waypoint_conflict : Type := mkWaypointConflict {
  wc_conflicting_drone : string;
  wc_location : location;
  wc_time : datetime
}.

Record waypoint_result : Type := mkWaypointResult {
  wr_status : status;
  wr_details : list waypoint_conflict
}.

Section Legacy.

(** [math.sqrt]. *)
Variable sqrt : Q -> Q.

(** [sim_flight["id"]]. *)
Definition key_id (sim_flight : mission) : result string :=
  match id sim_flight with
  | Some i => ret i
  | None => raise (KeyError "id")
  end.

(** The body of the innermost loop, on the list [conflicts]. *)
Definition check_pair (sim_flight : mission) (safety_distance time_threshold : Q)
    (p_wp s_wp : waypoint) (conflicts : list waypoint_conflict)
  : result (list waypoint_conflict) :=
  d <- Utils.euclidean_distance sqrt (Utils.Dict (wp_coords p_wp))
         (Utils.Dict (wp_coords s_wp)) ;;
  let t_diff := Utils.seconds_between (timestamp p_wp) (timestamp s_wp) in
  if Qle_bool d safety_distance && Qle_bool t_diff time_threshold then
    drone <- key_id sim_flight ;;
    x <- Utils.key_x (wp_coords s_wp) ;;
    y <- Utils.key_y (wp_coords s_wp) ;;
    let z := match wp_coords s_wp with
             | Named _ _ (Some v) => v
             | _ => 0%Q
             end in
    ret (conflicts ++ [mkWaypointConflict drone (mkLocation x y z) (timestamp s_wp)])
  else ret conflicts.

(** [for s_wp in sim_flight["waypoints"]]. *)
Fixpoint check_sim_waypoints (sim_flight : mission)
    (safety_distance time_threshold : Q) (p_wp : waypoint) (s_wps : list waypoint)
    (conflicts : list waypoint_conflict) : result (list waypoint_conflict) :=
  match s_wps with
  | [] => ret conflicts
  | s_wp :: rest =>
      conflicts' <- check_pair sim_flight safety_distance time_threshold p_wp s_wp
                      conflicts ;;
      check_sim_waypoints sim_flight safety_distance time_threshold p_wp rest
        conflicts'
  end.

(** [for p_wp in primary_mission["waypoints"]]. *)
Fixpoint check_primary_waypoints (sim_flight : mission)
    (safety_distance time_threshold : Q) (p_wps : list waypoint)
    (conflicts : list waypoint_conflict) : result (list waypoint_conflict) :=
  match p_wps with
  | [] => ret conflicts
  | p_wp :: rest =>
      conflicts' <- check_sim_waypoints sim_flight safety_distance time_threshold
                      p_wp (waypoints sim_flight) conflicts ;;
      check_primary_waypoints sim_flight safety_distance time_threshold rest
        conflicts'
  end.

(** [for sim_flight in simulated_flights]. *)
Fixpoint check_sim_flights (primary_mission : mission)
    (safety_distance time_threshold : Q) (simulated_flights : list mission)
    (conflicts : list waypoint_conflict) : result (list waypoint_conflict) :=
  match simulated_flights with
  | [] => ret conflicts
  | sim_flight :: rest =>
      conflicts' <- check_primary_waypoints sim_flight safety_distance
                      time_threshold (waypoints primary_mission) conflicts ;;
      check_sim_flights primary_mission safety_distance time_threshold rest
        conflicts'
  end.

Definition check_waypoint_conflicts (primary_mission : mission)
    (simulated_flights : list mission) (safety_distance time_threshold : Q)
  : result waypoint_result :=
  conflicts <- check_sim_flights primary_mission safety_distance time_threshold
                 simulated_flights [] ;;
  ret {| wr_status := match conflicts with [] => Clear | _ :: _ => Conflict end;
         wr_details := conflicts |}.

End Legacy.

End ConflictChecker.

(** ** realtime_simulator.py *)

Module RealtimeSimulator.

(** An entry of [self.simulated_paths]. *)
Record simulated_path : Type := mkSimulatedPath {
  sp_id : string;
  sp_path : list waypoint
}.

(** The fields of the simulator that its computations read. *)
Record simulator : Type := mkSimulator {
  primary_path : list waypoint;
  simulated_paths : list simulated_path;
  safety_distance : Q;
  start_time : datetime;
  end_time : datetime
}.

(** A detected collision. *)
Record collision : Type := mkCollision {
  col_time : datetime;
  primary_pos : waypoint;
  simulated_pos : waypoint;
  simulated_drone : string;
  col_distance : Q;
  safety_violation : Q
}.

(** The loop of [__init__] over the simulated flights. *)
Fixpoint init_simulated_paths (simulated_flights : list mission)
  : result (list simulated_path) :=
  match simulated_flights with
  | [] => ret []
  | flight :: rest =>
      path <- Utils.interpolate_mission_path (waypoints flight) 1 ;;
      later <- init_simulated_paths rest ;;
      ret (mkSimulatedPath (ConflictChecker.flight_id flight) path :: later)
  end.

(** The list [all_times] of [_get_time_boundaries]. *)
Definition all_times (primary : list waypoint) (simulated : list simulated_path)
  : list datetime :=
  map timestamp primary
  ++ flat_map (fun sim_path => map timestamp (sp_path sim_path)) simulated.

(** [_get_time_boundaries]: [min] and [max] of an empty list raise
    [ValueError]. *)
Definition get_time_boundaries (primary : list waypoint)
    (simulated : list simulated_path) : result (datetime * datetime) :=
  match all_times primary simulated with
  | [] => raise ValueError
  | t :: ts => ret (ConflictChecker.py_min t ts, ConflictChecker.py_max t ts)
  end.

(** [__init__], up to the fields above. *)
Definition init (primary_mission : mission) (simulated_flights : list mission)
    (safety : Q) : result simulator :=
  primary <- Utils.interpolate_mission_path (waypoints primary_mission) 1 ;;
  simulated <- init_simulated_paths simulated_flights ;;
  '(first_time, last_time) <- get_time_boundaries primary simulated ;;
  ret (mkSimulator primary simulated safety first_time last_time).

(** [get_coords] of the simulator: the key ['z'] has no default. *)
Definition get_coords (point : coords) : result (Q * Q * Q) :=
  match point with
  | Packed p =>
      x <- index p 0 ;; y <- index p 1 ;; z <- index p 2 ;; ret (x, y, z)
  | Named x y z =>
      z <- Utils.key_z z ;; ret (x, y, z)
  end.

(** The method [get_drone_position_at_time]; its search loop is the one
    of the checker. *)
Definition get_drone_position_at_time (drone_path : list waypoint)
    (target_time : datetime) : result (option waypoint) :=
  match ConflictChecker.find_brackets drone_path target_time None with
  | (Some before_point, Some after_point) =>
      let before_time := timestamp before_point in
      let after_time := timestamp after_point in
      if before_time =? target_time then ret (Some before_point)
      else
        let time_diff := total_seconds (after_time - before_time) in
        let elapsed := total_seconds (target_time - before_time) in
        ratio <- (if negb (Qle_bool time_diff 0) then py_div elapsed time_diff
                  else ret 0%Q) ;;
        '(before_x, before_y, before_z) <- get_coords (wp_coords before_point) ;;
        '(after_x, after_y, after_z) <- get_coords (wp_coords after_point) ;;
        ret (Some (ConflictChecker.position_dict
                     (before_x + (after_x - before_x) * ratio)
                     (before_y + (after_y - before_y) * ratio)
                     (before_z + (after_z - before_z) * ratio)
                     target_time))
  | _ => ret None
  end.

Section Collisions.

(** [math.sqrt]. *)
Variable sqrt : Q -> Q.

(** The loop of [check_collisions_at_time] over the simulated paths. *)
Fixpoint check_simulated (safety : Q) (current_time : datetime)
    (primary : waypoint) (sim_paths : list simulated_path)
    (collisions : list collision) : result (list collision) :=
  match sim_paths with
  | [] => ret collisions
  | sim_path :: rest =>
      sim_pos <- get_drone_position_at_time (sp_path sim_path) current_time ;;
      match sim_pos with
      | None => check_simulated safety current_time primary rest collisions
      | Some sim_pos =>
          dist <- Utils.euclidean_distance sqrt (Utils.Dict (wp_coords primary))
                    (Utils.Dict (wp_coords sim_pos)) ;;
          if negb (Qle_bool safety dist) then
            check_simulated safety current_time primary rest
              (collisions
               ++ [ {| col_time := current_time;
                       primary_pos := primary;
                       simulated_pos := sim_pos;
                       simulated_drone := sp_id sim_path;
                       col_distance := dist;
                       safety_violation := (safety - dist)%Q |} ])
          else check_simulated safety current_time primary rest collisions
      end
  end.

Definition check_collisions_at_time (self : simulator) (current_time : datetime)
  : result (list collision) :=
  primary <- get_drone_position_at_time (primary_path self) current_time ;;
  match primary with
  | None => ret []
  | Some primary =>
      check_simulated (safety_distance self) current_time primary
        (simulated_paths self) []
  end.

End Collisions.

End RealtimeSimulator.

(** ** primary_drone_plotter.py *)

Module PrimaryDronePlotter.

(** The mission data of the plotter; the figure, its points, line and
    annotations are left out. *)
Record plotter : Type := mkPlotter {
  primary_waypoints : list waypoint;
  primary_start_time : datetime;
  primary_end_time : datetime
}.

(** The timestamp that [add_waypoint] gives to the new waypoint. *)
Definition new_timestamp (self : plotter) : datetime :=
  match primary_waypoints self with
  | [] => primary_start_time self
  | _ :: _ =>
      let start_dt := primary_start_time self in
      let end_dt := primary_end_time self in
      let total_duration := total_seconds (end_dt - start_dt) in
      let waypoint_index := Z.of_nat (List.length (primary_waypoints self)) in
      let time_offset :=
        py_int (inject_Z (waypoint_index + 1) * total_duration
                / inject_Z (Z.of_nat (List.length (primary_waypoints self)) + 1))%Q in
      ConflictChecker.strftime_seconds (start_dt + timedelta_seconds time_offset)
  end.

Definition add_waypoint (self : plotter) (x y z : Q) : plotter :=
  let waypoint := mkWaypoint (Named (py_round2 x) (py_round2 y) (Some z))
                    (new_timestamp self) in
  {| primary_waypoints := primary_waypoints self ++ [waypoint];
     primary_start_time := primary_start_time self;
     primary_end_time := primary_end_time self |}.

Definition remove_last_waypoint (self : plotter) : plotter :=
  match primary_waypoints self with
  | [] => self
  | _ :: _ =>
      {| primary_waypoints := removelast (primary_waypoints self);
         primary_start_time := primary_start_time self;
         primary_end_time := primary_end_time self |}
  end.

(** The loop of [recalculate_timestamps], from index [i] on; [n] is
    [len(self.primary_waypoints)]. *)
Fixpoint restamp (start_dt : datetime) (total_duration : Q) (n i : Z)
    (wps : list waypoint) : result (list waypoint) :=
  match wps with
  | [] => ret []
  | waypoint :: rest =>
      stamp <- (if n =? 1 then ret start_dt
                else
                  q <- py_div (inject_Z i * total_duration) (inject_Z (n - 1)) ;;
                  ret (ConflictChecker.strftime_seconds
                         (start_dt + timedelta_seconds (py_int q)))) ;;
      later <- restamp start_dt total_duration n (i + 1) rest ;;
      ret (mkWaypoint (wp_coords waypoint) stamp :: later)
  end.

Definition recalculate_timestamps (self : plotter) : result plotter :=
  match primary_waypoints self with
  | [] => ret self
  | _ :: _ =>
      let start_dt := primary_start_time self in
      let end_dt := primary_end_time self in
      let total_duration := total_seconds (end_dt - start_dt) in
      wps <- restamp start_dt total_duration
               (Z.of_nat (List.length (primary_waypoints self))) 0
               (primary_waypoints self) ;;
      ret {| primary_waypoints := wps;
             primary_start_time := start_dt;
             primary_end_time := end_dt |}
  end.

Definition clear_primary_path (self : plotter) : plotter :=
  {| primary_waypoints := [];
     primary_start_time := primary_start_time self;
     primary_end_time := primary_end_time self |}.

(** The mission that [check_conflicts] hands to [check_deconfliction]. *)
Definition primary_mission (self : plotter) : mission :=
  {| waypoints := primary_waypoints self; drone_id := None; id := None |}.

End PrimaryDronePlotter.

(** * Vocabulary of the properties *)

Import Utils ConflictChecker.

(** What [get_drone_position_at_time] returns once [before_point] is
    set and [after_point] is not: the coordinates of [before_point]. *)
Definition frozen_at (before_point : waypoint) (target_time : datetime)
  : result (option waypoint) :=
  '(x, y, z) <- get_coords (wp_coords before_point) ;;
  ret (Some (position_dict x y z target_time)).

(** [m] is the earliest, respectively the latest, instant of [ts]. *)
Definition is_min_of (m : datetime) (ts : list datetime) : Prop :=
  In m ts /\ forall x, In x ts -> m <= x.

Definition is_max_of (m : datetime) (ts : list datetime) : Prop :=
  In m ts /\ forall x, In x ts -> x <= m.

(** The instants of the samples of a segment. *)
Definition sample_times (start_time : datetime) (step_seconds n : Z) : list datetime :=
  map (fun i => start_time + timedelta_seconds (i * step_seconds)) (range (n + 1)).

(** Each instant is at most the next one. *)
Fixpoint nondecreasing (ts : list datetime) : Prop :=
  match ts with
  | [] => True
  | t :: rest =>
      match rest with
      | [] => True
      | t' :: _ => t <= t' /\ nondecreasing rest
      end
  end.

(** Every segment of the trajectory lasts either no time at all or at
    least one step. *)
Fixpoint steps_fit (step_seconds : Z) (ts : list datetime) : Prop :=
  match ts with
  | [] => True
  | t :: rest =>
      match rest with
      | [] => True
      | t' :: _ =>
          (t' = t \/ t + timedelta_seconds step_seconds <= t')
          /\ steps_fit step_seconds rest
      end
  end.

(** [x] lies between [a] and [b], whichever of the two is the larger. *)
Definition between (a b x : Q) : Prop :=
  (a <= x <= b)%Q \/ (b <= x <= a)%Q.

Section Scanner.

Variable pow_half : Q -> Q.
Variables primary_path sim_path : list waypoint.
Variable sim_drone_id : string.
Variable safety_distance : Q.
Variable end_time : datetime.

(** The scanner alone: the conflicts detected at the sampling instants,
    in time order, none of them dropped. *)
Fixpoint raw_events (fuel : nat) (current_time : datetime) : result (list conflict) :=
  if current_time <=? end_time then
    match fuel with
    | O => ret []
    | S fuel' =>
        found <- detect_at pow_half primary_path sim_path sim_drone_id
                   safety_distance current_time ;;
        later <- raw_events fuel' (current_time + timedelta_seconds check_interval) ;;
        ret (match found with
             | Some potential => potential :: later
             | None => later
             end)
    end
  else ret [].

(** The deduplicator alone: each event in turn is dropped when it falls
    in the zone of an accepted report and accepted otherwise. *)
Fixpoint deduplicate (events accepted : list conflict) : list conflict :=
  match events with
  | [] => accepted
  | potential :: later =>
      if is_new_conflict pow_half potential accepted then
        deduplicate later (accepted ++ [potential])
      else deduplicate later accepted
  end.

End Scanner.

(** The conflicts that [detect_path_conflicts] detects before it
    deduplicates them. *)
Definition detected_events (pow_half : Q -> Q) (primary_path sim_path : list waypoint)
    (sim_drone_id : string) (safety_distance : Q) : result (list conflict) :=
  match map timestamp primary_path, map timestamp sim_path with
  | p :: ps, s :: ss =>
      let start_time := Z.max (py_min p ps) (py_min s ss) in
      let end_time := Z.min (py_max p ps) (py_max s ss) in
      if start_time >=? end_time then ret []
      else
        raw_events pow_half primary_path sim_path sim_drone_id safety_distance
          end_time (iterations end_time start_time) start_time
  | _, _ => ret []
  end.

(** The distance field of a report: a separation within the safety
    distance, rounded to two decimals. *)
Definition rounded_within (safety_distance : Q) (c : conflict) : Prop :=
  exists dist, (dist <= safety_distance)%Q /\ distance c = py_round2 dist.

(** What follows for the field: at most the rounded safety distance, and
    at most 0.005 above the safety distance. *)
Definition within_rounded_threshold (safety_distance : Q) (c : conflict) : Prop :=
  rounded_within safety_distance c
  /\ (distance c <= py_round2 safety_distance)%Q
  /\ (distance c <= safety_distance + (1 # 200))%Q.

Section Zones.

Variable pow_half : Q -> Q.

(** More than 120 seconds and more than 50 distance units apart, the
    distance taken between the primary-drone locations. *)
Definition far_apart (a b : conflict) : Prop :=
  (120 < time_diff a b)%Q /\ (50 < spatial_distance pow_half a b)%Q.

(** Within 120 seconds or within 50 distance units. *)
Definition same_zone_as (a b : conflict) : Prop :=
  (time_diff a b <= 120)%Q \/ (spatial_distance pow_half a b <= 50)%Q.

(** All events within 120 seconds of each other. *)
Definition within_span (events : list conflict) : Prop :=
  forall a b, In a events -> In b events -> (time_diff a b <= 120)%Q.

(** The events split in two non-empty groups, each event of one group far
    from each event of the other. *)
Definition two_separated_groups (group : conflict -> bool) (events : list conflict)
  : Prop :=
  (exists a, In a events /\ group a = true)
  /\ (exists b, In b events /\ group b = false)
  /\ forall a b, In a events -> In b events -> group a <> group b -> far_apart a b.

(** Each group is one cluster: any two of its events are within 120
    seconds or within 50 distance units of each other. *)
Definition groups_are_clusters (group : conflict -> bool) (events : list conflict)
  : Prop :=
  forall a b, In a events -> In b events -> group a = group b -> same_zone_as a b.

End Zones.

(** Two waypoints that [interpolate_waypoints] can read: both with the
    keys ['x'], ['y'], ['z'], or both with a ['position'] of three
    coordinates at least. *)
Definition interpolable (c1 c2 : coords) : Prop :=
  match c1, c2 with
  | Named _ _ (Some _), Named _ _ (Some _) => True
  | Packed p1, Packed p2 => (3 <= List.length p1)%nat /\ (3 <= List.length p2)%nat
  | _, _ => False
  end.

Fixpoint interpolable_trajectory (wps : list waypoint) : Prop :=
  match wps with
  | [] => True
  | wp1 :: rest =>
      match rest with
      | [] => True
      | wp2 :: _ =>
          interpolable (wp_coords wp1) (wp_coords wp2) /\ interpolable_trajectory rest
      end
  end.

(** Each instant is before the next one. *)
Fixpoint strictly_increasing (ts : list datetime) : Prop :=
  match ts with
  | [] => True
  | t :: rest =>
      match rest with
      | [] => True
      | t' :: _ => t < t' /\ strictly_increasing rest
      end
  end.

(** No instant is after the one before it. *)
Fixpoint never_advances (ts : list datetime) : Prop :=
  match ts with
  | [] => True
  | t :: rest =>
      match rest with
      | [] => True
      | t' :: _ => t' <= t /\ never_advances rest
      end
  end.

(** Two coordinate records that the checker reads as the same point. *)
Definition same_place (c1 c2 : coords) : Prop :=
  exists x1 y1 z1 x2 y2 z2,
    ConflictChecker.get_coords c1 = ret (x1, y1, z1)
    /\ ConflictChecker.get_coords c2 = ret (x2, y2, z2)
    /\ (x1 == x2)%Q /\ (y1 == y2)%Q /\ (z1 == z2)%Q.

(** An instant of the sampling grid of the scanner: a whole number of
    check intervals after [start_time], not after [end_time]. *)
Definition on_grid (start_time end_time t : datetime) : Prop :=
  start_time <= t <= end_time
  /\ exists k, 0 <= k /\ t = start_time + timedelta_seconds (k * check_interval).

(** A later report [b] against an earlier report [a]: outside its zone,
    and more than 120 seconds after it. *)
Definition apart_from (pow_half : Q -> Q) (a b : conflict) : Prop :=
  far_apart pow_half b a /\ timestamp_obj a + 120000000 < timestamp_obj b.

(** The reports of one simulated flight against [primary_path], as
    [check_deconfliction] asks for them: on the continuous path of the
    flight, under the identifier of the flight. *)
Definition reports_of_flight (pow_half : Q -> Q) (primary_path : list waypoint)
    (safety_distance : Q) (time_threshold : Z) (sim_flight : mission)
    (reports : list conflict) : Prop :=
  exists sim_path,
    generate_continuous_path sim_flight 1 = ret sim_path
    /\ detect_path_conflicts pow_half primary_path sim_path (flight_id sim_flight)
         safety_distance time_threshold = ret reports
    /\ Forall (fun c => conflicting_drone c = flight_id sim_flight
                        /\ c_drone_id c = flight_id sim_flight) reports.

(** The continuous path of the flight can be generated. *)
Definition has_continuous_path (sim_flight : mission) : Prop :=
  exists sim_path, generate_continuous_path sim_flight 1 = ret sim_path.

(** A waypoint dictionary whose coordinates [euclidean_distance] can
    read; one with the keys ['x'], ['y'] and ['z']; one with the key
    ['position']. *)
Definition readable (w : waypoint) : Prop :=
  exists c, Utils.get_coords (Utils.Dict (wp_coords w)) = ret c.

Definition has_xyz (w : waypoint) : Prop :=
  exists x y z, wp_coords w = Named x y (Some z).

Definition is_packed (w : waypoint) : Prop :=
  exists l, wp_coords w = Packed l.

(** The test of [check_waypoint_conflicts] on a pair of waypoints: both
    thresholds included. *)
Definition within_thresholds (sqrt : Q -> Q) (safety_distance time_threshold : Q)
    (p_wp s_wp : waypoint) : bool :=
  match Utils.euclidean_distance sqrt (Utils.Dict (wp_coords p_wp))
          (Utils.Dict (wp_coords s_wp)) with
  | inr d =>
      Qle_bool d safety_distance
      && Qle_bool (seconds_between (timestamp p_wp) (timestamp s_wp)) time_threshold
  | inl _ => false
  end.

(** Some waypoint of the primary mission passes the test with some
    waypoint of the flight. *)
Definition has_close_pair (sqrt : Q -> Q) (safety_distance time_threshold : Q)
    (primary_mission sim_flight : mission) : bool :=
  existsb (fun p_wp =>
             existsb (within_thresholds sqrt safety_distance time_threshold p_wp)
               (waypoints sim_flight))
    (waypoints primary_mission).

(** The detail [d] describes the waypoint [s_wp] of the flight
    [sim_flight]. *)
Definition reported_as (sim_flight : mission) (s_wp : waypoint)
    (d : waypoint_conflict) : Prop :=
  id sim_flight = Some (wc_conflicting_drone d)
  /\ wp_coords s_wp
     = Named (loc_x (wc_location d)) (loc_y (wc_location d))
         (Some (loc_z (wc_location d)))
  /\ wc_time d = timestamp s_wp.

(** A flight that [check_waypoint_conflicts] can report: it has an
    ['id'] and its waypoints have ['x'], ['y'] and ['z']. *)
Definition reportable (sim_flight : mission) : Prop :=
  id sim_flight <> None /\ Forall has_xyz (waypoints sim_flight).

(** A flight known by its ['drone_id'] only, or one whose waypoints use
    the key ['position']. *)
Definition unreportable (sim_flight : mission) : Prop :=
  Forall readable (waypoints sim_flight)
  /\ (id sim_flight = None \/ Forall is_packed (waypoints sim_flight)).

(** The exception that building a detail for such a flight raises. *)
Definition legacy_error (sim_flight : mission) : py_error :=
  match id sim_flight with
  | None => KeyError "id"
  | Some _ => KeyError "x"
  end.

(** What a collision [c] reported by the simulator [self] at the instant
    [t] says: both drones have a position at [t], [c] holds the two
    positions and their distance, and the distance is below the safety
    distance. *)
Definition is_collision (sqrt : Q -> Q) (self : RealtimeSimulator.simulator)
    (t : datetime) (c : RealtimeSimulator.collision) : Prop :=
  RealtimeSimulator.col_time c = t
  /\ RealtimeSimulator.get_drone_position_at_time
       (RealtimeSimulator.primary_path self) t
     = ret (Some (RealtimeSimulator.primary_pos c))
  /\ (exists sim_path,
         In sim_path (RealtimeSimulator.simulated_paths self)
         /\ RealtimeSimulator.simulated_drone c = RealtimeSimulator.sp_id sim_path
         /\ RealtimeSimulator.get_drone_position_at_time
              (RealtimeSimulator.sp_path sim_path) t
            = ret (Some (RealtimeSimulator.simulated_pos c)))
  /\ Utils.euclidean_distance sqrt
       (Utils.Dict (wp_coords (RealtimeSimulator.primary_pos c)))
       (Utils.Dict (wp_coords (RealtimeSimulator.simulated_pos c)))
     = ret (RealtimeSimulator.col_distance c)
  /\ (RealtimeSimulator.col_distance c < RealtimeSimulator.safety_distance self)%Q
  /\ RealtimeSimulator.safety_violation c
     = (RealtimeSimulator.safety_distance self - RealtimeSimulator.col_distance c)%Q
  /\ (0 < RealtimeSimulator.safety_violation c)%Q.

(** An instant without a fraction of a second. *)
Definition whole_second (t : datetime) : Prop := t mod 1000000 = 0.

(** The plotter after one call of [add_waypoint] for each point, in
    order. *)
Definition add_waypoints (self : PrimaryDronePlotter.plotter)
    (points : list (Q * Q * Q)) : PrimaryDronePlotter.plotter :=
  fold_left (fun s '(x, y, z) => PrimaryDronePlotter.add_waypoint s x y z) points self.

(** The instant that [recalculate_timestamps] gives waypoint [i] of [n],
    and the instants of [count] waypoints from waypoint [i] on. *)
Definition spread_stamp (start_dt : datetime) (total_duration : Q) (n i : Z)
  : datetime :=
  strftime_seconds
    (start_dt
     + timedelta_seconds (py_int (inject_Z i * total_duration / inject_Z (n - 1)))).

Fixpoint spread_stamps (start_dt : datetime) (total_duration : Q) (n i : Z)
    (count : nat) : list datetime :=
  match count with
  | O => []
  | S count' =>
      spread_stamp start_dt total_duration n i
      :: spread_stamps start_dt total_duration n (i + 1) count'
  end.

(** A waypoint whose coordinates the checker can read. *)
Definition located (w : waypoint) : Prop :=
  exists c, get_coords (wp_coords w) = ret c.

(** * Example inputs *)

(** An instance of [x ** 0.5] to run the engine on examples: the square
    root cut to six decimals. *)
Definition pow_half_micro (q : Q) : Q :=
  Z.sqrt (Qfloor (q * 1000000000000)) # 1000000.

(** A trajectory of two waypoints one second apart, flown from
    2025-08-04T10:00:00. *)
Definition one_second_hop : mission :=
  {| waypoints :=
       [ mkWaypoint (Named 0 0 (Some 10%Q)) (make_datetime 2025 8 4 10 0 0);
         mkWaypoint (Named 10 0 (Some 10%Q)) (make_datetime 2025 8 4 10 0 1) ];
     drone_id := None;
     id := None |}.

(** The primary drone hovers at the origin for ten seconds; the other
    drone hovers 1.996 away from it during the same ten seconds. *)
Definition hover_origin : list waypoint :=
  [ mkWaypoint (Named 0 0 (Some 0%Q)) (make_datetime 2025 8 4 10 0 0);
    mkWaypoint (Named 0 0 (Some 0%Q)) (make_datetime 2025 8 4 10 0 10) ].

Definition hover_near_start : waypoint :=
  mkWaypoint (Named (1996 # 1000) 0 (Some 0%Q)) (make_datetime 2025 8 4 10 0 0).

Definition hover_near_end : waypoint :=
  mkWaypoint (Named (1996 # 1000) 0 (Some 0%Q)) (make_datetime 2025 8 4 10 0 10).

Definition hover_near : list waypoint := [hover_near_start; hover_near_end].

(** The primary drone flies 250 units along the x axis in 250 seconds from
    2025-08-04T10:00:00.  The other drone meets it at the start, after
    125 seconds and after 250 seconds, and keeps 1000 units away in
    between. *)
Definition straight_line : list waypoint :=
  [ mkWaypoint (Named 0 0 (Some 0%Q)) (make_datetime 2025 8 4 10 0 0);
    mkWaypoint (Named 250 0 (Some 0%Q)) (make_datetime 2025 8 4 10 4 10) ].

Definition three_meetings : list waypoint :=
  [ mkWaypoint (Named 0 0 (Some 0%Q)) (make_datetime 2025 8 4 10 0 0);
    mkWaypoint (Named 0 1000 (Some 0%Q)) (make_datetime 2025 8 4 10 0 5);
    mkWaypoint (Named 125 1000 (Some 0%Q)) (make_datetime 2025 8 4 10 2 0);
    mkWaypoint (Named 125 0 (Some 0%Q)) (make_datetime 2025 8 4 10 2 5);
    mkWaypoint (Named 125 1000 (Some 0%Q)) (make_datetime 2025 8 4 10 2 10);
    mkWaypoint (Named 250 1000 (Some 0%Q)) (make_datetime 2025 8 4 10 4 5);
    mkWaypoint (Named 250 0 (Some 0%Q)) (make_datetime 2025 8 4 10 4 10) ].

(** The other drone flies with the primary drone of [straight_line]
    during its first ten seconds and during its last ten seconds, and
    keeps 1000 units away in between. *)
Definition two_meetings : list waypoint :=
  [ mkWaypoint (Named 0 0 (Some 0%Q)) (make_datetime 2025 8 4 10 0 0);
    mkWaypoint (Named 10 0 (Some 0%Q)) (make_datetime 2025 8 4 10 0 10);
    mkWaypoint (Named 10 1000 (Some 0%Q)) (make_datetime 2025 8 4 10 0 15);
    mkWaypoint (Named 240 1000 (Some 0%Q)) (make_datetime 2025 8 4 10 3 55);
    mkWaypoint (Named 240 0 (Some 0%Q)) (make_datetime 2025 8 4 10 4 0);
    mkWaypoint (Named 250 0 (Some 0%Q)) (make_datetime 2025 8 4 10 4 10) ].

(** The group of the events of the first 200 seconds. *)
Definition before_200s (c : conflict) : bool :=
  timestamp_obj c <? make_datetime 2025 8 4 10 3 20.

(** The primary drone is active from 10:00 to 10:05 and the other drone
    from 10:10 to 10:15, at the same coordinates. *)
Definition early_flight : list waypoint :=
  [ mkWaypoint (Named 0 0 (Some 10%Q)) (make_datetime 2025 8 4 10 0 0);
    mkWaypoint (Named 100 100 (Some 10%Q)) (make_datetime 2025 8 4 10 5 0) ].

Definition late_flight : list waypoint :=
  [ mkWaypoint (Named 0 0 (Some 10%Q)) (make_datetime 2025 8 4 10 10 0);
    mkWaypoint (Named 100 100 (Some 10%Q)) (make_datetime 2025 8 4 10 15 0) ].

Ltac concrete_extremum :=
  split;
  [ simpl; tauto
  | let x := fresh "x" in
    let Hx := fresh "Hx" in
    intros x Hx; simpl in Hx;
    repeat (destruct Hx as [<- | Hx]; [vm_compute; discriminate |]);
    destruct Hx ].

Ltac concrete_members :=
  let wp := fresh "wp" in
  let Hwp := fresh "Hwp" in
  intros wp Hwp; simpl in Hwp;
  repeat (destruct Hwp as [<- | Hwp]; [vm_compute; reflexivity |]);
  destruct Hwp.

(** A point in the three encodings [euclidean_distance] reads. *)
Definition point_named : Utils.position := Utils.Dict (Named 0 0 (Some 10%Q)).

Definition point_packed : Utils.position := Utils.Dict (Packed [3; 4; 10]%Q).

Definition point_array : Utils.position := Utils.Array [3; 4; 10]%Q.

(** Three waypoints stamped 10:00:00, 10:00:00 and 09:59:00. *)
Definition backwards_mission : mission :=
  {| waypoints :=
       [ mkWaypoint (Named 0 0 (Some 10%Q)) (make_datetime 2025 8 4 10 0 0);
         mkWaypoint (Packed [5; 5; 10]%Q) (make_datetime 2025 8 4 10 0 0);
         mkWaypoint (Named 9 9 None) (make_datetime 2025 8 4 9 59 0) ];
     drone_id := None;
     id := None |}.

(** A segment of three seconds between two waypoints in the same
    encoding. *)
Definition segment_start : waypoint :=
  mkWaypoint (Named 0 0 (Some 10%Q)) (make_datetime 2025 8 4 10 0 0).

Definition segment_end : waypoint :=
  mkWaypoint (Named 30 60 (Some 10%Q)) (make_datetime 2025 8 4 10 0 3).

Definition segment_end_packed : waypoint :=
  mkWaypoint (Packed [30; 60; 10]%Q) (make_datetime 2025 8 4 10 0 3).

(** A mission of the single waypoint at which [hover_origin] starts, and
    the flight that hovers there, known by its ['id'] only. *)
Definition single_point_mission : mission :=
  {| waypoints := [ mkWaypoint (Named 0 0 (Some 0%Q)) (make_datetime 2025 8 4 10 0 0) ];
     drone_id := None;
     id := None |}.

Definition hover_origin_mission : mission :=
  {| waypoints := hover_origin; drone_id := None; id := None |}.

Definition hover_origin_flight : mission :=
  {| waypoints := hover_origin; drone_id := None; id := Some "SIM_ID"%string |}.

Definition hover_near_flight : mission :=
  {| waypoints := hover_near; drone_id := Some "SIM_001"%string;
     id := Some "other"%string |}.

(** The flight [hover_near] as the simulated flights of the repository
    are written: known by its ['drone_id'] only. *)
Definition hover_near_by_drone_id : mission :=
  {| waypoints := hover_near; drone_id := Some "SIM_001"%string; id := None |}.

(** A flight that hovers exactly 2 units from the origin while
    [hover_origin] hovers there. *)
Definition hover_at_two : mission :=
  {| waypoints :=
       [ mkWaypoint (Named 2 0 (Some 0%Q)) (make_datetime 2025 8 4 10 0 0);
         mkWaypoint (Named 2 0 (Some 0%Q)) (make_datetime 2025 8 4 10 0 10) ];
     drone_id := Some "SIM_002"%string;
     id := None |}.

(** The simulator of [hover_origin] against [hover_near] and
    [hover_at_two], with a safety distance of 2. *)
Definition hover_simulator : RealtimeSimulator.simulator :=
  {| RealtimeSimulator.primary_path := hover_origin;
     RealtimeSimulator.simulated_paths :=
       [ RealtimeSimulator.mkSimulatedPath "SIM_001" hover_near;
         RealtimeSimulator.mkSimulatedPath "SIM_002" (waypoints hover_at_two) ];
     RealtimeSimulator.safety_distance := 2;
     RealtimeSimulator.start_time := make_datetime 2025 8 4 10 0 0;
     RealtimeSimulator.end_time := make_datetime 2025 8 4 10 0 10 |}.

(** A flight along [late_flight], without any identifier, and a mission
    without waypoints. *)
Definition late_start : mission :=
  {| waypoints := late_flight; drone_id := None; id := None |}.

Definition no_waypoints : mission :=
  {| waypoints := []; drone_id := None; id := None |}.

(** The plotter as [__init__] leaves it: no waypoint, the mission from
    2025-08-04T10:00:00 to 2025-08-04T10:15:00. *)
Definition new_plotter : PrimaryDronePlotter.plotter :=
  {| PrimaryDronePlotter.primary_waypoints := [];
     PrimaryDronePlotter.primary_start_time := make_datetime 2025 8 4 10 0 0;
     PrimaryDronePlotter.primary_end_time := make_datetime 2025 8 4 10 15 0 |}.

Definition three_clicks : list (Q * Q * Q) :=
  [ (0, 0, 10); (50, 0, 10); (50, 50, 10) ]%Q.

(** [datetime.fromisoformat] on the strings of the examples: the
    fixed-width form alone, which gives a naive datetime, or followed by
    the offset [+00:00], which gives an aware one. *)
Definition has_utc_offset (s : string) : bool :=
  String.eqb (substring (String.length s - 6) 6 s) "+00:00".

Definition fromisoformat_utc (s : string) : result datetime :=
  if has_utc_offset s then
    py_fromisoformat_seconds (substring 0 (String.length s - 6) s)
  else py_fromisoformat_seconds s.

(** * Properties *)

(** ** The exception monad *)

Lemma bind_ret_inv {A B : Type} (m : result A) (k : A -> result B) (b : B) :
  bind m k = ret b -> exists a, m = ret a /\ k a = ret b.
Proof.
  destruct m as [e | a]; simpl; intros H.
  - discriminate H.
  - exists a. split; [reflexivity | exact H].
Qed.

Lemma bind_raise_inv {A B : Type} (m : result A) (k : A -> result B) (e : py_error) :
  bind m k = raise e -> m = raise e \/ exists a, m = ret a /\ k a = raise e.
Proof.
  destruct m as [e' | a]; simpl; intros H.
  - left. injection H as ->. reflexivity.
  - right. exists a. split; [reflexivity | exact H].
Qed.

Lemma mapM_ret_map {A B C : Type} (f : A -> result B) (g : B -> C) (h : A -> C) :
  (forall x y, f x = ret y -> g y = h x) ->
  forall xs ys, mapM f xs = ret ys -> map g ys = map h xs.
Proof.
  intros Hf. induction xs as [| x xs IH]; simpl; intros ys H.
  - injection H as <-. reflexivity.
  - apply bind_ret_inv in H. destruct H as [y [Hy H]].
    apply bind_ret_inv in H. destruct H as [ys' [Hys H]].
    injection H as <-. simpl. rewrite (Hf _ _ Hy), (IH _ Hys). reflexivity.
Qed.

(** ** Time arithmetic *)

Lemma total_seconds_pos (td : timedelta) :
  0 < td <-> (0 < total_seconds td)%Q.
Proof.
  unfold total_seconds, Qlt. simpl. lia.
Qed.

Lemma total_seconds_nonneg (td : timedelta) :
  0 <= td <-> (0 <= total_seconds td)%Q.
Proof.
  unfold total_seconds, Qle. simpl. lia.
Qed.

Lemma total_seconds_zero (td : timedelta) :
  Qeq_bool (total_seconds td) 0 = true <-> td = 0.
Proof.
  unfold total_seconds, Qeq_bool. simpl. rewrite Z.eqb_eq. lia.
Qed.

Lemma total_seconds_le0 (td : timedelta) :
  Qle_bool (total_seconds td) 0 = true <-> td <= 0.
Proof.
  unfold total_seconds, Qle_bool. simpl. rewrite Z.leb_le. lia.
Qed.

(** ** The bracketing search *)

Lemma find_brackets_after (path : list waypoint) (t : datetime) :
  forall b0 b a, find_brackets path t b0 = (b, Some a) ->
                 In a path /\ t < timestamp a.
Proof.
  induction path as [| p path IH]; simpl; intros b0 b a H.
  - discriminate H.
  - destruct (timestamp p <=? t) eqn:Hle.
    + destruct (IH _ _ _ H) as [Hin Hlt]. auto.
    + destruct (timestamp p >? t) eqn:Hgt.
      * injection H as _ <-. split; [left; reflexivity | lia].
      * lia.
Qed.

Lemma find_brackets_before (path : list waypoint) (t : datetime) :
  forall b0 b a, find_brackets path t b0 = (Some b, a) ->
                 (b0 = Some b \/ In b path) /\
                 ((forall w, b0 = Some w -> timestamp w <= t) -> timestamp b <= t).
Proof.
  induction path as [| p path IH]; simpl; intros b0 b a H.
  - injection H as -> _. split; [left; reflexivity | intros Hb; apply Hb; reflexivity].
  - destruct (timestamp p <=? t) eqn:Hle.
    + destruct (IH _ _ _ H) as [Hin Hb]. split.
      * destruct Hin as [Heq | Hin]; [injection Heq as <-; right; left; reflexivity | auto].
      * intros _. apply Hb. intros w Hw. injection Hw as <-. lia.
    + destruct (timestamp p >? t) eqn:Hgt.
      * injection H as -> _. split; [left; reflexivity | intros Hb; apply Hb; reflexivity].
      * lia.
Qed.

(** Before the first sample: no bracket on the left. *)
Lemma find_brackets_early (path : list waypoint) (t : datetime) :
  (forall wp, In wp path -> t < timestamp wp) ->
  fst (find_brackets path t None) = None.
Proof.
  destruct path as [| p path]; simpl; intros H; [reflexivity |].
  assert (Hp : t < timestamp p) by (apply H; left; reflexivity).
  destruct (timestamp p <=? t) eqn:Hle; [lia |].
  destruct (timestamp p >? t) eqn:Hgt; [reflexivity | lia].
Qed.

Lemma last_cons {A : Type} (l : list A) (a d : A) :
  last (a :: l) d = last l a.
Proof.
  revert a d. induction l as [| b l IH]; intros a d; [reflexivity |].
  change (last (a :: b :: l) d) with (last (b :: l) d).
  rewrite (IH b d), (IH b a). reflexivity.
Qed.

(** At or after every sample: the left bracket is the final sample and
    there is no right bracket. *)
Lemma find_brackets_late (path : list waypoint) (t : datetime) :
  (forall wp, In wp path -> timestamp wp <= t) ->
  forall b0, find_brackets path t b0
             = (match path with [] => b0 | p :: ps => Some (last ps p) end, None).
Proof.
  induction path as [| p path IH]; simpl; intros H b0; [reflexivity |].
  assert (Hp : timestamp p <= t) by (apply H; left; reflexivity).
  destruct (timestamp p <=? t) eqn:Hle; [| lia].
  rewrite IH by (intros wp Hwp; apply H; right; exact Hwp).
  destruct path as [| w path]; [reflexivity |].
  rewrite last_cons. reflexivity.
Qed.

Lemma get_coords_raises (c : coords) (e : py_error) :
  get_coords c = raise e -> e = IndexError.
Proof.
  destruct c as [x y z | p]; simpl; [discriminate |].
  unfold index, raise.
  destruct p as [| a [| b [| c p]]]; simpl; intros H; inversion H; reflexivity.
Qed.

(** ** Minimum and maximum of the timestamps *)

Lemma py_min_is_min (t : datetime) (ts : list datetime) :
  is_min_of (py_min t ts) (t :: ts).
Proof.
  unfold py_min. revert t. induction ts as [| u ts IH]; intros t; simpl.
  - split; [left; reflexivity | intros x [<- | []]; lia].
  - destruct (IH (Z.min t u)) as [Hin Hle]. split.
    + destruct Hin as [Heq | Hin]; [| right; right; exact Hin].
      rewrite <- Heq. destruct (Z.min_spec t u) as [[_ ->] | [_ ->]]; simpl; auto.
    + intros x [<- | [<- | Hx]].
      * specialize (Hle (Z.min t u) (or_introl eq_refl)). lia.
      * specialize (Hle (Z.min t u) (or_introl eq_refl)). lia.
      * apply Hle. right. exact Hx.
Qed.

Lemma py_max_is_max (t : datetime) (ts : list datetime) :
  is_max_of (py_max t ts) (t :: ts).
Proof.
  unfold py_max. revert t. induction ts as [| u ts IH]; intros t; simpl.
  - split; [left; reflexivity | intros x [<- | []]; lia].
  - destruct (IH (Z.max t u)) as [Hin Hle]. split.
    + destruct Hin as [Heq | Hin]; [| right; right; exact Hin].
      rewrite <- Heq. destruct (Z.max_spec t u) as [[_ ->] | [_ ->]]; simpl; auto.
    + intros x [<- | [<- | Hx]].
      * specialize (Hle (Z.max t u) (or_introl eq_refl)). lia.
      * specialize (Hle (Z.max t u) (or_introl eq_refl)). lia.
      * apply Hle. right. exact Hx.
Qed.

Lemma is_min_of_unique (m m' : datetime) (ts : list datetime) :
  is_min_of m ts -> is_min_of m' ts -> m = m'.
Proof.
  intros [Hin Hle] [Hin' Hle']. specialize (Hle _ Hin'). specialize (Hle' _ Hin). lia.
Qed.

Lemma is_max_of_unique (m m' : datetime) (ts : list datetime) :
  is_max_of m ts -> is_max_of m' ts -> m = m'.
Proof.
  intros [Hin Hle] [Hin' Hle']. specialize (Hle _ Hin'). specialize (Hle' _ Hin). lia.
Qed.

(** ** The scanner outside the overlap window *)

(** C1. Two non-empty paths whose overlap window is empty, that is whose
    later first instant is at or after their earlier last instant, yield
    no conflict at all, wherever the two drones are. *)
Theorem no_overlap_no_conflict (pow_half : Q -> Q)
    (primary_path sim_path : list waypoint) (sim_drone_id : string)
    (safety_distance : Q) (time_threshold : Z)
    (primary_min primary_max sim_min sim_max : datetime) :
  is_min_of primary_min (map timestamp primary_path) ->
  is_max_of primary_max (map timestamp primary_path) ->
  is_min_of sim_min (map timestamp sim_path) ->
  is_max_of sim_max (map timestamp sim_path) ->
  Z.max primary_min sim_min >= Z.min primary_max sim_max ->
  detect_path_conflicts pow_half primary_path sim_path sim_drone_id
    safety_distance time_threshold = ret [].
Proof.
  intros Hpmin Hpmax Hsmin Hsmax Hwin.
  unfold detect_path_conflicts.
  destruct (map timestamp primary_path) as [| p ps]; [reflexivity |].
  destruct (map timestamp sim_path) as [| s ss]; [reflexivity |].
  rewrite (is_min_of_unique _ _ _ (py_min_is_min p ps) Hpmin).
  rewrite (is_min_of_unique _ _ _ (py_min_is_min s ss) Hsmin).
  rewrite (is_max_of_unique _ _ _ (py_max_is_max p ps) Hpmax).
  rewrite (is_max_of_unique _ _ _ (py_max_is_max s ss) Hsmax).
  destruct (Z.max primary_min sim_min >=? Z.min primary_max sim_max) eqn:Hge;
    [reflexivity | lia].
Qed.

(** ** The position query outside the time span *)

(** C3. On a non-empty path the position query answers "not active"
    ([None]) for an instant before every sample, and for an instant at or
    after every sample it answers with the coordinates of the final
    sample, the same for every such instant. *)
Theorem position_outside_time_span (p : waypoint) (ps : list waypoint)
    (t : datetime) :
  ((forall wp, In wp (p :: ps) -> t < timestamp wp) ->
   get_drone_position_at_time (p :: ps) t = ret None)
  /\
  ((forall wp, In wp (p :: ps) -> timestamp wp <= t) ->
   get_drone_position_at_time (p :: ps) t = frozen_at (last ps p) t).
Proof.
  split; intros H; unfold get_drone_position_at_time.
  - pose proof (find_brackets_early _ _ H) as Hb.
    destruct (find_brackets (p :: ps) t None) as [b a]. simpl in Hb. subst b.
    reflexivity.
  - rewrite (find_brackets_late _ _ H). reflexivity.
Qed.

(** ** Divisions *)

Lemma interpolation_parameter_defined (i n : Z) :
  1 <= n -> interpolation_parameter i n = ret (inject_Z i / inject_Z n)%Q.
Proof.
  intros Hn. unfold interpolation_parameter, py_div.
  destruct (0 <? n) eqn:E; [| lia].
  destruct (Qeq_bool (inject_Z n) 0) eqn:E0; [| reflexivity].
  apply Qeq_bool_iff in E0. unfold Qeq in E0. simpl in E0. lia.
Qed.

Lemma mapM_raise_inv {A B : Type} (f : A -> result B) (xs : list A) (e : py_error) :
  mapM f xs = raise e -> exists x, In x xs /\ f x = raise e.
Proof.
  induction xs as [| x xs IH]; cbn [mapM]; intros H; [discriminate H |].
  apply bind_raise_inv in H. destruct H as [H | [y [_ H]]].
  - exists x. split; [left; reflexivity | exact H].
  - apply bind_raise_inv in H. destruct H as [H | [ys [_ H]]]; [| discriminate H].
    destruct (IH H) as [x' [Hin Hx']]. exists x'. split; [right; exact Hin | exact Hx'].
Qed.

(** The coordinates of a sample are read and combined without any
    division. *)
Lemma interpolate_position_raises (c1 c2 : coords) (t : Q) (e : py_error) :
  interpolate_position c1 c2 t = raise e -> e <> ZeroDivisionError.
Proof.
  unfold raise.
  destruct c1 as [x1 y1 [z1 |] | [| a1 [| b1 [| d1 p1]]]],
           c2 as [x2 y2 [z2 |] | [| a2 [| b2 [| d2 p2]]]];
    simpl; intros H; inversion H; discriminate.
Qed.

Lemma interpolate_waypoints_no_zero_division (wp1 wp2 : waypoint) (step_seconds : Z) :
  step_seconds <> 0 ->
  interpolate_waypoints wp1 wp2 step_seconds <> raise ZeroDivisionError.
Proof.
  intros Hs. unfold interpolate_waypoints.
  destruct (Qle_bool _ 0); [discriminate |].
  unfold num_steps, py_div.
  assert (E : Qeq_bool (inject_Z step_seconds) 0 = false).
  { destruct (Qeq_bool _ 0) eqn:E; [| reflexivity].
    apply Qeq_bool_iff in E. unfold Qeq in E. simpl in E. lia. }
  rewrite E. cbn [bind ret]. intros H.
  apply mapM_raise_inv in H. destruct H as [i [_ H]].
  rewrite interpolation_parameter_defined in H by lia. cbn [bind ret] in H.
  apply bind_raise_inv in H. destruct H as [H | [pos [_ H]]]; [| discriminate H].
  exact (interpolate_position_raises _ _ _ _ H eq_refl).
Qed.

(** C10, as the code has it. When both brackets exist the left one is at
    or before the query instant and the right one after it, so their
    distance in time is positive: the test [total_time == 0] fails, the
    division by [total_time] is defined and the query never raises
    [ZeroDivisionError]; and [interpolate_waypoints] divides the sample
    index by a [num_steps] that is at least 1, and the duration by the
    step of the caller, so that it never raises [ZeroDivisionError] with
    a step other than 0. *)
Theorem interpolation_divisors_positive :
  (forall path t before_point after_point,
      find_brackets path t None = (Some before_point, Some after_point) ->
      timestamp before_point <= t < timestamp after_point /\
      (0 < total_seconds (timestamp after_point - timestamp before_point))%Q /\
      Qeq_bool (total_seconds (timestamp after_point - timestamp before_point)) 0
      = false)
  /\ (forall path t, get_drone_position_at_time path t <> raise ZeroDivisionError)
  /\ (forall duration step_seconds n,
         num_steps duration step_seconds = ret n -> 1 <= n)
  /\ (forall i n, 1 <= n ->
         interpolation_parameter i n = ret (inject_Z i / inject_Z n)%Q)
  /\ (forall wp1 wp2 step_seconds,
         step_seconds <> 0 ->
         interpolate_waypoints wp1 wp2 step_seconds <> raise ZeroDivisionError).
Proof.
  assert (Hbr : forall path t before_point after_point,
      find_brackets path t None = (Some before_point, Some after_point) ->
      timestamp before_point <= t < timestamp after_point /\
      (0 < total_seconds (timestamp after_point - timestamp before_point))%Q /\
      Qeq_bool (total_seconds (timestamp after_point - timestamp before_point)) 0
      = false).
  { intros path t b a H.
    destruct (find_brackets_after _ _ _ _ _ H) as [_ Ha].
    destruct (find_brackets_before _ _ _ _ _ H) as [_ Hb].
    assert (Hb' : timestamp b <= t) by (apply Hb; discriminate).
    split; [lia |]. split.
    - apply (proj1 (total_seconds_pos _)). lia.
    - destruct (Qeq_bool _ 0) eqn:E; [| reflexivity].
      apply total_seconds_zero in E. lia. }
  split; [exact Hbr |]. split; [| split; [| split]].
  - intros path t. unfold get_drone_position_at_time.
    destruct path as [| p ps]; [discriminate |].
    destruct (find_brackets (p :: ps) t None) as [[b |] [a |]] eqn:E;
      try discriminate.
    + destruct (Hbr _ _ _ _ E) as [_ [_ Hz]]. rewrite Hz.
      unfold py_div. rewrite Hz. simpl.
      intros H. apply bind_raise_inv in H. destruct H as [H | [[[bx by_] bz] [_ H]]].
      * apply get_coords_raises in H. discriminate H.
      * apply bind_raise_inv in H. destruct H as [H | [[[ax ay] az] [_ H]]].
        -- apply get_coords_raises in H. discriminate H.
        -- discriminate H.
    + intros H. apply bind_raise_inv in H. destruct H as [H | [[[bx by_] bz] [_ H]]].
      * apply get_coords_raises in H. discriminate H.
      * discriminate H.
  - intros duration step_seconds n H. unfold num_steps in H.
    apply bind_ret_inv in H. destruct H as [q [_ H]]. injection H as <-. lia.
  - exact interpolation_parameter_defined.
  - exact interpolate_waypoints_no_zero_division.
Qed.

(** With a step of 0 the division [duration / step_seconds] of a segment
    of ten seconds is a division by zero. *)
Lemma interpolate_waypoints_divides_by_step :
  num_steps (total_seconds (timestamp hover_near_end - timestamp hover_near_start)) 0
  = raise ZeroDivisionError
  /\ interpolate_waypoints hover_near_start hover_near_end 0
     = raise ZeroDivisionError.
Proof.
  split; vm_compute; reflexivity.
Qed.

(** ** The samples of one segment *)

Lemma range_succ (n : Z) :
  0 <= n -> range (n + 1) = 0 :: map Z.of_nat (seq 1 (Z.to_nat n)).
Proof.
  intros Hn. unfold range.
  replace (Z.to_nat (n + 1)) with (S (Z.to_nat n)) by lia. reflexivity.
Qed.

Lemma interpolate_waypoints_times (wp1 wp2 : waypoint) (step_seconds : Z)
    (points : list waypoint) :
  interpolate_waypoints wp1 wp2 step_seconds = ret points ->
  (timestamp wp2 - timestamp wp1 <= 0 /\ points = [wp1])
  \/ (0 < timestamp wp2 - timestamp wp1 /\
      exists n, num_steps (total_seconds (timestamp wp2 - timestamp wp1)) step_seconds
                = ret n /\
                map timestamp points = sample_times (timestamp wp1) step_seconds n).
Proof.
  unfold interpolate_waypoints. intros H.
  destruct (Qle_bool (total_seconds (timestamp wp2 - timestamp wp1)) 0) eqn:E.
  - left. apply total_seconds_le0 in E. injection H as <-. auto.
  - right. split.
    + destruct (Z_lt_le_dec 0 (timestamp wp2 - timestamp wp1)) as [Hlt | Hle];
        [exact Hlt |].
      apply total_seconds_le0 in Hle. congruence.
    + apply bind_ret_inv in H. destruct H as [n [Hn H]].
      exists n. split; [exact Hn |].
      unfold sample_times. revert H. apply mapM_ret_map.
      intros i y Hy.
      apply bind_ret_inv in Hy. destruct Hy as [t [_ Hy]].
      apply bind_ret_inv in Hy. destruct Hy as [pos [_ Hy]].
      injection Hy as <-. reflexivity.
Qed.

(** Every segment starts with a sample at the instant of its first
    waypoint. *)
Lemma interpolate_waypoints_head (wp1 wp2 : waypoint) (step_seconds : Z)
    (points : list waypoint) :
  interpolate_waypoints wp1 wp2 step_seconds = ret points ->
  exists first rest, points = first :: rest /\ timestamp first = timestamp wp1.
Proof.
  intros H. apply interpolate_waypoints_times in H.
  destruct H as [[_ ->] | [_ [n [Hn H]]]].
  - exists wp1, []. auto.
  - assert (Hn1 : 1 <= n).
    { unfold num_steps in Hn. apply bind_ret_inv in Hn.
      destruct Hn as [q [_ Hn]]. injection Hn as <-. lia. }
    unfold sample_times in H. rewrite range_succ in H by lia. simpl in H.
    destruct points as [| first rest]; [discriminate H |].
    exists first, rest. split; [reflexivity |].
    simpl in H. injection H as H _. rewrite H. unfold timedelta_seconds. lia.
Qed.

(** ** The generated path: first and last element *)

Lemma interpolate_segments_head (w1 w2 : waypoint) (rest : list waypoint)
    (step_seconds : Z) (segments : list waypoint) :
  interpolate_segments (w1 :: w2 :: rest) step_seconds = ret segments ->
  exists first more, segments = first :: more /\ timestamp first = timestamp w1.
Proof.
  simpl. intros H.
  apply bind_ret_inv in H. destruct H as [points [Hp H]].
  apply bind_ret_inv in H. destruct H as [more [_ H]].
  injection H as <-.
  apply interpolate_waypoints_head in Hp. destruct Hp as [first [tl [-> Ht]]].
  exists first, (tl ++ more). auto.
Qed.

(** C5. The path generated from a non-empty trajectory is non-empty, its
    first element carries the instant of the first waypoint, and its last
    element is the last waypoint itself. *)
Theorem generated_path_endpoints (m : mission) (step_seconds : Z)
    (path : list waypoint) (w : waypoint) (ws : list waypoint) :
  waypoints m = w :: ws ->
  generate_continuous_path m step_seconds = ret path ->
  path <> []
  /\ (exists first rest, path = first :: rest /\ timestamp first = timestamp w)
  /\ (exists front, path = front ++ [last ws w]).
Proof.
  intros Hw H. unfold generate_continuous_path in H. rewrite Hw in H.
  apply bind_ret_inv in H. destruct H as [segments [Hs H]].
  injection H as <-. split; [| split].
  - destruct segments; discriminate.
  - destruct ws as [| w2 rest].
    + simpl in Hs. injection Hs as <-. exists w, []. auto.
    + apply interpolate_segments_head in Hs.
      destruct Hs as [first [more [-> Ht]]].
      exists first, (more ++ [last (w2 :: rest) w]). auto.
  - exists segments. reflexivity.
Qed.

(** ** The generated path: order of the instants *)

Lemma nondecreasing_app (l1 l2 : list datetime) (b : datetime) :
  nondecreasing l1 -> nondecreasing (b :: l2) ->
  (forall x, In x l1 -> x <= b) ->
  nondecreasing (l1 ++ b :: l2).
Proof.
  induction l1 as [| a l1 IH]; intros H1 H2 Hb; [exact H2 |].
  destruct l1 as [| a' l1].
  - simpl. split; [apply Hb; left; reflexivity | exact H2].
  - destruct H1 as [Haa H1].
    change (a <= a' /\ nondecreasing ((a' :: l1) ++ b :: l2)).
    split; [exact Haa |].
    apply IH; [exact H1 | exact H2 |].
    intros x Hx. apply Hb. right. exact Hx.
Qed.

Lemma sample_times_from (start_time step_seconds : Z) (k : nat) :
  0 <= step_seconds ->
  forall s : nat,
    let ts := map (fun i => start_time + timedelta_seconds (i * step_seconds))
                (map Z.of_nat (seq s k)) in
    nondecreasing ts
    /\ forall x, In x ts ->
         start_time + timedelta_seconds (Z.of_nat s * step_seconds) <= x
         <= start_time + timedelta_seconds ((Z.of_nat s + Z.of_nat k - 1) * step_seconds).
Proof.
  intros Hstep. unfold timedelta_seconds.
  induction k as [| k IH]; intros s; cbn [seq map];
    [split; [exact I | intros x []] |].
  destruct (IH (S s)) as [Hnd Hin]. split.
  - destruct k as [| k]; [exact I |].
    cbn [seq map] in *. cbn [nondecreasing]. split; [nia | exact Hnd].
  - intros x [<- | Hx]; [nia |].
    specialize (Hin _ Hx). nia.
Qed.

Lemma sample_times_sorted (start_time step_seconds n : Z) :
  0 <= step_seconds -> 0 <= n ->
  nondecreasing (sample_times start_time step_seconds n)
  /\ forall x, In x (sample_times start_time step_seconds n) ->
       x <= start_time + timedelta_seconds (n * step_seconds).
Proof.
  intros Hstep Hn. unfold sample_times, range.
  destruct (sample_times_from start_time step_seconds (Z.to_nat (n + 1)) Hstep 0)
    as [Hnd Hin].
  split; [exact Hnd |].
  intros x Hx. specialize (Hin _ Hx). unfold timedelta_seconds in *.
  rewrite Z2Nat.id in Hin by lia. simpl in Hin. nia.
Qed.

(** [num_steps] of a positive duration and a positive step, in integers. *)
Lemma num_steps_positive (d step_seconds : Z) :
  0 <= d -> 0 < step_seconds ->
  num_steps (total_seconds d) step_seconds
  = ret (Z.max 1 (d / (1000000 * step_seconds))).
Proof.
  intros Hd Hs. unfold num_steps, py_div.
  destruct step_seconds as [| p | p]; try lia.
  unfold total_seconds, py_int. simpl.
  rewrite Z.mul_1_r. rewrite Z.quot_div_nonneg by lia. reflexivity.
Qed.

Lemma num_steps_fit (d step_seconds n : Z) :
  0 < step_seconds -> timedelta_seconds step_seconds <= d ->
  num_steps (total_seconds d) step_seconds = ret n ->
  1 <= n /\ timedelta_seconds (n * step_seconds) <= d.
Proof.
  unfold timedelta_seconds. intros Hs Hd H.
  rewrite num_steps_positive in H by lia.
  assert (Hq : 1 <= d / (1000000 * step_seconds)).
  { apply Z.div_le_lower_bound; lia. }
  pose proof (Z.mul_div_le d (1000000 * step_seconds)) as Hm.
  remember (d / (1000000 * step_seconds)) as q eqn:Eq.
  injection H as <-. rewrite Z.max_r by lia. split; [exact Hq | lia].
Qed.

Lemma interpolate_waypoints_sorted (wp1 wp2 : waypoint) (step_seconds : Z)
    (points : list waypoint) :
  0 < step_seconds ->
  timestamp wp2 = timestamp wp1
  \/ timestamp wp1 + timedelta_seconds step_seconds <= timestamp wp2 ->
  interpolate_waypoints wp1 wp2 step_seconds = ret points ->
  nondecreasing (map timestamp points)
  /\ forall x, In x (map timestamp points) -> x <= timestamp wp2.
Proof.
  intros Hs Hfit H. apply interpolate_waypoints_times in H.
  assert (Hpos : 0 < timedelta_seconds step_seconds)
    by (unfold timedelta_seconds; lia).
  destruct H as [[Hd ->] | [Hd [n [Hn ->]]]].
  - simpl. split; [exact I | intros x [<- | []]; lia].
  - assert (Hlong : timedelta_seconds step_seconds <= timestamp wp2 - timestamp wp1)
      by lia.
    destruct (num_steps_fit _ _ _ Hs Hlong Hn) as [Hn1 Hle].
    destruct (sample_times_sorted (timestamp wp1) step_seconds n) as [Hnd Hin];
      try lia.
    split; [exact Hnd |].
    intros x Hx. specialize (Hin _ Hx). lia.
Qed.

Lemma interpolate_segments_sorted (step_seconds : Z) :
  0 < step_seconds ->
  forall ws w segments,
    steps_fit step_seconds (map timestamp (w :: ws)) ->
    interpolate_segments (w :: ws) step_seconds = ret segments ->
    exists tl, map timestamp (segments ++ [last ws w]) = timestamp w :: tl
               /\ nondecreasing (timestamp w :: tl).
Proof.
  intros Hs. induction ws as [| w2 ws IH]; intros w segments Hfit H.
  - simpl in H. injection H as <-. exists []. split; [reflexivity | exact I].
  - cbn [interpolate_segments] in H.
    apply bind_ret_inv in H. destruct H as [points [Hp H]].
    apply bind_ret_inv in H. destruct H as [more [Hm H]].
    injection H as <-.
    cbn [map steps_fit] in Hfit. destruct Hfit as [Hfit1 Hfit].
    destruct (IH _ _ Hfit Hm) as [tl' [Heq Hnd]].
    destruct (interpolate_waypoints_sorted _ _ _ _ Hs Hfit1 Hp) as [Hpnd Hple].
    destruct (interpolate_waypoints_head _ _ _ _ Hp) as [first [rest [-> Hfirst]]].
    rewrite last_cons, <- app_assoc, map_app, Heq.
    exists (map timestamp rest ++ timestamp w2 :: tl'). split.
    + simpl. rewrite Hfirst. reflexivity.
    + change (nondecreasing ((timestamp w :: map timestamp rest)
                             ++ timestamp w2 :: tl')).
      rewrite <- Hfirst.
      apply nondecreasing_app; [exact Hpnd | exact Hnd | exact Hple].
Qed.

Lemma nondecreasing_app_inv (l1 l2 : list datetime) (b : datetime) :
  nondecreasing (l1 ++ b :: l2) ->
  nondecreasing (b :: l2) /\ forall x, In x l1 -> x <= b.
Proof.
  induction l1 as [| a l1 IH]; intros H; [split; [exact H | intros x []] |].
  destruct l1 as [| a' l1].
  - destruct H as [Hab H]. split; [exact H | intros x [<- | []]; exact Hab].
  - change (a <= a' /\ nondecreasing ((a' :: l1) ++ b :: l2)) in H.
    destruct H as [Haa H]. destruct (IH H) as [Hb Hle]. split; [exact Hb |].
    intros x [<- | Hx]; [| exact (Hle _ Hx)].
    specialize (Hle a' (or_introl eq_refl)). lia.
Qed.

Lemma sample_times_last (start_time step_seconds n : Z) :
  0 <= n ->
  In (start_time + timedelta_seconds (n * step_seconds))
     (sample_times start_time step_seconds n).
Proof.
  intros Hn. unfold sample_times, range.
  apply (in_map (fun i => start_time + timedelta_seconds (i * step_seconds))).
  replace n with (Z.of_nat (Z.to_nat n)) at 1 by lia.
  apply in_map. apply in_seq. lia.
Qed.

(** A segment whose samples do not pass its second waypoint lasts no time
    or at least one step. *)
Lemma interpolate_waypoints_fits (wp1 wp2 : waypoint) (step_seconds : Z)
    (points : list waypoint) :
  0 < step_seconds ->
  interpolate_waypoints wp1 wp2 step_seconds = ret points ->
  (forall x, In x (map timestamp points) -> x <= timestamp wp2) ->
  timestamp wp2 = timestamp wp1
  \/ timestamp wp1 + timedelta_seconds step_seconds <= timestamp wp2.
Proof.
  intros Hs H Hle. apply interpolate_waypoints_times in H.
  destruct H as [[Hd ->] | [Hd [n [Hn Hts]]]].
  - left. specialize (Hle _ (or_introl eq_refl)). lia.
  - right. rewrite Hts in Hle.
    assert (Hn1 : 1 <= n).
    { unfold num_steps in Hn. apply bind_ret_inv in Hn.
      destruct Hn as [q [_ Hn]]. injection Hn as <-. lia. }
    pose proof (Hle _ (sample_times_last (timestamp wp1) step_seconds n ltac:(lia)))
      as Hlast.
    unfold timedelta_seconds in *. nia.
Qed.

Lemma interpolate_segments_start (step_seconds : Z) (w : waypoint)
    (ws : list waypoint) (segments : list waypoint) :
  interpolate_segments (w :: ws) step_seconds = ret segments ->
  exists tl, map timestamp (segments ++ [last ws w]) = timestamp w :: tl.
Proof.
  destruct ws as [| w2 ws]; intros H.
  - simpl in H. injection H as <-. exists []. reflexivity.
  - apply interpolate_segments_head in H. destruct H as [first [more [-> Ht]]].
    simpl. rewrite Ht. eexists. reflexivity.
Qed.

Lemma interpolate_segments_fit (step_seconds : Z) :
  0 < step_seconds ->
  forall ws w segments,
    interpolate_segments (w :: ws) step_seconds = ret segments ->
    nondecreasing (map timestamp (segments ++ [last ws w])) ->
    steps_fit step_seconds (map timestamp (w :: ws)).
Proof.
  intros Hs. induction ws as [| w2 ws IH]; intros w segments H Hnd; [exact I |].
  cbn [interpolate_segments] in H.
  apply bind_ret_inv in H. destruct H as [points [Hp H]].
  apply bind_ret_inv in H. destruct H as [more [Hm H]].
  injection H as <-.
  destruct (interpolate_segments_start _ _ _ _ Hm) as [tl Heq].
  rewrite last_cons, <- app_assoc, map_app, Heq in Hnd.
  apply nondecreasing_app_inv in Hnd. destruct Hnd as [Hrest Hle].
  cbn [map steps_fit]. split.
  - exact (interpolate_waypoints_fits _ _ _ _ Hs Hp Hle).
  - apply (IH _ _ Hm). rewrite Heq. exact Hrest.
Qed.

(** C4, as the code has it. With a positive step, the instants of the
    generated path never decrease, across the segment boundaries and up to
    the final waypoint appended at the end, when every segment of the
    trajectory lasts either no time or at least one step (so the waypoints
    are in time order), and only then. *)
Theorem generated_path_nondecreasing (m : mission) (step_seconds : Z)
    (path : list waypoint) :
  0 < step_seconds ->
  generate_continuous_path m step_seconds = ret path ->
  steps_fit step_seconds (map timestamp (waypoints m))
  <-> nondecreasing (map timestamp path).
Proof.
  intros Hs H. unfold generate_continuous_path in H.
  apply bind_ret_inv in H. destruct H as [segments [Hseg H]].
  destruct (waypoints m) as [| w ws] eqn:Hw.
  - simpl in Hseg. injection Hseg as <-. injection H as <-. split; intros _; exact I.
  - injection H as <-. split.
    + intros Hfit.
      destruct (interpolate_segments_sorted _ Hs _ _ _ Hfit Hseg) as [tl [-> Hnd]].
      exact Hnd.
    + exact (interpolate_segments_fit _ Hs _ _ _ Hseg).
Qed.

(** With a step of two seconds the only segment of [one_second_hop] gets
    one step, whose second sample is stamped 10:00:02; the final waypoint,
    stamped 10:00:01, comes after it in the path. *)
Lemma generated_path_steps_back :
  0 < 2
  /\ nondecreasing (map timestamp (waypoints one_second_hop))
  /\ exists path,
       generate_continuous_path one_second_hop 2 = ret path
       /\ map timestamp path
          = [ make_datetime 2025 8 4 10 0 0; make_datetime 2025 8 4 10 0 2;
              make_datetime 2025 8 4 10 0 1 ]
       /\ ~ nondecreasing (map timestamp path).
Proof.
  split; [lia |]. split; [vm_compute; split; [discriminate | exact I] |].
  eexists. split; [vm_compute; reflexivity |].
  split; [vm_compute; reflexivity |].
  vm_compute. intros [_ [H _]]. apply H. reflexivity.
Qed.

(** ** The position query inside the time span *)

Lemma lerp_between (a b f : Q) :
  (0 <= f <= 1)%Q -> between a b (a + f * (b - a))%Q.
Proof.
  intros [H0 H1]. unfold between.
  destruct (Qlt_le_dec b a) as [Hlt | Hle]; [right | left]; split; nra.
Qed.

Lemma factor_in_unit (elapsed total : timedelta) :
  0 <= elapsed < total ->
  (0 <= total_seconds elapsed / total_seconds total < 1)%Q.
Proof.
  intros [H0 H1].
  assert (Ht : (0 < total_seconds total)%Q)
    by (apply (proj1 (total_seconds_pos _)); lia).
  split.
  - apply Qle_shift_div_l; [exact Ht |]. rewrite Qmult_0_l.
    apply (proj1 (total_seconds_nonneg _)). exact H0.
  - apply Qlt_shift_div_r; [exact Ht |]. rewrite Qmult_1_l.
    unfold total_seconds, Qlt. simpl. lia.
Qed.

Lemma nondecreasing_head_le (a : datetime) (l : list datetime) :
  nondecreasing (a :: l) -> forall x, In x l -> a <= x.
Proof.
  revert a. induction l as [| b l IH]; intros a H x Hx; [destruct Hx |].
  destruct H as [Hab H]. destruct Hx as [<- | Hx]; [exact Hab |].
  specialize (IH _ H _ Hx). lia.
Qed.

Lemma find_brackets_has_before (path : list waypoint) (t : datetime) :
  forall b0, b0 <> None -> fst (find_brackets path t b0) <> None.
Proof.
  induction path as [| p path IH]; simpl; intros b0 Hb0; [exact Hb0 |].
  destruct (timestamp p <=? t); [apply IH; discriminate |].
  destruct (timestamp p >? t); [exact Hb0 | apply IH; exact Hb0].
Qed.

Lemma find_brackets_has_after (path : list waypoint) (t : datetime) :
  (exists w, In w path /\ t < timestamp w) ->
  forall b0, snd (find_brackets path t b0) <> None.
Proof.
  induction path as [| p path IH]; simpl; intros [w [Hin Hw]] b0; [destruct Hin |].
  destruct (timestamp p <=? t) eqn:Hle.
  - apply IH. exists w. split; [| exact Hw].
    destruct Hin as [<- | Hin]; [lia | exact Hin].
  - destruct (timestamp p >? t) eqn:Hgt; [discriminate | lia].
Qed.

(** The two brackets are neighbours in the path. *)
Lemma find_brackets_adjacent (path : list waypoint) (t : datetime) :
  forall b0 b a, find_brackets path t b0 = (Some b, Some a) ->
    (exists l1 l2, path = l1 ++ b :: a :: l2)
    \/ (b0 = Some b /\ exists l2, path = a :: l2).
Proof.
  induction path as [| p path IH]; simpl; intros b0 b a H; [discriminate H |].
  destruct (timestamp p <=? t) eqn:Hle.
  - left. destruct (IH _ _ _ H) as [[l1 [l2 ->]] | [Hb [l2 ->]]].
    + exists (p :: l1), l2. reflexivity.
    + injection Hb as <-. exists [], l2. reflexivity.
  - destruct (timestamp p >? t) eqn:Hgt; [| lia].
    injection H as -> <-. right. split; [reflexivity |]. exists path. reflexivity.
Qed.

(** C7. On a path in time order, at an instant strictly inside its time
    span, the query finds two neighbouring samples, one at or before the
    instant and one after it, and the position it returns lies on each
    axis between the coordinates of these two samples: it is
    [before + factor * (after - before)] with a factor in [0, 1]. *)
Theorem interpolated_position_between (path : list waypoint) (t lo hi : datetime) :
  nondecreasing (map timestamp path) ->
  is_min_of lo (map timestamp path) ->
  is_max_of hi (map timestamp path) ->
  lo < t < hi ->
  exists before_point after_point l1 l2,
    path = l1 ++ before_point :: after_point :: l2
    /\ timestamp before_point <= t < timestamp after_point
    /\ forall bx by_ bz ax ay az,
         get_coords (wp_coords before_point) = ret (bx, by_, bz) ->
         get_coords (wp_coords after_point) = ret (ax, ay, az) ->
         exists factor,
           (0 <= factor <= 1)%Q
           /\ get_drone_position_at_time path t
              = ret (Some (position_dict (bx + factor * (ax - bx))
                             (by_ + factor * (ay - by_))
                             (bz + factor * (az - bz)) t))
           /\ between bx ax (bx + factor * (ax - bx))
           /\ between by_ ay (by_ + factor * (ay - by_))
           /\ between bz az (bz + factor * (az - bz)).
Proof.
  intros Hsorted [Hlo_in Hlo] [Hhi_in Hhi] Ht.
  destruct path as [| p ps]; [destruct Hlo_in |].
  assert (Hfirst : timestamp p <= t).
  { destruct Hlo_in as [Heq | Hin]; [simpl in Heq; lia |].
    pose proof (nondecreasing_head_le _ _ Hsorted _ Hin). lia. }
  assert (Hlater : exists w, In w (p :: ps) /\ t < timestamp w).
  { apply in_map_iff in Hhi_in. destruct Hhi_in as [w [Hw Hin]].
    exists w. split; [exact Hin | lia]. }
  pose proof (find_brackets_has_after _ t Hlater None) as Hafter.
  assert (Hbefore : fst (find_brackets (p :: ps) t None) <> None).
  { simpl. destruct (timestamp p <=? t) eqn:Hle; [| lia].
    apply find_brackets_has_before. discriminate. }
  destruct (find_brackets (p :: ps) t None) as [[b |] [a |]] eqn:Hbr;
    simpl in Hafter, Hbefore; try congruence.
  destruct (find_brackets_adjacent _ _ _ _ _ Hbr) as [[l1 [l2 Hpath]] | [Hb _]];
    [| discriminate Hb].
  destruct (find_brackets_after _ _ _ _ _ Hbr) as [_ Ha].
  destruct (find_brackets_before _ _ _ _ _ Hbr) as [_ Hb].
  assert (Hb' : timestamp b <= t) by (apply Hb; discriminate).
  exists b, a, l1, l2. split; [exact Hpath |]. split; [lia |].
  intros bx by_ bz ax ay az Hcb Hca.
  destruct (factor_in_unit (t - timestamp b) (timestamp a - timestamp b))
    as [Hf0 Hf1]; [lia |].
  exists (total_seconds (t - timestamp b)
          / total_seconds (timestamp a - timestamp b))%Q.
  assert (Hf : (0 <= total_seconds (t - timestamp b)
                     / total_seconds (timestamp a - timestamp b) <= 1)%Q)
    by (split; [exact Hf0 | apply Qlt_le_weak; exact Hf1]).
  split; [exact Hf |]. split.
  - unfold get_drone_position_at_time. rewrite Hbr.
    assert (Hz : Qeq_bool (total_seconds (timestamp a - timestamp b)) 0 = false).
    { destruct (Qeq_bool _ 0) eqn:E; [| reflexivity].
      apply total_seconds_zero in E. lia. }
    rewrite Hz. unfold py_div. rewrite Hz. cbn [bind ret].
    rewrite Hcb. cbn [bind ret]. rewrite Hca. reflexivity.
  - repeat split; apply lerp_between; exact Hf.
Qed.

(** ** The sampling loop *)

Lemma iterations_step (end_time current_time : datetime) :
  current_time <= end_time ->
  iterations end_time current_time
  = S (iterations end_time (current_time + timedelta_seconds check_interval)).
Proof.
  intros Hle. unfold iterations, timedelta_seconds, check_interval.
  change (5 * 1000000) with 5000000.
  destruct (current_time <=? end_time) eqn:E; [| lia]. f_equal.
  destruct (current_time + 5000000 <=? end_time) eqn:E'.
  - replace (end_time - current_time)
      with ((end_time - (current_time + 5000000)) + 1 * 5000000) by lia.
    rewrite Z.div_add by lia.
    assert (0 <= (end_time - (current_time + 5000000)) / 5000000)
      by (apply Z.div_pos; lia).
    lia.
  - rewrite Z.div_small by lia. reflexivity.
Qed.

Section Loop.

Variable pow_half : Q -> Q.
Variables primary_path sim_path : list waypoint.
Variable sim_drone_id : string.
Variable safety_distance : Q.
Variable end_time : datetime.

(** The loop stops by itself within [iterations] rounds: more fuel does
    not change its result. *)
Lemma scan_loop_fuel (fuel : nat) :
  forall current_time state,
    (iterations end_time current_time <= fuel)%nat ->
    scan_loop pow_half fuel primary_path sim_path sim_drone_id safety_distance
      end_time current_time state
    = scan_loop pow_half (iterations end_time current_time) primary_path sim_path
        sim_drone_id safety_distance end_time current_time state.
Proof.
  induction fuel as [| fuel IH]; intros current_time state Hfuel.
  - replace (iterations end_time current_time) with O by lia. reflexivity.
  - destruct (current_time <=? end_time) eqn:E.
    + rewrite iterations_step in * by lia. cbn [scan_loop]. rewrite E.
      destruct (scan_step pow_half primary_path sim_path sim_drone_id
                  safety_distance current_time state) as [e | state'];
        [reflexivity |].
      cbn [bind]. apply IH. lia.
    + unfold iterations. rewrite E. cbn [scan_loop]. rewrite E. reflexivity.
Qed.

Lemma raw_events_fuel (fuel : nat) :
  forall current_time,
    (iterations end_time current_time <= fuel)%nat ->
    raw_events pow_half primary_path sim_path sim_drone_id safety_distance
      end_time fuel current_time
    = raw_events pow_half primary_path sim_path sim_drone_id safety_distance
        end_time (iterations end_time current_time) current_time.
Proof.
  induction fuel as [| fuel IH]; intros current_time Hfuel.
  - replace (iterations end_time current_time) with O by lia. reflexivity.
  - destruct (current_time <=? end_time) eqn:E.
    + rewrite iterations_step in * by lia. cbn [raw_events]. rewrite E.
      rewrite IH by lia. reflexivity.
    + unfold iterations. rewrite E. cbn [raw_events]. rewrite E. reflexivity.
Qed.

(** The loop of the code is the scanner followed by the deduplicator. *)
Lemma scan_loop_deduplicates (fuel : nat) :
  forall current_time accepted,
    scan_loop pow_half fuel primary_path sim_path sim_drone_id safety_distance
      end_time current_time (accepted, accepted)
    = (events <- raw_events pow_half primary_path sim_path sim_drone_id
                  safety_distance end_time fuel current_time ;; ret (deduplicate pow_half events accepted)).
Proof.
  induction fuel as [| fuel IH]; intros current_time accepted; cbn [scan_loop raw_events].
  - destruct (current_time <=? end_time); reflexivity.
  - destruct (current_time <=? end_time); [| reflexivity].
    unfold scan_step.
    destruct (detect_at pow_half primary_path sim_path sim_drone_id
                safety_distance current_time) as [e | [potential |]];
      cbn [bind ret]; [reflexivity | |].
    + destruct (is_new_conflict pow_half potential accepted) eqn:Hnew;
        cbn [bind ret]; rewrite IH;
        destruct (raw_events pow_half primary_path sim_path sim_drone_id
                  safety_distance end_time fuel (current_time + timedelta_seconds check_interval));
        cbn [bind ret deduplicate]; try rewrite Hnew; reflexivity.
    + rewrite IH.
      destruct (raw_events pow_half primary_path sim_path sim_drone_id
                  safety_distance end_time fuel (current_time + timedelta_seconds check_interval));
        reflexivity.
Qed.

End Loop.

Lemma detect_path_conflicts_deduplicates (pow_half : Q -> Q)
    (primary_path sim_path : list waypoint) (sim_drone_id : string)
    (safety_distance : Q) (time_threshold : Z) :
  detect_path_conflicts pow_half primary_path sim_path sim_drone_id
    safety_distance time_threshold
  = (events <- detected_events pow_half primary_path sim_path sim_drone_id
                 safety_distance ;;
     ret (deduplicate pow_half events [])).
Proof.
  unfold detect_path_conflicts, detected_events.
  destruct (map timestamp primary_path) as [| p ps]; [reflexivity |].
  destruct (map timestamp sim_path) as [| s ss]; [reflexivity |].
  destruct (_ >=? _); [reflexivity |].
  apply scan_loop_deduplicates.
Qed.

(** ** Rounding *)

Lemma round_half_even_range (q : Q) :
  Qfloor q <= round_half_even q <= Qfloor q + 1.
Proof.
  unfold round_half_even.
  destruct (q - inject_Z (Qfloor q) ?= 1 # 2)%Q; [destruct (Z.even _) | |]; lia.
Qed.

Lemma round_half_even_near (q : Q) :
  (q - (1 # 2) <= inject_Z (round_half_even q) <= q + (1 # 2))%Q.
Proof.
  pose proof (Qfloor_le q) as Hlo. pose proof (Qlt_floor q) as Hhi.
  rewrite inject_Z_plus in Hhi. change (inject_Z 1) with 1%Q in Hhi.
  unfold round_half_even.
  destruct (Qcompare_spec (q - inject_Z (Qfloor q)) (1 # 2)) as [E | E | E];
    [destruct (Z.even (Qfloor q)) | |];
    try rewrite inject_Z_plus; change (inject_Z 1) with 1%Q;
    set (f := inject_Z (Qfloor q)) in *; split; lra.
Qed.

Lemma round_half_even_mono (p q : Q) :
  (p <= q)%Q -> round_half_even p <= round_half_even q.
Proof.
  intros Hpq. pose proof (Qfloor_resp_le _ _ Hpq) as Hfl.
  destruct (Z.eq_dec (Qfloor p) (Qfloor q)) as [Heq | Hne].
  - unfold round_half_even. rewrite Heq.
    destruct (Qcompare_spec (p - inject_Z (Qfloor q)) (1 # 2)) as [Ep | Ep | Ep];
      destruct (Qcompare_spec (q - inject_Z (Qfloor q)) (1 # 2)) as [Eq | Eq | Eq];
      try (destruct (Z.even (Qfloor q))); try lia; exfalso;
      set (f := inject_Z (Qfloor q)) in *; lra.
  - pose proof (round_half_even_range p). pose proof (round_half_even_range q). lia.
Qed.

Lemma py_round2_mono (p q : Q) :
  (p <= q)%Q -> (py_round2 p <= py_round2 q)%Q.
Proof.
  intros Hpq. unfold py_round2, Qle. simpl.
  assert (round_half_even (p * 100) <= round_half_even (q * 100))
    by (apply round_half_even_mono; lra).
  lia.
Qed.

Lemma py_round2_near (q : Q) :
  (q - (1 # 200) <= py_round2 q <= q + (1 # 200))%Q.
Proof.
  pose proof (round_half_even_near (q * 100)) as [Hlo Hhi].
  assert (E : (py_round2 q == inject_Z (round_half_even (q * 100)) / 100)%Q).
  { unfold py_round2. rewrite (Qmake_Qdiv _ 100). reflexivity. }
  rewrite E. split.
  - apply Qle_shift_div_l; [reflexivity | lra].
  - apply Qle_shift_div_r; [reflexivity | lra].
Qed.

(** ** The distance of a report *)

Lemma detect_at_rounded_within (pow_half : Q -> Q)
    (primary_path sim_path : list waypoint) (sim_drone_id : string)
    (safety_distance : Q) (current_time : datetime) (c : conflict) :
  detect_at pow_half primary_path sim_path sim_drone_id safety_distance current_time
  = ret (Some c) ->
  rounded_within safety_distance c
  /\ conflicting_drone c = sim_drone_id
  /\ timestamp_obj c = current_time.
Proof.
  unfold detect_at. intros H.
  apply bind_ret_inv in H. destruct H as [sep [_ H]].
  destruct sep as [[[[[px py_] pz] [[sx sy] sz]] dist] |]; [| discriminate H].
  destruct (Qle_bool dist safety_distance) eqn:E; [| discriminate H].
  injection H as <-. split; [| split; reflexivity].
  exists dist. split; [apply Qle_bool_iff; exact E | reflexivity].
Qed.

Lemma raw_events_Forall (pow_half : Q -> Q) (primary_path sim_path : list waypoint)
    (sim_drone_id : string) (safety_distance : Q) (end_time : datetime)
    (P : conflict -> Prop) :
  (forall t c, detect_at pow_half primary_path sim_path sim_drone_id
                 safety_distance t = ret (Some c) -> P c) ->
  forall fuel current_time events,
    raw_events pow_half primary_path sim_path sim_drone_id safety_distance
      end_time fuel current_time = ret events ->
    Forall P events.
Proof.
  intros HP. induction fuel as [| fuel IH]; intros current_time events;
    cbn [raw_events]; destruct (current_time <=? end_time);
    try (intros H; injection H as <-; constructor).
  intros H. apply bind_ret_inv in H. destruct H as [found [Hf H]].
  apply bind_ret_inv in H. destruct H as [later [Hl H]].
  injection H as <-. specialize (IH _ _ Hl).
  destruct found as [c |]; [constructor; [exact (HP _ _ Hf) | exact IH] | exact IH].
Qed.

Lemma detected_events_Forall (pow_half : Q -> Q)
    (primary_path sim_path : list waypoint) (sim_drone_id : string)
    (safety_distance : Q) (P : conflict -> Prop) (events : list conflict) :
  (forall t c, detect_at pow_half primary_path sim_path sim_drone_id
                 safety_distance t = ret (Some c) -> P c) ->
  detected_events pow_half primary_path sim_path sim_drone_id safety_distance
  = ret events ->
  Forall P events.
Proof.
  intros HP. unfold detected_events.
  destruct (map timestamp primary_path) as [| p ps];
    [intros H; injection H as <-; constructor |].
  destruct (map timestamp sim_path) as [| s ss];
    [intros H; injection H as <-; constructor |].
  destruct (_ >=? _); [intros H; injection H as <-; constructor |].
  apply raw_events_Forall. exact HP.
Qed.

(** The deduplicator only selects: it invents no report. *)
Lemma deduplicate_incl (pow_half : Q -> Q) (events : list conflict) :
  forall accepted c,
    In c (deduplicate pow_half events accepted) -> In c accepted \/ In c events.
Proof.
  induction events as [| e events IH]; intros accepted c; cbn [deduplicate].
  - auto.
  - destruct (is_new_conflict pow_half e accepted); intros H;
      destruct (IH _ _ H) as [Hacc | Hev]; simpl; auto.
    apply in_app_or in Hacc. destruct Hacc as [Hacc | [<- | []]]; auto.
Qed.

Lemma detect_path_conflicts_Forall (pow_half : Q -> Q)
    (primary_path sim_path : list waypoint) (sim_drone_id : string)
    (safety_distance : Q) (time_threshold : Z) (P : conflict -> Prop)
    (reports : list conflict) :
  (forall t c, detect_at pow_half primary_path sim_path sim_drone_id
                 safety_distance t = ret (Some c) -> P c) ->
  detect_path_conflicts pow_half primary_path sim_path sim_drone_id
    safety_distance time_threshold = ret reports ->
  Forall P reports.
Proof.
  intros HP H. rewrite detect_path_conflicts_deduplicates in H.
  apply bind_ret_inv in H. destruct H as [events [Hev H]]. injection H as <-.
  pose proof (detected_events_Forall _ _ _ _ _ _ _ HP Hev) as Hall.
  rewrite Forall_forall in *. intros c Hc.
  destruct (deduplicate_incl _ _ _ _ Hc) as [[] | Hin]. auto.
Qed.

Lemma check_flights_Forall (pow_half : Q -> Q) (primary_path : list waypoint)
    (safety_distance : Q) (time_threshold : Z) (P : conflict -> Prop) :
  (forall sim_path sim_drone_id t c,
      detect_at pow_half primary_path sim_path sim_drone_id safety_distance t
      = ret (Some c) -> P c) ->
  forall simulated_flights conflicts reports,
    Forall P conflicts ->
    check_flights pow_half primary_path simulated_flights safety_distance
      time_threshold conflicts = ret reports ->
    Forall P reports.
Proof.
  intros HP. induction simulated_flights as [| f fs IH];
    intros conflicts reports Hc; cbn [check_flights].
  - intros H. injection H as <-. exact Hc.
  - intros H. apply bind_ret_inv in H. destruct H as [sim_path [_ H]].
    apply bind_ret_inv in H. destruct H as [found [Hfound H]].
    refine (IH _ _ _ H). apply Forall_app. split; [exact Hc |].
    exact (detect_path_conflicts_Forall _ _ _ _ _ _ _ _ (HP _ _) Hfound).
Qed.

Lemma rounded_within_threshold (safety_distance : Q) (c : conflict) :
  rounded_within safety_distance c -> within_rounded_threshold safety_distance c.
Proof.
  intros [dist [Hle Hd]]. split; [exists dist; auto |].
  rewrite Hd. split.
  - apply py_round2_mono. exact Hle.
  - pose proof (py_round2_near dist) as [_ H]. lra.
Qed.

(** C6, as the code has it. The distance field of a report is the
    separation of the two drones rounded to two decimals, and that
    separation is at most the safety distance: the field is at most the
    safety distance rounded to two decimals and never more than 0.005
    above the safety distance.  This holds for the reports of
    [detect_path_conflicts] and for the details of
    [check_deconfliction]. *)
Theorem report_distance_within_rounded_threshold (pow_half : Q -> Q)
    (safety_distance : Q) (time_threshold : Z) :
  (forall primary_path sim_path sim_drone_id reports,
      detect_path_conflicts pow_half primary_path sim_path sim_drone_id
        safety_distance time_threshold = ret reports ->
      Forall (within_rounded_threshold safety_distance) reports)
  /\ (forall primary_mission simulated_flights res,
         check_deconfliction pow_half primary_mission simulated_flights
           safety_distance time_threshold = ret res ->
         Forall (within_rounded_threshold safety_distance) (details res)).
Proof.
  assert (HP : forall primary_path sim_path sim_drone_id t c,
             detect_at pow_half primary_path sim_path sim_drone_id
               safety_distance t = ret (Some c) ->
             within_rounded_threshold safety_distance c).
  { intros primary_path sim_path sim_drone_id t c H.
    apply rounded_within_threshold.
    apply (detect_at_rounded_within _ _ _ _ _ _ _ H). }
  split.
  - intros primary_path sim_path sim_drone_id reports H.
    exact (detect_path_conflicts_Forall _ _ _ _ _ _ _ _ (HP _ _ _) H).
  - intros primary_mission simulated_flights res H.
    unfold check_deconfliction in H.
    apply bind_ret_inv in H. destruct H as [primary_path [_ H]].
    apply bind_ret_inv in H. destruct H as [conflicts [Hc H]].
    injection H as <-. cbn [details].
    refine (check_flights_Forall _ _ _ _ _ (HP primary_path) _ _ _ _ Hc).
    constructor.
Qed.

(** With a safety distance of 1.999 the separation 1.996 is a conflict,
    and its report carries the distance 2.0, which is above 1.999. *)
Lemma rounded_distance_above_threshold :
  exists c,
    detect_path_conflicts pow_half_micro hover_origin hover_near "SIM_001"
      (1999 # 1000) 10 = ret [c]
    /\ (distance c == 2)%Q
    /\ ~ (distance c <= 1999 # 1000)%Q.
Proof.
  eexists. split; [vm_compute; reflexivity |].
  split; [reflexivity |].
  intros H. vm_compute in H. apply H. reflexivity.
Qed.

(** ** Deduplication *)

Section Deduplication.

Variable pow_half : Q -> Q.

Lemma same_zone_true (a b : conflict) :
  same_zone pow_half a b = true <-> same_zone_as pow_half a b.
Proof.
  unfold same_zone, same_zone_as.
  rewrite orb_true_iff, !Qle_bool_iff. reflexivity.
Qed.

Lemma same_zone_false (a b : conflict) :
  same_zone pow_half a b = false <-> far_apart pow_half a b.
Proof.
  unfold far_apart. split.
  - intros H. split; apply Qnot_le_lt; intros Hle;
      assert (Ht : same_zone pow_half a b = true)
        by (apply same_zone_true; unfold same_zone_as; auto);
      congruence.
  - intros [Ht Hs]. destruct (same_zone pow_half a b) eqn:E; [| reflexivity].
    apply same_zone_true in E. destruct E as [E | E]; exfalso; lra.
Qed.

Lemma is_new_conflict_false (potential : conflict) (accepted : list conflict) :
  is_new_conflict pow_half potential accepted = false
  <-> exists r, In r accepted /\ same_zone_as pow_half potential r.
Proof.
  induction accepted as [| r accepted IH]; cbn [is_new_conflict].
  - split; [discriminate | intros [r [[] _]]].
  - destruct (same_zone pow_half potential r) eqn:E.
    + split; [| reflexivity]. intros _. exists r. split; [left; reflexivity |].
      apply same_zone_true. exact E.
    + rewrite IH. split; intros [r' [Hin Hz]].
      * exists r'. split; [right; exact Hin | exact Hz].
      * destruct Hin as [<- | Hin]; [| exists r'; auto].
        apply same_zone_true in Hz. congruence.
Qed.

Lemma is_new_conflict_true (potential : conflict) (accepted : list conflict) :
  is_new_conflict pow_half potential accepted = true
  <-> forall r, In r accepted -> far_apart pow_half potential r.
Proof.
  induction accepted as [| r accepted IH]; cbn [is_new_conflict].
  - split; [intros _ r [] | reflexivity].
  - destruct (same_zone pow_half potential r) eqn:E.
    + split; [discriminate |]. intros H.
      specialize (H r (or_introl eq_refl)). apply same_zone_false in H. congruence.
    + rewrite IH. split; intros H.
      * intros r' [<- | Hin]; [apply same_zone_false; exact E | auto].
      * intros r' Hin. apply H. right. exact Hin.
Qed.

(** Events that all fall in the zone of an accepted report add nothing. *)
Lemma deduplicate_covered (events : list conflict) :
  forall accepted,
    (forall e, In e events -> exists r, In r accepted /\ same_zone_as pow_half e r) ->
    deduplicate pow_half events accepted = accepted.
Proof.
  induction events as [| e events IH]; intros accepted H; cbn [deduplicate];
    [reflexivity |].
  assert (He : is_new_conflict pow_half e accepted = false)
    by (apply is_new_conflict_false; apply H; left; reflexivity).
  rewrite He. apply IH. intros e' He'. apply H. right. exact He'.
Qed.

Lemma deduplicate_one (events : list conflict) :
  events <> [] -> within_span events ->
  List.length (deduplicate pow_half events []) = 1%nat.
Proof.
  destruct events as [| e events]; [congruence |]. intros _ Hspan.
  cbn [deduplicate is_new_conflict app].
  rewrite deduplicate_covered; [reflexivity |].
  intros e' He'. exists e. split; [left; reflexivity |].
  left. apply Hspan; [right; exact He' | left; reflexivity].
Qed.

Lemma deduplicate_second_group (group : conflict -> bool) (e : conflict) :
  forall events,
    (forall a b, In a (e :: events) -> In b (e :: events) ->
                 group a <> group b -> far_apart pow_half a b) ->
    groups_are_clusters pow_half group (e :: events) ->
    (exists b, In b events /\ group b <> group e) ->
    List.length (deduplicate pow_half events [e]) = 2%nat.
Proof.
  induction events as [| x events IH]; intros Hfar Hcluster [b [Hb Hgb]];
    [destruct Hb |].
  cbn [deduplicate].
  destruct (bool_dec (group x) (group e)) as [Hsame | Hother].
  - assert (Hx : is_new_conflict pow_half x [e] = false).
    { apply is_new_conflict_false. exists e. split; [left; reflexivity |].
      apply Hcluster; simpl; auto. }
    rewrite Hx. apply IH.
    + intros a' b' Ha' Hb'. apply Hfar; simpl in *; tauto.
    + intros a' b' Ha' Hb'. apply Hcluster; simpl in *; tauto.
    + exists b. split; [| exact Hgb].
      destruct Hb as [<- | Hb]; [congruence | exact Hb].
  - assert (Hx : is_new_conflict pow_half x [e] = true).
    { apply is_new_conflict_true. intros r [<- | []].
      apply Hfar; simpl; auto. }
    rewrite Hx. rewrite deduplicate_covered; [reflexivity |].
    intros y Hy. destruct (bool_dec (group y) (group e)) as [Hye | Hye].
    + exists e. split; [left; reflexivity |].
      apply Hcluster; simpl; auto.
    + exists x. split; [right; left; reflexivity |].
      apply Hcluster; simpl; auto.
      destruct (group y), (group x), (group e); congruence.
Qed.

Lemma deduplicate_two (group : conflict -> bool) (events : list conflict) :
  two_separated_groups pow_half group events ->
  groups_are_clusters pow_half group events ->
  List.length (deduplicate pow_half events []) = 2%nat.
Proof.
  intros [[a [Ha Hga]] [[b [Hb Hgb]] Hfar]] Hcluster.
  destruct events as [| e events]; [destruct Ha |].
  cbn [deduplicate is_new_conflict app].
  apply (deduplicate_second_group group); [exact Hfar | exact Hcluster |].
  destruct (group e) eqn:Hge.
  - exists b. split; [| congruence].
    destruct Hb as [<- | Hb]; [congruence | exact Hb].
  - exists a. split; [| congruence].
    destruct Ha as [<- | Ha]; [congruence | exact Ha].
Qed.

End Deduplication.

(** C2. [detect_path_conflicts] returns the detected events
    deduplicated, all for the given drone; a new event is dropped when it
    is within 120 seconds or within 50 distance units of a report
    accepted before it, and appended otherwise.  When at least one event
    is detected and all events are within 120 seconds of each other,
    exactly one report is returned; when the events form two groups, each
    of them one cluster of the rule above (any two of its events within
    120 seconds or within 50 units of each other), every event of one
    group more than 120 seconds and more than 50 units from every event
    of the other, exactly two reports are returned. *)
Theorem deduplication_counts (pow_half : Q -> Q)
    (primary_path sim_path : list waypoint) (sim_drone_id : string)
    (safety_distance : Q) (time_threshold : Z) (events : list conflict) :
  detected_events pow_half primary_path sim_path sim_drone_id safety_distance
  = ret events ->
  let reports := deduplicate pow_half events [] in
  detect_path_conflicts pow_half primary_path sim_path sim_drone_id
    safety_distance time_threshold = ret reports
  /\ Forall (fun c => conflicting_drone c = sim_drone_id) reports
  /\ (events <> [] -> within_span events -> List.length reports = 1%nat)
  /\ (forall group,
         two_separated_groups pow_half group events ->
         groups_are_clusters pow_half group events ->
         List.length reports = 2%nat)
  /\ (forall t conflicts detected_conflicts potential,
         detect_at pow_half primary_path sim_path sim_drone_id safety_distance t
         = ret (Some potential) ->
         ((exists r, In r detected_conflicts /\ same_zone_as pow_half potential r) ->
          scan_step pow_half primary_path sim_path sim_drone_id safety_distance t
            (conflicts, detected_conflicts)
          = ret (conflicts, detected_conflicts))
         /\ ((forall r, In r detected_conflicts -> far_apart pow_half potential r) ->
             scan_step pow_half primary_path sim_path sim_drone_id safety_distance t
               (conflicts, detected_conflicts)
             = ret (conflicts ++ [potential], detected_conflicts ++ [potential]))).
Proof.
  intros Hev reports.
  assert (Hdet : detect_path_conflicts pow_half primary_path sim_path sim_drone_id
                   safety_distance time_threshold = ret reports).
  { rewrite detect_path_conflicts_deduplicates, Hev. reflexivity. }
  split; [exact Hdet |]. split; [| split; [| split]].
  - refine (detect_path_conflicts_Forall _ _ _ _ _ _ _ _ _ Hdet).
    intros t c H. apply (detect_at_rounded_within _ _ _ _ _ _ _ H).
  - apply deduplicate_one.
  - intros group. apply deduplicate_two.
  - intros t conflicts detected_conflicts potential Hpot.
    unfold scan_step. rewrite Hpot. cbn [bind ret]. split; intros H.
    + apply is_new_conflict_false in H. rewrite H. reflexivity.
    + apply is_new_conflict_true in H. rewrite H. reflexivity.
Qed.

(** ** parse_time *)

(** C8. A string that none of the supported formats parses, on which
    each library parser raises [ValueError], makes [parse_time] return the
    current time; and whatever the string, [parse_time] lets no
    [ValueError] out. *)
Theorem parse_time_malformed (fromisoformat strptime_HMS : string -> result datetime)
    (now : datetime) (timestamp : string) :
  fromisoformat timestamp = raise ValueError ->
  fromisoformat (replace_char "Z" "+00:00" timestamp) = raise ValueError ->
  strptime_HMS timestamp = raise ValueError ->
  parse_time fromisoformat strptime_HMS now timestamp = ret now
  /\ forall s, parse_time fromisoformat strptime_HMS now s <> raise ValueError.
Proof.
  intros Hiso Hz Hhms. split.
  - unfold parse_time, parse_time_body.
    destruct (contains_char "T" timestamp);
      [destruct (endswith_char timestamp "Z") |].
    + rewrite Hz. reflexivity.
    + rewrite Hiso. reflexivity.
    + rewrite Hhms. reflexivity.
  - intros s. unfold parse_time.
    destruct (parse_time_body fromisoformat strptime_HMS s) as [[] |]; discriminate.
Qed.

Lemma digit_range (c : ascii) (v : Z) : digit c = Some v -> 0 <= v <= 9.
Proof.
  unfold digit.
  destruct ((48 <=? Z.of_N (N_of_ascii c)) && (Z.of_N (N_of_ascii c) <=? 57)) eqn:E;
    [| discriminate].
  intros H. injection H as <-. lia.
Qed.

Lemma number12_range (s : string) (v : Z) : number12 s = Some v -> 0 <= v <= 99.
Proof.
  destruct s as [| a [| b [| c s]]]; cbn [number12]; try discriminate.
  - intros H. apply digit_range in H. lia.
  - destruct (digit a) as [x |] eqn:Ea; [| discriminate].
    destruct (digit b) as [y |] eqn:Eb; [| discriminate].
    apply digit_range in Ea. apply digit_range in Eb.
    intros H. assert (Hv : v = 10 * x + y) by congruence. lia.
Qed.

Lemma toordinal_make_datetime (year month day hour minute second : Z) :
  0 <= hour <= 23 -> 0 <= minute <= 59 -> 0 <= second <= 59 ->
  toordinal (make_datetime year month day hour minute second)
  = ymd2ord year month day.
Proof.
  intros Hh Hm Hs. unfold toordinal, make_datetime.
  set (o := ymd2ord year month day).
  replace ((o * 86400 + hour * 3600 + minute * 60 + second) * 1000000)
    with ((hour * 3600 + minute * 60 + second) * 1000000 + o * 86400000000) by lia.
  rewrite Z.div_add by lia. rewrite Z.div_small by lia. reflexivity.
Qed.

Lemma split_char_nonempty (c : ascii) (s : string) : split_char c s <> [].
Proof.
  induction s as [| a s IH]; cbn [split_char]; [discriminate |].
  destruct (split_char c s); [congruence |].
  destruct (Ascii.eqb a c); discriminate.
Qed.

(** A character of a string other than the separator is in one of its
    fields. *)
Lemma split_char_contains (sep c : ascii) (s : string) :
  Ascii.eqb c sep = false ->
  contains_char c s = true ->
  exists field, In field (split_char sep s) /\ contains_char c field = true.
Proof.
  intros Hsep. induction s as [| a s IH]; cbn [contains_char split_char];
    [discriminate |].
  pose proof (split_char_nonempty sep s) as Hne.
  destruct (split_char sep s) as [| field fields]; [congruence |].
  intros H. apply orb_true_iff in H.
  destruct (Ascii.eqb a sep) eqn:Ea.
  - destruct H as [H | H].
    + apply Ascii.eqb_eq in H. apply Ascii.eqb_eq in Ea. subst.
      rewrite Ascii.eqb_refl in Hsep. discriminate Hsep.
    + destruct (IH H) as [f [Hin Hf]]. exists f. split; [right; exact Hin | exact Hf].
  - destruct H as [H | H].
    + exists (String a field). split; [left; reflexivity |].
      cbn [contains_char]. rewrite H. reflexivity.
    + destruct (IH H) as [f [[<- | Hin] Hf]].
      * exists (String a field). split; [left; reflexivity |].
        cbn [contains_char]. rewrite Hf. apply orb_true_r.
      * exists f. split; [right; exact Hin | exact Hf].
Qed.

Lemma digit_not_T (a : ascii) (v : Z) : digit a = Some v -> Ascii.eqb a "T" = false.
Proof.
  intros H. destruct (Ascii.eqb a "T") eqn:E; [| reflexivity].
  apply Ascii.eqb_eq in E. subst a. discriminate H.
Qed.

Lemma number12_no_T (s : string) (v : Z) :
  number12 s = Some v -> contains_char "T" s = false.
Proof.
  destruct s as [| a [| b [| c s]]]; cbn [number12 contains_char]; try discriminate.
  - intros H. rewrite (digit_not_T _ _ H). reflexivity.
  - destruct (digit a) as [x |] eqn:Ea; [| discriminate].
    destruct (digit b) as [y |] eqn:Eb; [| discriminate].
    intros _. rewrite (digit_not_T _ _ Ea), (digit_not_T _ _ Eb). reflexivity.
Qed.

(** A string that [strptime] accepts as a time of day has no ['T']. *)
Lemma py_strptime_HMS_no_T (s : string) (d : datetime) :
  py_strptime_HMS s = ret d -> contains_char "T" s = false.
Proof.
  unfold py_strptime_HMS. intros Hd.
  destruct (contains_char "T" s) eqn:E; [| reflexivity].
  destruct (split_char_contains ":" "T" s eq_refl E) as [field [Hin Hf]].
  assert (Hn : In (number12 field) (map number12 (split_char ":" s)))
    by (apply in_map; exact Hin).
  destruct (map number12 (split_char ":" s))
    as [| [h |] [| [m |] [| [sec |] [| x l]]]]; try discriminate Hd.
  destruct Hn as [Hn | [Hn | [Hn | []]]]; symmetry in Hn;
    apply number12_no_T in Hn; congruence.
Qed.

(** C9, as the code has it. On a bare time of day [parse_time] returns
    what [strptime] returns, a datetime of 1900-01-01: the current date
    is not used, whatever the code's comment on that branch says. *)
Theorem parse_time_bare_time_1900 (fromisoformat : string -> result datetime)
    (now : datetime) (timestamp : string) (d : datetime) :
  py_strptime_HMS timestamp = ret d ->
  parse_time fromisoformat py_strptime_HMS now timestamp = ret d
  /\ toordinal d = ymd2ord 1900 1 1.
Proof.
  intros Hd. pose proof (py_strptime_HMS_no_T _ _ Hd) as HT. split.
  - unfold parse_time, parse_time_body. rewrite HT, Hd. reflexivity.
  - unfold py_strptime_HMS in Hd.
    destruct (map number12 (split_char ":" timestamp))
      as [| [h |] [| [m |] [| [s |] [| x l]]]] eqn:E; try discriminate Hd.
    destruct ((h <=? 23) && (m <=? 59) && (s <=? 59)) eqn:Er; [| discriminate Hd].
    injection Hd as <-.
    assert (Hin : forall v, In (Some v) (map number12 (split_char ":" timestamp)) ->
                            0 <= v <= 99).
    { intros v Hv. apply in_map_iff in Hv. destruct Hv as [f [Hf _]].
      exact (number12_range _ _ Hf). }
    rewrite E in Hin.
    pose proof (Hin h (or_introl eq_refl)).
    pose proof (Hin m (or_intror (or_introl eq_refl))).
    pose proof (Hin s (or_intror (or_intror (or_introl eq_refl)))).
    apply toordinal_make_datetime; lia.
Qed.

(** ** When a path is returned *)

Lemma mapM_returns {A B : Type} (f : A -> result B) (xs : list A) :
  (forall x, In x xs -> exists y, f x = ret y) -> exists ys, mapM f xs = ret ys.
Proof.
  induction xs as [| x xs IH]; intros H; cbn [mapM]; [exists []; reflexivity |].
  destruct (H x (or_introl eq_refl)) as [y Hy].
  destruct IH as [ys Hys]; [intros x' Hx'; apply H; right; exact Hx' |].
  exists (y :: ys). rewrite Hy, Hys. reflexivity.
Qed.

Lemma interpolate_position_returns (c1 c2 : coords) (t : Q) :
  interpolable c1 c2 -> exists pos, interpolate_position c1 c2 t = ret pos.
Proof.
  destruct c1 as [x1 y1 [z1 |] | p1], c2 as [x2 y2 [z2 |] | p2];
    cbn [interpolable]; try contradiction.
  - intros _. eexists. reflexivity.
  - intros [H1 H2].
    destruct p1 as [| a1 [| b1 [| c1 p1]]]; simpl in H1; try lia.
    destruct p2 as [| a2 [| b2 [| c2 p2]]]; simpl in H2; try lia.
    eexists. reflexivity.
Qed.

Lemma interpolate_waypoints_returns (wp1 wp2 : waypoint) (step_seconds : Z) :
  step_seconds <> 0 -> interpolable (wp_coords wp1) (wp_coords wp2) ->
  exists points, interpolate_waypoints wp1 wp2 step_seconds = ret points.
Proof.
  intros Hs Hc. unfold interpolate_waypoints.
  destruct (Qle_bool _ 0); [eexists; reflexivity |].
  unfold num_steps, py_div.
  assert (E : Qeq_bool (inject_Z step_seconds) 0 = false).
  { destruct (Qeq_bool _ 0) eqn:E; [| reflexivity].
    apply Qeq_bool_iff in E. unfold Qeq in E. simpl in E. lia. }
  rewrite E. cbn [bind ret].
  apply mapM_returns. intros i _.
  rewrite interpolation_parameter_defined by lia. cbn [bind ret].
  destruct (interpolate_position_returns _ _
              (inject_Z i / inject_Z (Z.max 1 (py_int (total_seconds
                 (timestamp wp2 - timestamp wp1) / inject_Z step_seconds)))) Hc)
    as [pos Hpos].
  rewrite Hpos. eexists. reflexivity.
Qed.

(** With a step other than 0, a trajectory whose waypoints can be read
    yields a path. *)
Lemma generate_continuous_path_returns (m : mission) (step_seconds : Z) :
  step_seconds <> 0 -> interpolable_trajectory (waypoints m) ->
  exists path, generate_continuous_path m step_seconds = ret path.
Proof.
  intros Hs Hwf. unfold generate_continuous_path.
  assert (Hseg : exists segments,
             interpolate_segments (waypoints m) step_seconds = ret segments).
  { induction (waypoints m) as [| w1 ws IH]; [eexists; reflexivity |].
    destruct ws as [| w2 ws]; [eexists; reflexivity |].
    destruct Hwf as [Hpair Hwf].
    destruct (interpolate_waypoints_returns w1 w2 _ Hs Hpair) as [points Hp].
    destruct (IH Hwf) as [more Hm].
    exists (points ++ more).
    change (interpolate_segments (w1 :: w2 :: ws) step_seconds)
      with (interpolated_points <- interpolate_waypoints w1 w2 step_seconds ;;
            continuous_path <- interpolate_segments (w2 :: ws) step_seconds ;;
            ret (interpolated_points ++ continuous_path)).
    rewrite Hp, Hm. reflexivity. }
  destruct Hseg as [segments ->]. cbn [bind].
  destruct (waypoints m); eexists; reflexivity.
Qed.

(** * The theorems at concrete inputs *)

Lemma no_overlap_no_conflict_witness :
  is_min_of (make_datetime 2025 8 4 10 0 0) (map timestamp early_flight)
  /\ is_max_of (make_datetime 2025 8 4 10 5 0) (map timestamp early_flight)
  /\ is_min_of (make_datetime 2025 8 4 10 10 0) (map timestamp late_flight)
  /\ is_max_of (make_datetime 2025 8 4 10 15 0) (map timestamp late_flight)
  /\ Z.max (make_datetime 2025 8 4 10 0 0) (make_datetime 2025 8 4 10 10 0)
     >= Z.min (make_datetime 2025 8 4 10 5 0) (make_datetime 2025 8 4 10 15 0)
  /\ detect_path_conflicts pow_half_micro early_flight late_flight "SIM_001" 2 10
     = ret [].
Proof.
  assert (H1 : is_min_of (make_datetime 2025 8 4 10 0 0) (map timestamp early_flight))
    by concrete_extremum.
  assert (H2 : is_max_of (make_datetime 2025 8 4 10 5 0) (map timestamp early_flight))
    by concrete_extremum.
  assert (H3 : is_min_of (make_datetime 2025 8 4 10 10 0) (map timestamp late_flight))
    by concrete_extremum.
  assert (H4 : is_max_of (make_datetime 2025 8 4 10 15 0) (map timestamp late_flight))
    by concrete_extremum.
  assert (H5 : Z.max (make_datetime 2025 8 4 10 0 0) (make_datetime 2025 8 4 10 10 0)
               >= Z.min (make_datetime 2025 8 4 10 5 0)
                    (make_datetime 2025 8 4 10 15 0))
    by (vm_compute; discriminate).
  repeat (split; [assumption |]).
  exact (no_overlap_no_conflict pow_half_micro early_flight late_flight "SIM_001"
           2 10 _ _ _ _ H1 H2 H3 H4 H5).
Defined.

Lemma position_outside_time_span_witness :
  (forall wp, In wp hover_near -> make_datetime 2025 8 4 9 0 0 < timestamp wp)
  /\ get_drone_position_at_time hover_near (make_datetime 2025 8 4 9 0 0) = ret None
  /\ (forall wp, In wp hover_near -> timestamp wp <= make_datetime 2025 8 4 11 0 0)
  /\ get_drone_position_at_time hover_near (make_datetime 2025 8 4 11 0 0)
     = ret (Some (position_dict (1996 # 1000) 0 0 (make_datetime 2025 8 4 11 0 0))).
Proof.
  assert (H1 : forall wp, In wp hover_near ->
                          make_datetime 2025 8 4 9 0 0 < timestamp wp)
    by concrete_members.
  assert (H2 : forall wp, In wp hover_near ->
                          timestamp wp <= make_datetime 2025 8 4 11 0 0).
  { intros wp Hwp. simpl in Hwp.
    repeat (destruct Hwp as [<- | Hwp]; [vm_compute; discriminate |]).
    destruct Hwp. }
  split; [exact H1 |]. split.
  - exact (proj1 (position_outside_time_span hover_near_start [hover_near_end]
                    (make_datetime 2025 8 4 9 0 0)) H1).
  - split; [exact H2 |].
    exact (proj2 (position_outside_time_span hover_near_start [hover_near_end]
                    (make_datetime 2025 8 4 11 0 0)) H2).
Defined.

Lemma interpolation_divisors_positive_witness :
  find_brackets hover_near (make_datetime 2025 8 4 10 0 5) None
  = (Some hover_near_start, Some hover_near_end)
  /\ (0 < total_seconds (timestamp hover_near_end - timestamp hover_near_start))%Q
  /\ num_steps (total_seconds 1000000) 2 = ret 1
  /\ 1 <= 1
  /\ interpolation_parameter 1 1 = ret (inject_Z 1 / inject_Z 1)%Q.
Proof.
  assert (H1 : find_brackets hover_near (make_datetime 2025 8 4 10 0 5) None
               = (Some hover_near_start, Some hover_near_end))
    by (vm_compute; reflexivity).
  assert (H2 : num_steps (total_seconds 1000000) 2 = ret 1)
    by (vm_compute; reflexivity).
  destruct interpolation_divisors_positive as [Hbr [_ [Hn [Hp _]]]].
  split; [exact H1 |].
  split; [exact (proj1 (proj2 (Hbr _ _ _ _ H1))) |].
  split; [exact H2 |].
  split; [exact (Hn _ _ _ H2) |].
  exact (Hp 1 1 (Hn _ _ _ H2)).
Defined.

Lemma generated_path_nondecreasing_witness :
  0 < 1
  /\ steps_fit 1 (map timestamp (waypoints one_second_hop))
  /\ exists path,
       generate_continuous_path one_second_hop 1 = ret path
       /\ nondecreasing (map timestamp path).
Proof.
  assert (H1 : 0 < 1) by reflexivity.
  assert (H2 : steps_fit 1 (map timestamp (waypoints one_second_hop))).
  { simpl. split; [right; vm_compute; discriminate | exact I]. }
  split; [exact H1 |]. split; [exact H2 |].
  assert (H3 : generate_continuous_path one_second_hop 1 = ret _)
    by (vm_compute; reflexivity).
  eexists. split; [exact H3 |].
  exact (proj1 (generated_path_nondecreasing one_second_hop 1 _ H1 H3) H2).
Defined.

Lemma generated_path_endpoints_witness :
  exists w ws path,
    waypoints one_second_hop = w :: ws
    /\ generate_continuous_path one_second_hop 1 = ret path
    /\ path <> []
    /\ (exists first rest, path = first :: rest /\ timestamp first = timestamp w)
    /\ (exists front, path = front ++ [last ws w]).
Proof.
  eexists. eexists. eexists.
  split; [reflexivity |]. split; [vm_compute; reflexivity |].
  apply (generated_path_endpoints one_second_hop 1); [reflexivity |].
  vm_compute. reflexivity.
Defined.

Lemma report_distance_within_rounded_threshold_witness :
  exists reports,
    detect_path_conflicts pow_half_micro hover_origin hover_near "SIM_001"
      (1999 # 1000) 10 = ret reports
    /\ reports <> []
    /\ Forall (within_rounded_threshold (1999 # 1000)) reports.
Proof.
  eexists. split; [vm_compute; reflexivity |]. split; [discriminate |].
  apply (proj1 (report_distance_within_rounded_threshold pow_half_micro
                  (1999 # 1000) 10) hover_origin hover_near "SIM_001"%string).
  vm_compute. reflexivity.
Defined.

Lemma interpolated_position_between_witness :
  nondecreasing (map timestamp straight_line)
  /\ is_min_of (make_datetime 2025 8 4 10 0 0) (map timestamp straight_line)
  /\ is_max_of (make_datetime 2025 8 4 10 4 10) (map timestamp straight_line)
  /\ make_datetime 2025 8 4 10 0 0 < make_datetime 2025 8 4 10 2 5
     < make_datetime 2025 8 4 10 4 10
  /\ exists before_point after_point l1 l2,
       straight_line = l1 ++ before_point :: after_point :: l2
       /\ timestamp before_point <= make_datetime 2025 8 4 10 2 5
          < timestamp after_point
       /\ forall bx by_ bz ax ay az,
            get_coords (wp_coords before_point) = ret (bx, by_, bz) ->
            get_coords (wp_coords after_point) = ret (ax, ay, az) ->
            exists factor,
              (0 <= factor <= 1)%Q
              /\ get_drone_position_at_time straight_line
                   (make_datetime 2025 8 4 10 2 5)
                 = ret (Some (position_dict (bx + factor * (ax - bx))
                                (by_ + factor * (ay - by_))
                                (bz + factor * (az - bz))
                                (make_datetime 2025 8 4 10 2 5)))
              /\ between bx ax (bx + factor * (ax - bx))
              /\ between by_ ay (by_ + factor * (ay - by_))
              /\ between bz az (bz + factor * (az - bz)).
Proof.
  assert (H1 : nondecreasing (map timestamp straight_line)).
  { simpl. split; [vm_compute; discriminate | exact I]. }
  assert (H2 : is_min_of (make_datetime 2025 8 4 10 0 0) (map timestamp straight_line))
    by concrete_extremum.
  assert (H3 : is_max_of (make_datetime 2025 8 4 10 4 10) (map timestamp straight_line))
    by concrete_extremum.
  assert (H4 : make_datetime 2025 8 4 10 0 0 < make_datetime 2025 8 4 10 2 5
               < make_datetime 2025 8 4 10 4 10)
    by (split; vm_compute; reflexivity).
  repeat (split; [assumption |]).
  exact (interpolated_position_between straight_line _ _ _ H1 H2 H3 H4).
Defined.

Lemma deduplication_counts_witness :
  (exists events,
      detected_events pow_half_micro hover_origin hover_near "SIM_001" (1999 # 1000)
      = ret events
      /\ events <> []
      /\ within_span events
      /\ detect_path_conflicts pow_half_micro hover_origin hover_near "SIM_001"
           (1999 # 1000) 10 = ret (deduplicate pow_half_micro events [])
      /\ List.length (deduplicate pow_half_micro events []) = 1%nat)
  /\ (exists events,
         detected_events pow_half_micro straight_line two_meetings "SIM_001" 2
         = ret events
         /\ map timestamp_obj events
            = [ make_datetime 2025 8 4 10 0 0; make_datetime 2025 8 4 10 0 5;
                make_datetime 2025 8 4 10 0 10; make_datetime 2025 8 4 10 4 0;
                make_datetime 2025 8 4 10 4 5; make_datetime 2025 8 4 10 4 10 ]
         /\ two_separated_groups pow_half_micro before_200s events
         /\ groups_are_clusters pow_half_micro before_200s events
         /\ detect_path_conflicts pow_half_micro straight_line two_meetings
              "SIM_001" 2 10 = ret (deduplicate pow_half_micro events [])
         /\ List.length (deduplicate pow_half_micro events []) = 2%nat).
Proof.
  split.
  - eexists.
    assert (Hev : detected_events pow_half_micro hover_origin hover_near "SIM_001"
                    (1999 # 1000) = ret _) by (vm_compute; reflexivity).
    split; [exact Hev |].
    assert (Hne : forall A (x : A) l, x :: l <> []) by discriminate.
    split; [apply Hne |].
    match goal with |- within_span ?evs /\ _ =>
      assert (Hspan : within_span evs)
    end.
    { intros a b Ha Hb. simpl in Ha, Hb.
      repeat (destruct Ha as [<- | Ha];
              [repeat (destruct Hb as [<- | Hb]; [vm_compute; discriminate |]);
               destruct Hb |]).
      destruct Ha. }
    split; [exact Hspan |].
    destruct (deduplication_counts pow_half_micro hover_origin hover_near "SIM_001"
                (1999 # 1000) 10 _ Hev) as [Hdet [_ [Hone _]]].
    split; [exact Hdet |]. exact (Hone (Hne _ _ _) Hspan).
  - eexists.
    assert (Hev : detected_events pow_half_micro straight_line two_meetings "SIM_001"
                    2 = ret _) by (vm_compute; reflexivity).
    split; [exact Hev |]. split; [vm_compute; reflexivity |].
    match goal with |- two_separated_groups _ _ ?evs /\ _ =>
      assert (Hgroups : two_separated_groups pow_half_micro before_200s evs);
      [| assert (Hclusters : groups_are_clusters pow_half_micro before_200s evs)]
    end.
    { split; [| split].
      - eexists. split; [left; reflexivity | vm_compute; reflexivity].
      - eexists. split; [do 3 right; left; reflexivity | vm_compute; reflexivity].
      - intros a b Ha Hb Hg. simpl in Ha, Hb.
        repeat (destruct Ha as [<- | Ha];
                [repeat (destruct Hb as [<- | Hb];
                         [first [ exfalso; apply Hg; vm_compute; reflexivity
                                | split; vm_compute; reflexivity ] |]);
                 destruct Hb |]).
        destruct Ha. }
    { intros a b Ha Hb Hg. simpl in Ha, Hb.
      repeat (destruct Ha as [<- | Ha];
              [repeat (destruct Hb as [<- | Hb];
                       [first [ left; vm_compute; discriminate
                              | vm_compute in Hg; discriminate Hg ] |]);
               destruct Hb |]).
      destruct Ha. }
    split; [exact Hgroups |]. split; [exact Hclusters |].
    destruct (deduplication_counts pow_half_micro straight_line two_meetings
                "SIM_001" 2 10 _ Hev) as [Hdet [_ [_ [Htwo _]]]].
    split; [exact Hdet |]. exact (Htwo before_200s Hgroups Hclusters).
Defined.

Lemma parse_time_malformed_witness :
  py_fromisoformat_seconds "next Tuesday" = raise ValueError
  /\ py_fromisoformat_seconds (replace_char "Z" "+00:00" "next Tuesday")
     = raise ValueError
  /\ py_strptime_HMS "next Tuesday" = raise ValueError
  /\ parse_time py_fromisoformat_seconds py_strptime_HMS
       (make_datetime 2026 11 4 12 0 0) "next Tuesday"
     = ret (make_datetime 2026 11 4 12 0 0).
Proof.
  assert (H1 : py_fromisoformat_seconds "next Tuesday" = raise ValueError)
    by reflexivity.
  assert (H2 : py_fromisoformat_seconds (replace_char "Z" "+00:00" "next Tuesday")
               = raise ValueError) by reflexivity.
  assert (H3 : py_strptime_HMS "next Tuesday" = raise ValueError) by reflexivity.
  repeat (split; [assumption |]).
  exact (proj1 (parse_time_malformed py_fromisoformat_seconds py_strptime_HMS
                  (make_datetime 2026 11 4 12 0 0) "next Tuesday" H1 H2 H3)).
Defined.

Lemma parse_time_bare_time_1900_witness :
  py_strptime_HMS "10:30:00" = ret (make_datetime 1900 1 1 10 30 0)
  /\ parse_time py_fromisoformat_seconds py_strptime_HMS
       (make_datetime 2026 11 4 12 0 0) "10:30:00"
     = ret (make_datetime 1900 1 1 10 30 0)
  /\ toordinal (make_datetime 1900 1 1 10 30 0) = ymd2ord 1900 1 1
  /\ toordinal (make_datetime 2026 11 4 12 0 0) = ymd2ord 2026 11 4.
Proof.
  assert (H1 : py_strptime_HMS "10:30:00" = ret (make_datetime 1900 1 1 10 30 0))
    by reflexivity.
  split; [exact H1 |].
  destruct (parse_time_bare_time_1900 py_fromisoformat_seconds
              (make_datetime 2026 11 4 12 0 0) "10:30:00" _ H1) as [Hp Hd].
  split; [exact Hp |]. split; [exact Hd | reflexivity].
Defined.


(** * Further properties of the code *)

(** ** euclidean_distance *)

Lemma sum_of_squares_symmetric (x1 y1 z1 x2 y2 z2 : Q) :
  ((x1 - x2) ^ 2 + (y1 - y2) ^ 2 + (z1 - z2) ^ 2
   == (x2 - x1) ^ 2 + (y2 - y1) ^ 2 + (z2 - z1) ^ 2)%Q.
Proof.
  simpl. ring.
Qed.

(** X1. The distance is symmetric: when [euclidean_distance] returns for
    two positions it returns for the swapped positions too, with an equal
    value, provided [math.sqrt] gives equal roots of equal numbers. *)
Theorem euclidean_distance_symmetric (sqrt : Q -> Q) (pos1 pos2 : Utils.position)
    (d : Q) :
  (forall a b, a == b -> sqrt a == sqrt b)%Q ->
  Utils.euclidean_distance sqrt pos1 pos2 = ret d ->
  exists d', Utils.euclidean_distance sqrt pos2 pos1 = ret d' /\ (d' == d)%Q.
Proof.
  intros Hsqrt H. unfold Utils.euclidean_distance in *.
  apply bind_ret_inv in H. destruct H as [[[x1 y1] z1] [H1 H]].
  apply bind_ret_inv in H. destruct H as [[[x2 y2] z2] [H2 H]].
  injection H as <-. rewrite H2, H1. cbn [bind ret].
  eexists. split; [reflexivity |].
  apply Hsqrt. apply sum_of_squares_symmetric.
Qed.

Lemma pow_half_micro_proper (a b : Q) :
  (a == b)%Q -> (pow_half_micro a == pow_half_micro b)%Q.
Proof.
  intros H. unfold pow_half_micro.
  assert (E : Qfloor (a * 1000000000000) = Qfloor (b * 1000000000000))
    by (apply Qfloor_comp; rewrite H; reflexivity).
  rewrite E. reflexivity.
Qed.

Lemma euclidean_distance_symmetric_witness :
  (forall a b, a == b -> pow_half_micro a == pow_half_micro b)%Q
  /\ exists d,
       Utils.euclidean_distance pow_half_micro point_named point_packed = ret d
       /\ (d == 5)%Q
       /\ exists d', Utils.euclidean_distance pow_half_micro point_packed point_named
                     = ret d' /\ (d' == d)%Q.
Proof.
  split; [exact pow_half_micro_proper |].
  assert (H : Utils.euclidean_distance pow_half_micro point_named point_packed
              = ret _) by (vm_compute; reflexivity).
  eexists. split; [exact H |]. split; [reflexivity |].
  exact (euclidean_distance_symmetric pow_half_micro point_named point_packed _
           pow_half_micro_proper H).
Defined.

(** X2. [euclidean_distance] has no default for a missing ['z']: a
    dictionary with ['x'] and ['y'] only makes it raise [KeyError('z')],
    in the first position whatever the second one is and in the second
    position once the first one is read, whereas the [get_coords] of the
    checker reads the same dictionary as a point of altitude 0. *)
Theorem euclidean_distance_needs_z (sqrt : Q -> Q) (x y : Q) :
  (forall pos2,
      Utils.euclidean_distance sqrt (Utils.Dict (Named x y None)) pos2
      = raise (KeyError "z"))
  /\ (forall pos1 c1,
         Utils.get_coords pos1 = ret c1 ->
         Utils.euclidean_distance sqrt pos1 (Utils.Dict (Named x y None))
         = raise (KeyError "z"))
  /\ ConflictChecker.get_coords (Named x y None) = ret (x, y, 0%Q).
Proof.
  split; [| split].
  - intros pos2. reflexivity.
  - intros pos1 [[x1 y1] z1] H. unfold Utils.euclidean_distance. rewrite H.
    reflexivity.
  - reflexivity.
Qed.

Lemma euclidean_distance_needs_z_witness :
  Utils.get_coords point_packed = ret (3, 4, 10)%Q
  /\ Utils.euclidean_distance pow_half_micro point_packed
       (Utils.Dict (Named 1 2 None)) = raise (KeyError "z").
Proof.
  assert (H : Utils.get_coords point_packed = ret (3, 4, 10)%Q) by reflexivity.
  split; [exact H |].
  exact (proj1 (proj2 (euclidean_distance_needs_z pow_half_micro 1 2))
           point_packed _ H).
Defined.

(** X3. The three encodings of a point are interchangeable in
    [euclidean_distance], in either position: the dictionary with ['x'],
    ['y'], ['z'], the dictionary with a ['position'] list and the bare
    list, the lists being read up to their third element only; a list of
    fewer than three elements raises [IndexError]. *)
Theorem euclidean_distance_encodings (sqrt : Q -> Q) (x y z : Q)
    (more more' : list Q) (other : Utils.position) :
  let named := Utils.Dict (Named x y (Some z)) in
  let packed := Utils.Dict (Packed (x :: y :: z :: more)) in
  let array := Utils.Array (x :: y :: z :: more') in
  Utils.euclidean_distance sqrt packed other
  = Utils.euclidean_distance sqrt named other
  /\ Utils.euclidean_distance sqrt array other
     = Utils.euclidean_distance sqrt named other
  /\ Utils.euclidean_distance sqrt other packed
     = Utils.euclidean_distance sqrt other named
  /\ Utils.euclidean_distance sqrt other array
     = Utils.euclidean_distance sqrt other named
  /\ (forall short, (List.length short < 3)%nat ->
        Utils.euclidean_distance sqrt (Utils.Array short) other = raise IndexError
        /\ Utils.euclidean_distance sqrt (Utils.Dict (Packed short)) other
           = raise IndexError).
Proof.
  cbv zeta. repeat split; try reflexivity.
  - destruct short as [| a [| b [| c l]]]; simpl in *; try reflexivity; lia.
  - destruct short as [| a [| b [| c l]]]; simpl in *; try reflexivity; lia.
Qed.

Lemma euclidean_distance_encodings_witness :
  (List.length [1; 2]%Q < 3)%nat
  /\ Utils.euclidean_distance pow_half_micro (Utils.Array [1; 2]%Q) point_named
     = raise IndexError.
Proof.
  assert (H : (List.length [1; 2]%Q < 3)%nat) by (simpl; lia).
  split; [exact H |].
  destruct (euclidean_distance_encodings pow_half_micro 0 0 0 [] [] point_named)
    as [_ [_ [_ [_ Hshort]]]].
  exact (proj1 (Hshort [1; 2]%Q H)).
Defined.

(** ** time_difference *)

Lemma seconds_between_symmetric (t1 t2 : datetime) :
  Utils.seconds_between t1 t2 = Utils.seconds_between t2 t1.
Proof.
  unfold Utils.seconds_between, total_seconds. simpl. f_equal.
  replace (t1 - t2) with (- (t2 - t1)) by lia. apply Z.abs_opp.
Qed.

Lemma seconds_between_nonneg (t1 t2 : datetime) :
  (0 <= Utils.seconds_between t1 t2)%Q.
Proof.
  apply Qabs_nonneg.
Qed.

Lemma parse_time_parsed (fromisoformat strptime_HMS : string -> result datetime)
    (now : datetime) (timestamp : string) (t : datetime) :
  parse_time_body fromisoformat strptime_HMS timestamp = ret t ->
  parse_time fromisoformat strptime_HMS now timestamp = ret t.
Proof.
  unfold parse_time. intros ->. reflexivity.
Qed.

Lemma parse_time_fallback (fromisoformat strptime_HMS : string -> result datetime)
    (now : datetime) (timestamp : string) :
  parse_time_body fromisoformat strptime_HMS timestamp = raise ValueError ->
  parse_time fromisoformat strptime_HMS now timestamp = ret now.
Proof.
  unfold parse_time. intros ->. reflexivity.
Qed.

Lemma parse_time_aware_fallback
    (fromisoformat strptime_HMS : string -> result datetime)
    (has_offset : string -> bool) (timestamp : string) :
  parse_time_body fromisoformat strptime_HMS timestamp = raise ValueError ->
  Utils.parse_time_aware fromisoformat strptime_HMS has_offset timestamp = false.
Proof.
  unfold Utils.parse_time_aware. intros ->. reflexivity.
Qed.

(** X4. For two timestamps that the library parses, both with a UTC
    offset (or a final [Z]) or both without, [time_difference] is the
    absolute number of seconds between the two instants: it does not
    depend on the clock, it is not negative and it is the same in both
    orders.  For one timestamp with an offset and one without it raises
    [TypeError], in both orders. *)
Theorem time_difference_symmetric
    (fromisoformat strptime_HMS : string -> result datetime)
    (has_offset : string -> bool)
    (now1 now2 now1' now2' : datetime) (time1 time2 : string) (t1 t2 : datetime) :
  parse_time_body fromisoformat strptime_HMS time1 = ret t1 ->
  parse_time_body fromisoformat strptime_HMS time2 = ret t2 ->
  (Utils.parse_time_aware fromisoformat strptime_HMS has_offset time1
   = Utils.parse_time_aware fromisoformat strptime_HMS has_offset time2 ->
   Utils.time_difference fromisoformat strptime_HMS has_offset now1 now2 time1 time2
   = ret (Utils.seconds_between t1 t2)
   /\ Utils.time_difference fromisoformat strptime_HMS has_offset now1' now2'
        time2 time1
      = ret (Utils.seconds_between t1 t2)
   /\ (0 <= Utils.seconds_between t1 t2)%Q)
  /\ (Utils.parse_time_aware fromisoformat strptime_HMS has_offset time1
      <> Utils.parse_time_aware fromisoformat strptime_HMS has_offset time2 ->
      Utils.time_difference fromisoformat strptime_HMS has_offset now1 now2
        time1 time2
      = raise TypeError
      /\ Utils.time_difference fromisoformat strptime_HMS has_offset now1' now2'
           time2 time1
         = raise TypeError).
Proof.
  intros H1 H2. unfold Utils.time_difference.
  rewrite !(parse_time_parsed _ _ _ _ _ H1), !(parse_time_parsed _ _ _ _ _ H2).
  cbn [bind ret]. unfold Utils.py_sub_datetime. split.
  - intros Haware. rewrite Haware, Bool.eqb_reflx. cbn [bind ret].
    change (Qabs (total_seconds (t1 - t2))) with (Utils.seconds_between t1 t2).
    change (Qabs (total_seconds (t2 - t1))) with (Utils.seconds_between t2 t1).
    rewrite (seconds_between_symmetric t2 t1).
    repeat split. apply seconds_between_nonneg.
  - intros Haware.
    assert (E1 : Bool.eqb
                   (Utils.parse_time_aware fromisoformat strptime_HMS has_offset time1)
                   (Utils.parse_time_aware fromisoformat strptime_HMS has_offset time2)
                 = false) by (apply Bool.eqb_false_iff; exact Haware).
    assert (E2 : Bool.eqb
                   (Utils.parse_time_aware fromisoformat strptime_HMS has_offset time2)
                   (Utils.parse_time_aware fromisoformat strptime_HMS has_offset time1)
                 = false) by (apply Bool.eqb_false_iff; congruence).
    rewrite E1, E2. split; reflexivity.
Qed.

Lemma time_difference_symmetric_witness :
  (Utils.time_difference fromisoformat_utc py_strptime_HMS has_utc_offset 0 0
     "2025-08-04T10:00:00" "2025-08-04T10:05:00"
   = ret (Utils.seconds_between (make_datetime 2025 8 4 10 0 0)
            (make_datetime 2025 8 4 10 5 0))
   /\ (Utils.seconds_between (make_datetime 2025 8 4 10 0 0)
         (make_datetime 2025 8 4 10 5 0) == 300)%Q)
  /\ Utils.time_difference fromisoformat_utc py_strptime_HMS has_utc_offset 0 0
       "2025-08-04T10:00:00Z" "2025-08-04T10:05:00+00:00"
     = ret (Utils.seconds_between (make_datetime 2025 8 4 10 0 0)
              (make_datetime 2025 8 4 10 5 0))
  /\ Utils.time_difference fromisoformat_utc py_strptime_HMS has_utc_offset 0 0
       "2025-08-04T10:00:00Z" "2025-08-04T10:05:00"
     = raise TypeError.
Proof.
  assert (H1 : parse_time_body fromisoformat_utc py_strptime_HMS
                 "2025-08-04T10:00:00" = ret (make_datetime 2025 8 4 10 0 0))
    by (vm_compute; reflexivity).
  assert (H2 : parse_time_body fromisoformat_utc py_strptime_HMS
                 "2025-08-04T10:05:00" = ret (make_datetime 2025 8 4 10 5 0))
    by (vm_compute; reflexivity).
  assert (H3 : parse_time_body fromisoformat_utc py_strptime_HMS
                 "2025-08-04T10:00:00Z" = ret (make_datetime 2025 8 4 10 0 0))
    by (vm_compute; reflexivity).
  assert (H4 : parse_time_body fromisoformat_utc py_strptime_HMS
                 "2025-08-04T10:05:00+00:00" = ret (make_datetime 2025 8 4 10 5 0))
    by (vm_compute; reflexivity).
  assert (Hnaive : Utils.parse_time_aware fromisoformat_utc py_strptime_HMS
                     has_utc_offset "2025-08-04T10:00:00"
                   = Utils.parse_time_aware fromisoformat_utc py_strptime_HMS
                       has_utc_offset "2025-08-04T10:05:00")
    by (vm_compute; reflexivity).
  assert (Haware : Utils.parse_time_aware fromisoformat_utc py_strptime_HMS
                     has_utc_offset "2025-08-04T10:00:00Z"
                   = Utils.parse_time_aware fromisoformat_utc py_strptime_HMS
                       has_utc_offset "2025-08-04T10:05:00+00:00")
    by (vm_compute; reflexivity).
  assert (Hmixed : Utils.parse_time_aware fromisoformat_utc py_strptime_HMS
                     has_utc_offset "2025-08-04T10:00:00Z"
                   <> Utils.parse_time_aware fromisoformat_utc py_strptime_HMS
                        has_utc_offset "2025-08-04T10:05:00")
    by (vm_compute; discriminate).
  split; [split; [| vm_compute; reflexivity] | split].
  - exact (proj1 (proj1 (time_difference_symmetric fromisoformat_utc py_strptime_HMS
                           has_utc_offset 0 0 0 0 _ _ _ _ H1 H2) Hnaive)).
  - exact (proj1 (proj1 (time_difference_symmetric fromisoformat_utc py_strptime_HMS
                           has_utc_offset 0 0 0 0 _ _ _ _ H3 H4) Haware)).
  - exact (proj1 (proj2 (time_difference_symmetric fromisoformat_utc py_strptime_HMS
                           has_utc_offset 0 0 0 0 _ _ _ _ H3 H2) Hmixed)).
Defined.

(** X5. [time_difference] raises no [ValueError] on a malformed
    timestamp: each string that the library refuses with [ValueError] is
    replaced by the reading of the clock at its call, a naive datetime.
    The difference of two malformed timestamps is the time that passed
    between the two readings; a malformed timestamp against a parsed one
    without offset gives the distance from the clock reading to it, and
    against a parsed one with an offset (or a final [Z]) it raises
    [TypeError]. *)
Theorem time_difference_malformed
    (fromisoformat strptime_HMS : string -> result datetime)
    (has_offset : string -> bool)
    (now1 now2 : datetime) (time1 time2 : string) :
  parse_time_body fromisoformat strptime_HMS time1 = raise ValueError ->
  (parse_time_body fromisoformat strptime_HMS time2 = raise ValueError ->
   Utils.time_difference fromisoformat strptime_HMS has_offset now1 now2 time1 time2
   = ret (Utils.seconds_between now1 now2))
  /\ (forall t2,
         parse_time_body fromisoformat strptime_HMS time2 = ret t2 ->
         Utils.parse_time_aware fromisoformat strptime_HMS has_offset time2 = false ->
         Utils.time_difference fromisoformat strptime_HMS has_offset now1 now2
           time1 time2
         = ret (Utils.seconds_between now1 t2))
  /\ (forall t2,
         parse_time_body fromisoformat strptime_HMS time2 = ret t2 ->
         Utils.parse_time_aware fromisoformat strptime_HMS has_offset time2 = true ->
         Utils.time_difference fromisoformat strptime_HMS has_offset now1 now2
           time1 time2
         = raise TypeError)
  /\ (forall a b,
         Utils.time_difference fromisoformat strptime_HMS has_offset now1 now2 a b
         <> raise ValueError).
Proof.
  intros H1. unfold Utils.time_difference.
  rewrite (parse_time_fallback _ _ _ _ H1), (parse_time_aware_fallback _ _ _ _ H1).
  cbn [bind ret]. split; [| split; [| split]].
  - intros H2.
    rewrite (parse_time_fallback _ _ _ _ H2), (parse_time_aware_fallback _ _ _ _ H2).
    reflexivity.
  - intros t2 H2 Hnaive. rewrite (parse_time_parsed _ _ _ _ _ H2), Hnaive.
    reflexivity.
  - intros t2 H2 Haware. rewrite (parse_time_parsed _ _ _ _ _ H2), Haware.
    reflexivity.
  - intros a b. unfold parse_time, Utils.py_sub_datetime.
    destruct (parse_time_body fromisoformat strptime_HMS a) as [[] |];
      destruct (parse_time_body fromisoformat strptime_HMS b) as [[] |];
      cbn [except_ValueError bind ret];
      try discriminate;
      destruct (Bool.eqb _ _); discriminate.
Qed.

Lemma time_difference_malformed_witness :
  Utils.time_difference fromisoformat_utc py_strptime_HMS has_utc_offset
    (make_datetime 2026 11 4 12 0 0) (make_datetime 2026 11 4 12 0 1)
    "soon" "later"
  = ret (Utils.seconds_between (make_datetime 2026 11 4 12 0 0)
           (make_datetime 2026 11 4 12 0 1))
  /\ Utils.time_difference fromisoformat_utc py_strptime_HMS has_utc_offset
       (make_datetime 2026 11 4 12 0 0) (make_datetime 2026 11 4 12 0 1)
       "soon" "2025-08-04T10:05:00"
     = ret (Utils.seconds_between (make_datetime 2026 11 4 12 0 0)
              (make_datetime 2025 8 4 10 5 0))
  /\ Utils.time_difference fromisoformat_utc py_strptime_HMS has_utc_offset
       (make_datetime 2026 11 4 12 0 0) (make_datetime 2026 11 4 12 0 1)
       "soon" "2025-08-04T10:05:00Z"
     = raise TypeError.
Proof.
  assert (H1 : parse_time_body fromisoformat_utc py_strptime_HMS "soon"
               = raise ValueError) by reflexivity.
  assert (H2 : parse_time_body fromisoformat_utc py_strptime_HMS "later"
               = raise ValueError) by reflexivity.
  assert (H3 : parse_time_body fromisoformat_utc py_strptime_HMS
                 "2025-08-04T10:05:00" = ret (make_datetime 2025 8 4 10 5 0))
    by (vm_compute; reflexivity).
  assert (H4 : parse_time_body fromisoformat_utc py_strptime_HMS
                 "2025-08-04T10:05:00Z" = ret (make_datetime 2025 8 4 10 5 0))
    by (vm_compute; reflexivity).
  assert (Hnaive : Utils.parse_time_aware fromisoformat_utc py_strptime_HMS
                     has_utc_offset "2025-08-04T10:05:00" = false)
    by (vm_compute; reflexivity).
  assert (Haware : Utils.parse_time_aware fromisoformat_utc py_strptime_HMS
                     has_utc_offset "2025-08-04T10:05:00Z" = true)
    by (vm_compute; reflexivity).
  pose proof (time_difference_malformed fromisoformat_utc py_strptime_HMS
                has_utc_offset (make_datetime 2026 11 4 12 0 0)
                (make_datetime 2026 11 4 12 0 1) "soon" "later" H1) as [Hboth _].
  pose proof (time_difference_malformed fromisoformat_utc py_strptime_HMS
                has_utc_offset (make_datetime 2026 11 4 12 0 0)
                (make_datetime 2026 11 4 12 0 1) "soon" "2025-08-04T10:05:00" H1)
    as [_ [Hone _]].
  pose proof (time_difference_malformed fromisoformat_utc py_strptime_HMS
                has_utc_offset (make_datetime 2026 11 4 12 0 0)
                (make_datetime 2026 11 4 12 0 1) "soon" "2025-08-04T10:05:00Z" H1)
    as [_ [_ [Hmixed _]]].
  split; [exact (Hboth H2) |]. split; [exact (Hone _ H3 Hnaive) |].
  exact (Hmixed _ H4 Haware).
Defined.

(** ** Trajectories that do not advance in time *)

Lemma interpolate_waypoints_degenerate (wp1 wp2 : waypoint) (step_seconds : Z) :
  timestamp wp2 <= timestamp wp1 ->
  interpolate_waypoints wp1 wp2 step_seconds = ret [wp1].
Proof.
  intros H. unfold interpolate_waypoints.
  assert (E : Qle_bool (total_seconds (timestamp wp2 - timestamp wp1)) 0 = true)
    by (apply total_seconds_le0; lia).
  rewrite E. reflexivity.
Qed.

Lemma interpolate_segments_cons (w1 w2 : waypoint) (ws : list waypoint)
    (step_seconds : Z) :
  interpolate_segments (w1 :: w2 :: ws) step_seconds
  = (interpolated_points <- interpolate_waypoints w1 w2 step_seconds ;;
     continuous_path <- interpolate_segments (w2 :: ws) step_seconds ;;
     ret (interpolated_points ++ continuous_path)).
Proof.
  reflexivity.
Qed.

Lemma mission_segments_cons (w1 w2 : waypoint) (ws : list waypoint)
    (step_seconds : Z) :
  mission_segments (w1 :: w2 :: ws) step_seconds
  = (interpolated_segment <- interpolate_waypoints w1 w2 step_seconds ;;
     later <- mission_segments (w2 :: ws) step_seconds ;;
     ret ((if (1 <? List.length interpolated_segment)%nat
           then tl interpolated_segment else []) ++ later)).
Proof.
  reflexivity.
Qed.

Lemma interpolate_segments_degenerate (step_seconds : Z) :
  forall ws w,
    never_advances (map timestamp (w :: ws)) ->
    interpolate_segments (w :: ws) step_seconds = ret (removelast (w :: ws)).
Proof.
  induction ws as [| w2 ws IH]; intros w H; [reflexivity |].
  cbn [map never_advances] in H. destruct H as [Hle H].
  rewrite interpolate_segments_cons.
  rewrite (interpolate_waypoints_degenerate _ _ _ Hle). cbn [bind ret].
  rewrite (IH _ H). reflexivity.
Qed.

(** X6. A trajectory whose timestamps never advance (each waypoint is
    stamped at or before the previous one) is returned as it is by
    [generate_continuous_path], for every step, 0 included: no sample is
    added and no coordinate is read. *)
Theorem generate_continuous_path_never_advancing (m : mission) (step_seconds : Z) :
  never_advances (map timestamp (waypoints m)) ->
  generate_continuous_path m step_seconds = ret (waypoints m).
Proof.
  intros H. unfold generate_continuous_path.
  destruct (waypoints m) as [| w ws]; [reflexivity |].
  rewrite (interpolate_segments_degenerate _ _ _ H). cbn [bind ret].
  f_equal. rewrite <- (last_cons ws w w). symmetry.
  apply app_removelast_last. discriminate.
Qed.

Lemma generate_continuous_path_never_advancing_witness :
  never_advances (map timestamp (waypoints backwards_mission))
  /\ generate_continuous_path backwards_mission 0 = ret (waypoints backwards_mission).
Proof.
  assert (H : never_advances (map timestamp (waypoints backwards_mission))).
  { simpl. repeat split; vm_compute; discriminate. }
  split; [exact H |].
  exact (generate_continuous_path_never_advancing backwards_mission 0 H).
Defined.

Lemma mission_segments_degenerate (step_seconds : Z) :
  forall ws w,
    never_advances (map timestamp (w :: ws)) ->
    mission_segments (w :: ws) step_seconds = ret [].
Proof.
  induction ws as [| w2 ws IH]; intros w H; [reflexivity |].
  cbn [map never_advances] in H. destruct H as [Hle H].
  rewrite mission_segments_cons.
  rewrite (interpolate_waypoints_degenerate _ _ _ Hle). cbn [bind ret].
  rewrite (IH _ H). reflexivity.
Qed.

(** X7. [interpolate_mission_path] keeps only the first waypoint of a
    trajectory of two or more waypoints whose timestamps never advance:
    the other waypoints are dropped, where [generate_continuous_path]
    keeps them all. *)
Theorem interpolate_mission_path_never_advancing (w w2 : waypoint)
    (ws : list waypoint) (step_seconds : Z) :
  never_advances (map timestamp (w :: w2 :: ws)) ->
  interpolate_mission_path (w :: w2 :: ws) step_seconds = ret [w].
Proof.
  intros H. unfold interpolate_mission_path.
  rewrite (mission_segments_degenerate _ _ _ H). reflexivity.
Qed.

Lemma interpolate_mission_path_never_advancing_witness :
  never_advances (map timestamp (waypoints backwards_mission))
  /\ interpolate_mission_path (waypoints backwards_mission) 1
     = ret [ mkWaypoint (Named 0 0 (Some 10%Q)) (make_datetime 2025 8 4 10 0 0) ].
Proof.
  assert (H : never_advances (map timestamp (waypoints backwards_mission))).
  { simpl. repeat split; vm_compute; discriminate. }
  split; [exact H |].
  exact (interpolate_mission_path_never_advancing _ _ _ 1 H).
Defined.

(** ** A step of zero *)

(** X8. With a step of 0 [interpolate_waypoints] raises
    [ZeroDivisionError] exactly when the second waypoint is stamped after
    the first one; otherwise it returns the first waypoint alone. *)
Theorem interpolate_waypoints_step_zero (wp1 wp2 : waypoint) :
  (interpolate_waypoints wp1 wp2 0 = raise ZeroDivisionError
   <-> timestamp wp1 < timestamp wp2)
  /\ (interpolate_waypoints wp1 wp2 0 = ret [wp1]
      <-> timestamp wp2 <= timestamp wp1).
Proof.
  destruct (Z_lt_le_dec (timestamp wp1) (timestamp wp2)) as [Hlt | Hle].
  - assert (E : interpolate_waypoints wp1 wp2 0 = raise ZeroDivisionError).
    { unfold interpolate_waypoints.
      destruct (Qle_bool (total_seconds (timestamp wp2 - timestamp wp1)) 0) eqn:E;
        [apply total_seconds_le0 in E; lia | reflexivity]. }
    rewrite E. split; split; intros H; try exact Hlt; try reflexivity;
      try discriminate H; lia.
  - rewrite (interpolate_waypoints_degenerate _ _ 0 Hle).
    split; split; intros H; try exact Hle; try reflexivity;
      try discriminate H; lia.
Qed.

Lemma interpolate_waypoints_step_zero_witness :
  timestamp segment_start < timestamp segment_end
  /\ interpolate_waypoints segment_start segment_end 0 = raise ZeroDivisionError
  /\ timestamp segment_start <= timestamp segment_start
  /\ interpolate_waypoints segment_start segment_start 0 = ret [segment_start].
Proof.
  assert (H1 : timestamp segment_start < timestamp segment_end)
    by (vm_compute; reflexivity).
  assert (H2 : timestamp segment_start <= timestamp segment_start) by lia.
  split; [exact H1 |].
  split; [exact (proj2 (proj1 (interpolate_waypoints_step_zero _ _)) H1) |].
  split; [exact H2 |].
  exact (proj2 (proj2 (interpolate_waypoints_step_zero _ _)) H2).
Defined.

(** ** The samples of a segment: positions *)

Lemma mapM_Forall2 {A B : Type} (f : A -> result B) (xs : list A) :
  forall ys, mapM f xs = ret ys -> Forall2 (fun x y => f x = ret y) xs ys.
Proof.
  induction xs as [| x xs IH]; cbn [mapM]; intros ys H.
  - injection H as <-. constructor.
  - apply bind_ret_inv in H. destruct H as [y [Hy H]].
    apply bind_ret_inv in H. destruct H as [ys' [Hys H]].
    injection H as <-. constructor; [exact Hy | exact (IH _ Hys)].
Qed.

Lemma range_length (n : Z) : List.length (range n) = Z.to_nat n.
Proof.
  unfold range. rewrite length_map, length_seq. reflexivity.
Qed.

Lemma range_ends (n : Z) :
  1 <= n -> exists middle, range (n + 1) = 0 :: middle ++ [n].
Proof.
  intros Hn. unfold range.
  replace (Z.to_nat (n + 1)) with (S (Z.to_nat (n - 1)) + 1)%nat by lia.
  rewrite seq_app, map_app. cbn [seq map Z.of_nat].
  exists (map Z.of_nat (seq 1 (Z.to_nat (n - 1)))).
  replace (Z.of_nat (0 + S (Z.to_nat (n - 1)))) with n by lia. reflexivity.
Qed.

(** What [interpolate_position] returns, as the checker reads it. *)
Lemma interpolate_position_coords (c1 c2 pos : coords) (t : Q) :
  interpolate_position c1 c2 t = ret pos ->
  exists x1 y1 z1 x2 y2 z2,
    ConflictChecker.get_coords c1 = ret (x1, y1, z1)
    /\ ConflictChecker.get_coords c2 = ret (x2, y2, z2)
    /\ ConflictChecker.get_coords pos
       = ret (x1 + t * (x2 - x1), y1 + t * (y2 - y1), z1 + t * (z2 - z1))%Q.
Proof.
  unfold ret.
  destruct c1 as [x1 y1 [z1 |] | [| a1 [| b1 [| d1 p1]]]],
           c2 as [x2 y2 [z2 |] | [| a2 [| b2 [| d2 p2]]]];
    simpl; intros H; inversion H; subst;
    do 6 eexists; repeat split; reflexivity.
Qed.

Lemma same_place_start (c1 c2 pos : coords) (t : Q) :
  (t == 0)%Q -> interpolate_position c1 c2 t = ret pos -> same_place pos c1.
Proof.
  intros Ht H. apply interpolate_position_coords in H.
  destruct H as [x1 [y1 [z1 [x2 [y2 [z2 [H1 [H2 Hp]]]]]]]].
  exists (x1 + t * (x2 - x1))%Q, (y1 + t * (y2 - y1))%Q, (z1 + t * (z2 - z1))%Q,
         x1, y1, z1.
  split; [exact Hp |]. split; [exact H1 |].
  repeat split; rewrite Ht; ring.
Qed.

(** X9. A segment of positive duration, sampled with a positive step,
    has [max(1, duration // step) + 1] samples; the first one is at the
    position and the instant of the first waypoint; the last one is not
    the second waypoint itself but the sample of interpolation parameter
    1, computed as [first + 1 * (second - first)] on each axis, and it is
    stamped [max(1, duration // step)] steps after the first waypoint,
    whatever the instant of the second waypoint. *)
Theorem segment_first_and_last_sample (wp1 wp2 : waypoint) (step_seconds : Z)
    (points : list waypoint) :
  0 < step_seconds ->
  timestamp wp1 < timestamp wp2 ->
  interpolate_waypoints wp1 wp2 step_seconds = ret points ->
  let n := Z.max 1 ((timestamp wp2 - timestamp wp1) / (1000000 * step_seconds)) in
  List.length points = Z.to_nat (n + 1)
  /\ exists first middle final,
       points = first :: middle ++ [final]
       /\ timestamp first = timestamp wp1
       /\ same_place (wp_coords first) (wp_coords wp1)
       /\ timestamp final = timestamp wp1 + timedelta_seconds (n * step_seconds)
       /\ exists t,
            (t == 1)%Q
            /\ interpolate_position (wp_coords wp1) (wp_coords wp2) t
               = ret (wp_coords final).
Proof.
  intros Hs Hlt H n. unfold interpolate_waypoints in H.
  destruct (Qle_bool (total_seconds (timestamp wp2 - timestamp wp1)) 0) eqn:E;
    [apply total_seconds_le0 in E; lia |].
  rewrite num_steps_positive in H by lia. cbn [bind ret] in H. fold n in H.
  assert (Hn : 1 <= n) by (unfold n; lia).
  apply mapM_Forall2 in H.
  split; [rewrite <- (Forall2_length H); apply range_length |].
  destruct (range_ends n Hn) as [mid Hr]. rewrite Hr in H.
  inversion H as [| i0 first l0 rest Hfirst Hrest]; subst.
  apply Forall2_app_inv_l in Hrest.
  destruct Hrest as [middle [tail [_ [Htail ->]]]].
  inversion Htail as [| i1 final l1 l2 Hfinal Hnil]; subst.
  inversion Hnil; subst.
  exists first, middle, final. split; [reflexivity |].
  rewrite interpolation_parameter_defined in Hfirst, Hfinal by exact Hn.
  cbn [bind ret] in Hfirst, Hfinal.
  apply bind_ret_inv in Hfirst. destruct Hfirst as [pos0 [Hpos0 Hfirst]].
  apply bind_ret_inv in Hfinal. destruct Hfinal as [posn [Hposn Hfinal]].
  injection Hfirst as <-. injection Hfinal as <-. cbn [timestamp wp_coords].
  split; [unfold timedelta_seconds; lia |]. split; [| split; [reflexivity |]].
  - refine (same_place_start _ _ _ _ _ Hpos0).
    unfold Qdiv. apply Qmult_0_l.
  - exists (inject_Z n / inject_Z n)%Q. split; [| exact Hposn].
    apply Qmult_inv_r. unfold Qeq. simpl. lia.
Qed.

Lemma segment_first_and_last_sample_witness :
  0 < 2
  /\ timestamp segment_start < timestamp segment_end
  /\ exists points,
       interpolate_waypoints segment_start segment_end 2 = ret points
       /\ List.length points = 2%nat
       /\ exists first middle final,
            points = first :: middle ++ [final]
            /\ timestamp first = timestamp segment_start
            /\ same_place (wp_coords first) (wp_coords segment_start)
            /\ timestamp final = make_datetime 2025 8 4 10 0 2
            /\ exists t,
                 (t == 1)%Q
                 /\ interpolate_position (wp_coords segment_start)
                      (wp_coords segment_end) t
                    = ret (wp_coords final).
Proof.
  assert (H1 : 0 < 2) by reflexivity.
  assert (H2 : timestamp segment_start < timestamp segment_end)
    by (vm_compute; reflexivity).
  assert (H3 : interpolate_waypoints segment_start segment_end 2 = ret _)
    by (vm_compute; reflexivity).
  split; [exact H1 |]. split; [exact H2 |].
  eexists. split; [exact H3 |].
  exact (segment_first_and_last_sample segment_start segment_end 2 _ H1 H2 H3).
Defined.

(** ** Waypoints that a segment cannot read *)

Lemma interpolate_waypoints_position_error (wp1 wp2 : waypoint) (step_seconds : Z)
    (e : py_error) :
  step_seconds <> 0 ->
  timestamp wp1 < timestamp wp2 ->
  (forall t, interpolate_position (wp_coords wp1) (wp_coords wp2) t = raise e) ->
  interpolate_waypoints wp1 wp2 step_seconds = raise e.
Proof.
  intros Hs Hlt He. unfold interpolate_waypoints.
  destruct (Qle_bool (total_seconds (timestamp wp2 - timestamp wp1)) 0) eqn:E;
    [apply total_seconds_le0 in E; lia |].
  unfold num_steps, py_div.
  assert (E0 : Qeq_bool (inject_Z step_seconds) 0 = false).
  { destruct (Qeq_bool _ 0) eqn:E0; [| reflexivity].
    apply Qeq_bool_iff in E0. unfold Qeq in E0. simpl in E0. lia. }
  rewrite E0. cbn [bind ret].
  rewrite range_succ by lia. cbn [mapM].
  rewrite interpolation_parameter_defined by lia. cbn [bind ret].
  rewrite He. reflexivity.
Qed.

(** X10. In a segment of positive duration (and a step other than 0)
    the two waypoints must use the same encoding and, with named
    coordinates, both have a ['z']: a named waypoint followed by a packed
    one raises [KeyError('x')], a packed one followed by a named one
    raises [KeyError('position')], and a named waypoint without ['z'] on
    either side raises [KeyError('z')], although the position query reads
    a missing ['z'] as 0. *)
Theorem interpolate_waypoints_encoding_errors (wp1 wp2 : waypoint)
    (step_seconds : Z) :
  step_seconds <> 0 ->
  timestamp wp1 < timestamp wp2 ->
  (forall x y z p,
      wp_coords wp1 = Named x y z -> wp_coords wp2 = Packed p ->
      interpolate_waypoints wp1 wp2 step_seconds = raise (KeyError "x"))
  /\ (forall a p x y z,
         wp_coords wp1 = Packed (a :: p) -> wp_coords wp2 = Named x y z ->
         interpolate_waypoints wp1 wp2 step_seconds = raise (KeyError "position"))
  /\ (forall x y x2 y2 z2,
         wp_coords wp1 = Named x y None -> wp_coords wp2 = Named x2 y2 z2 ->
         interpolate_waypoints wp1 wp2 step_seconds = raise (KeyError "z"))
  /\ (forall x y z x2 y2,
         wp_coords wp1 = Named x y (Some z) -> wp_coords wp2 = Named x2 y2 None ->
         interpolate_waypoints wp1 wp2 step_seconds = raise (KeyError "z")).
Proof.
  intros Hs Hlt. repeat split; intros;
    apply interpolate_waypoints_position_error; try assumption;
    intros t;
    match goal with
    | H1 : wp_coords wp1 = _, H2 : wp_coords wp2 = _ |- _ => rewrite H1, H2
    end; reflexivity.
Qed.

Lemma interpolate_waypoints_encoding_errors_witness :
  2 <> 0
  /\ timestamp segment_start < timestamp segment_end_packed
  /\ interpolate_waypoints segment_start segment_end_packed 2 = raise (KeyError "x")
  /\ interpolate_waypoints segment_end_packed
       (mkWaypoint (Named 0 0 (Some 10%Q)) (make_datetime 2025 8 4 10 0 9)) 2
     = raise (KeyError "position").
Proof.
  assert (H1 : 2 <> 0) by discriminate.
  assert (H2 : timestamp segment_start < timestamp segment_end_packed)
    by (vm_compute; reflexivity).
  assert (H3 : timestamp segment_end_packed
               < timestamp (mkWaypoint (Named 0 0 (Some 10%Q))
                              (make_datetime 2025 8 4 10 0 9)))
    by (vm_compute; reflexivity).
  split; [exact H1 |]. split; [exact H2 |]. split.
  - exact (proj1 (interpolate_waypoints_encoding_errors _ _ 2 H1 H2)
             _ _ _ _ eq_refl eq_refl).
  - exact (proj1 (proj2 (interpolate_waypoints_encoding_errors _ _ 2 H1 H3))
             _ _ _ _ _ eq_refl eq_refl).
Defined.

(** ** The instants of the mission path *)

Lemma strictly_increasing_app (l1 l2 : list datetime) (a b : datetime) :
  strictly_increasing (a :: l1) -> strictly_increasing (b :: l2) ->
  (forall x, In x (a :: l1) -> x <= b) ->
  strictly_increasing (a :: l1 ++ l2).
Proof.
  revert a. induction l1 as [| c l1 IH]; intros a H1 H2 Hle.
  - destruct l2 as [| d l2]; [exact I |].
    destruct H2 as [Hbd H2]. cbn [app strictly_increasing] in *.
    split; [| exact H2]. specialize (Hle a (or_introl eq_refl)). lia.
  - destruct H1 as [Hac H1].
    change (a < c /\ strictly_increasing (c :: l1 ++ l2)).
    split; [exact Hac |]. apply IH; [exact H1 | exact H2 |].
    intros x Hx. apply Hle. right. exact Hx.
Qed.

Lemma later_samples_increasing (start_time step_seconds : Z) (k : nat) :
  0 < step_seconds ->
  forall s : nat,
    let ts := map (fun i => start_time + timedelta_seconds (i * step_seconds))
                (map Z.of_nat (seq (S s) k)) in
    strictly_increasing
      (start_time + timedelta_seconds (Z.of_nat s * step_seconds) :: ts)
    /\ forall x, In x ts ->
         x <= start_time
              + timedelta_seconds ((Z.of_nat s + Z.of_nat k) * step_seconds).
Proof.
  intros Hstep. unfold timedelta_seconds.
  induction k as [| k IH]; intros s; cbn [seq map];
    [split; [exact I | intros x []] |].
  destruct (IH (S s)) as [Hinc Hin]. split.
  - cbn [strictly_increasing]. split; [nia | exact Hinc].
  - intros x [<- | Hx]; [nia |]. specialize (Hin _ Hx). nia.
Qed.

(** What one segment adds to the mission path. *)
Lemma mission_segment_times (wp1 wp2 : waypoint) (step_seconds : Z)
    (points : list waypoint) :
  0 < step_seconds ->
  timestamp wp2 = timestamp wp1
  \/ timestamp wp1 + timedelta_seconds step_seconds <= timestamp wp2 ->
  interpolate_waypoints wp1 wp2 step_seconds = ret points ->
  let added := if (1 <? List.length points)%nat then tl points else [] in
  strictly_increasing (timestamp wp1 :: map timestamp added)
  /\ forall x, In x (timestamp wp1 :: map timestamp added) -> x <= timestamp wp2.
Proof.
  intros Hs Hfit H added.
  pose proof (interpolate_waypoints_times _ _ _ _ H) as Ht.
  destruct Ht as [[Hd ->] | [Hd [n [Hn Hts]]]].
  - subst added. cbn. split; [exact I |].
    intros x [<- | []]. unfold timedelta_seconds in *. lia.
  - assert (Hlong : timedelta_seconds step_seconds <= timestamp wp2 - timestamp wp1)
      by (unfold timedelta_seconds in *; lia).
    destruct (num_steps_fit _ _ _ Hs Hlong Hn) as [Hn1 Hle].
    assert (Hlen : List.length points = S (Z.to_nat n)).
    { rewrite <- (length_map timestamp), Hts. unfold sample_times.
      rewrite length_map, range_length. lia. }
    assert (Hadded : map timestamp added
                     = map (fun i => timestamp wp1 + timedelta_seconds (i * step_seconds))
                         (map Z.of_nat (seq 1 (Z.to_nat n)))).
    { subst added. rewrite Hlen.
      replace (1 <? S (Z.to_nat n))%nat with true
        by (symmetry; apply Nat.ltb_lt; lia).
      unfold sample_times in Hts. rewrite range_succ in Hts by lia.
      destruct points as [| first rest]; [discriminate Hts |].
      cbn [map tl] in *. injection Hts as _ Hts. exact Hts. }
    rewrite Hadded.
    destruct (later_samples_increasing (timestamp wp1) step_seconds (Z.to_nat n)
                Hs 0) as [Hinc Hin].
    cbn [Z.of_nat] in Hinc, Hin. unfold timedelta_seconds in *.
    replace (timestamp wp1 + 0 * step_seconds * 1000000) with (timestamp wp1)
      in Hinc by lia.
    split; [exact Hinc |].
    intros x [<- | Hx]; [lia |]. specialize (Hin _ Hx).
    rewrite Z2Nat.id in Hin by lia. lia.
Qed.

Lemma mission_segments_increasing (step_seconds : Z) :
  0 < step_seconds ->
  forall ws w later,
    steps_fit step_seconds (map timestamp (w :: ws)) ->
    mission_segments (w :: ws) step_seconds = ret later ->
    strictly_increasing (timestamp w :: map timestamp later).
Proof.
  intros Hs. induction ws as [| w2 ws IH]; intros w later Hfit H.
  - simpl in H. injection H as <-. exact I.
  - rewrite mission_segments_cons in H.
    apply bind_ret_inv in H. destruct H as [points [Hp H]].
    apply bind_ret_inv in H. destruct H as [more [Hm H]].
    injection H as <-.
    cbn [map steps_fit] in Hfit. destruct Hfit as [Hfit1 Hfit].
    destruct (mission_segment_times _ _ _ _ Hs Hfit1 Hp) as [Hinc Hle].
    rewrite map_app.
    exact (strictly_increasing_app _ _ _ _ Hinc (IH _ _ Hfit Hm) Hle).
Qed.

(** X11. With a positive step, on a trajectory each segment of which
    lasts no time or at least one step, [interpolate_mission_path]
    starts with the first waypoint itself and its instants increase
    strictly: no instant occurs twice, where [generate_continuous_path]
    repeats the instant of every waypoint. *)
Theorem interpolate_mission_path_increasing (wps : list waypoint)
    (step_seconds : Z) (path : list waypoint) :
  0 < step_seconds ->
  steps_fit step_seconds (map timestamp wps) ->
  interpolate_mission_path wps step_seconds = ret path ->
  strictly_increasing (map timestamp path)
  /\ hd_error path = hd_error wps.
Proof.
  intros Hs Hfit H. unfold interpolate_mission_path in H.
  destruct wps as [| w [| w2 ws]].
  - injection H as <-. split; [exact I | reflexivity].
  - injection H as <-. split; [exact I | reflexivity].
  - apply bind_ret_inv in H. destruct H as [later [Hl H]]. injection H as <-.
    split; [| reflexivity].
    exact (mission_segments_increasing _ Hs _ _ _ Hfit Hl).
Qed.

Lemma interpolate_mission_path_increasing_witness :
  0 < 1
  /\ steps_fit 1 (map timestamp [segment_start; segment_end])
  /\ exists path,
       interpolate_mission_path [segment_start; segment_end] 1 = ret path
       /\ map timestamp path
          = [ make_datetime 2025 8 4 10 0 0; make_datetime 2025 8 4 10 0 1;
              make_datetime 2025 8 4 10 0 2; make_datetime 2025 8 4 10 0 3 ]
       /\ strictly_increasing (map timestamp path)
       /\ hd_error path = Some segment_start.
Proof.
  assert (H1 : 0 < 1) by reflexivity.
  assert (H2 : steps_fit 1 (map timestamp [segment_start; segment_end])).
  { simpl. split; [right; vm_compute; discriminate | exact I]. }
  assert (H3 : interpolate_mission_path [segment_start; segment_end] 1 = ret _)
    by (vm_compute; reflexivity).
  split; [exact H1 |]. split; [exact H2 |].
  eexists. split; [exact H3 |]. split; [vm_compute; reflexivity |].
  exact (interpolate_mission_path_increasing _ 1 _ H1 H2 H3).
Defined.

(** ** The reports of one flight *)

Lemma strictly_increasing_cons (t : datetime) (l : list datetime) :
  strictly_increasing l -> (forall x, In x l -> t < x) ->
  strictly_increasing (t :: l).
Proof.
  intros Hl Hlt. destruct l as [| u l]; [exact I |].
  split; [apply Hlt; left; reflexivity | exact Hl].
Qed.

Lemma strictly_increasing_head_lt (t : datetime) (l : list datetime) :
  strictly_increasing (t :: l) -> forall x, In x l -> t < x.
Proof.
  revert t. induction l as [| u l IH]; intros t H x Hx; [destruct Hx |].
  destruct H as [Htu H]. destruct Hx as [<- | Hx]; [exact Htu |].
  specialize (IH _ H _ Hx). lia.
Qed.

Lemma strictly_increasing_tail (t : datetime) (l : list datetime) :
  strictly_increasing (t :: l) -> strictly_increasing l.
Proof.
  destruct l as [| u l]; [intros _; exact I | intros [_ H]; exact H].
Qed.

Section ReportTimes.

Variable pow_half : Q -> Q.
Variables primary_path sim_path : list waypoint.
Variable sim_drone_id : string.
Variable safety_distance : Q.
Variable end_time : datetime.

(** The detected events are stamped with instants of the grid, each one
    later than the one before. *)
Lemma raw_events_times (fuel : nat) :
  forall current_time events,
    raw_events pow_half primary_path sim_path sim_drone_id safety_distance
      end_time fuel current_time = ret events ->
    strictly_increasing (map timestamp_obj events)
    /\ Forall (fun e => on_grid current_time end_time (timestamp_obj e)) events.
Proof.
  induction fuel as [| fuel IH]; intros current_time events; cbn [raw_events];
    destruct (current_time <=? end_time) eqn:E;
    try (intros H; injection H as <-; split; [exact I | constructor]).
  intros H. apply bind_ret_inv in H. destruct H as [found [Hf H]].
  apply bind_ret_inv in H. destruct H as [later [Hl H]].
  injection H as <-. destruct (IH _ _ Hl) as [Hinc Hgrid].
  assert (Hlater : Forall (fun e => on_grid current_time end_time (timestamp_obj e)
                                    /\ current_time < timestamp_obj e) later).
  { rewrite Forall_forall in *. intros e He.
    destruct (Hgrid e He) as [[Hlo Hhi] [k [Hk Heq]]].
    unfold timedelta_seconds, check_interval in *.
    split; [| lia]. split; [lia |].
    exists (k + 1). split; [lia |]. unfold timedelta_seconds, check_interval. lia. }
  destruct found as [c |].
  - destruct (detect_at_rounded_within _ _ _ _ _ _ _ Hf) as [_ [_ Hc]].
    cbn [map]. split.
    + apply strictly_increasing_cons; [exact Hinc |].
      intros x Hx. apply in_map_iff in Hx. destruct Hx as [e [<- He]].
      rewrite Forall_forall in Hlater. rewrite Hc. apply (Hlater e He).
    + constructor.
      * rewrite Hc. split; [lia |]. exists 0. split; [lia |].
        unfold timedelta_seconds. lia.
      * rewrite Forall_forall in *. intros e He. apply (Hlater e He).
  - split; [exact Hinc |].
    rewrite Forall_forall in *. intros e He. apply (Hlater e He).
Qed.

End ReportTimes.

Lemma ForallOrdPairs_snoc {A : Type} (R : A -> A -> Prop) (l : list A) (x : A) :
  ForallOrdPairs R l -> Forall (fun a => R a x) l -> ForallOrdPairs R (l ++ [x]).
Proof.
  induction 1 as [| a l Ha Hl IH]; intros Hx; cbn [app].
  - constructor; constructor.
  - inversion Hx as [| a' l' Hax Hlx]; subst.
    constructor; [| exact (IH Hlx)].
    apply Forall_app. split; [exact Ha | constructor; [exact Hax | constructor]].
Qed.

Lemma far_apart_gap (pow_half : Q -> Q) (a b : conflict) :
  far_apart pow_half b a -> timestamp_obj a < timestamp_obj b ->
  timestamp_obj a + 120000000 < timestamp_obj b.
Proof.
  intros [Ht _] Hlt. unfold time_diff, total_seconds, Qlt in Ht. simpl in Ht. lia.
Qed.

Lemma deduplicate_apart (pow_half : Q -> Q) (events : list conflict) :
  forall accepted,
    ForallOrdPairs (apart_from pow_half) accepted ->
    strictly_increasing (map timestamp_obj events) ->
    (forall a e, In a accepted -> In e events -> timestamp_obj a < timestamp_obj e) ->
    ForallOrdPairs (apart_from pow_half) (deduplicate pow_half events accepted).
Proof.
  induction events as [| e events IH]; intros accepted Hacc Hinc Hbefore;
    cbn [deduplicate]; [exact Hacc |].
  cbn [map] in Hinc.
  pose proof (strictly_increasing_tail _ _ Hinc) as Hinc'.
  destruct (is_new_conflict pow_half e accepted) eqn:Hnew.
  - apply IH; [| exact Hinc' |].
    + apply ForallOrdPairs_snoc; [exact Hacc |].
      apply Forall_forall. intros a Ha.
      pose proof (proj1 (is_new_conflict_true _ _ _) Hnew a Ha) as Hfar.
      split; [exact Hfar |].
      apply (far_apart_gap pow_half); [exact Hfar |].
      apply Hbefore; [exact Ha | left; reflexivity].
    + intros a e' Ha He'. apply in_app_or in Ha. destruct Ha as [Ha | [<- | []]].
      * apply Hbefore; [exact Ha | right; exact He'].
      * apply (strictly_increasing_head_lt _ _ Hinc).
        apply in_map. exact He'.
  - apply IH; [exact Hacc | exact Hinc' |].
    intros a e' Ha He'. apply Hbefore; [exact Ha | right; exact He'].
Qed.

Lemma detected_events_times (pow_half : Q -> Q)
    (primary_path sim_path : list waypoint) (sim_drone_id : string)
    (safety_distance : Q) (events : list conflict) :
  detected_events pow_half primary_path sim_path sim_drone_id safety_distance
  = ret events ->
  strictly_increasing (map timestamp_obj events).
Proof.
  unfold detected_events.
  destruct (map timestamp primary_path) as [| p ps];
    [intros H; injection H as <-; exact I |].
  destruct (map timestamp sim_path) as [| s ss];
    [intros H; injection H as <-; exact I |].
  destruct (_ >=? _); [intros H; injection H as <-; exact I |].
  intros H. exact (proj1 (raw_events_times _ _ _ _ _ _ _ _ _ H)).
Qed.

(** X12. The reports that [detect_path_conflicts] returns for one
    flight are in time order and pairwise apart: each report is more than
    120 seconds after every report before it and outside the zone of each
    of them (more than 50 units from it, between the rounded locations of
    the primary drone). *)
Theorem reports_pairwise_apart (pow_half : Q -> Q)
    (primary_path sim_path : list waypoint) (sim_drone_id : string)
    (safety_distance : Q) (time_threshold : Z) (reports : list conflict) :
  detect_path_conflicts pow_half primary_path sim_path sim_drone_id
    safety_distance time_threshold = ret reports ->
  ForallOrdPairs (apart_from pow_half) reports.
Proof.
  intros H. rewrite detect_path_conflicts_deduplicates in H.
  apply bind_ret_inv in H. destruct H as [events [Hev H]]. injection H as <-.
  apply deduplicate_apart.
  - constructor.
  - exact (detected_events_times _ _ _ _ _ _ Hev).
  - intros a e [].
Qed.

Lemma reports_pairwise_apart_witness :
  exists reports,
    detect_path_conflicts pow_half_micro straight_line three_meetings "SIM_001"
      2 10 = ret reports
    /\ List.length reports = 3%nat
    /\ ForallOrdPairs (apart_from pow_half_micro) reports.
Proof.
  assert (H : detect_path_conflicts pow_half_micro straight_line three_meetings
                "SIM_001" 2 10 = ret _) by (vm_compute; reflexivity).
  eexists. split; [exact H |]. split; [reflexivity |].
  exact (reports_pairwise_apart pow_half_micro straight_line three_meetings
           "SIM_001"%string 2 10 _ H).
Defined.

Lemma detected_events_grid (pow_half : Q -> Q)
    (primary_path sim_path : list waypoint) (sim_drone_id : string)
    (safety_distance : Q) (events : list conflict)
    (primary_min primary_max sim_min sim_max : datetime) :
  is_min_of primary_min (map timestamp primary_path) ->
  is_max_of primary_max (map timestamp primary_path) ->
  is_min_of sim_min (map timestamp sim_path) ->
  is_max_of sim_max (map timestamp sim_path) ->
  detected_events pow_half primary_path sim_path sim_drone_id safety_distance
  = ret events ->
  Forall (fun e => on_grid (Z.max primary_min sim_min) (Z.min primary_max sim_max)
                     (timestamp_obj e)) events.
Proof.
  intros Hpmin Hpmax Hsmin Hsmax. unfold detected_events.
  destruct (map timestamp primary_path) as [| p ps];
    [intros H; injection H as <-; constructor |].
  destruct (map timestamp sim_path) as [| s ss];
    [intros H; injection H as <-; constructor |].
  rewrite (is_min_of_unique _ _ _ (py_min_is_min p ps) Hpmin).
  rewrite (is_min_of_unique _ _ _ (py_min_is_min s ss) Hsmin).
  rewrite (is_max_of_unique _ _ _ (py_max_is_max p ps) Hpmax).
  rewrite (is_max_of_unique _ _ _ (py_max_is_max s ss) Hsmax).
  destruct (_ >=? _); [intros H; injection H as <-; constructor |].
  intros H. exact (proj2 (raw_events_times _ _ _ _ _ _ _ _ _ H)).
Qed.

Lemma reports_grid (pow_half : Q -> Q)
    (primary_path sim_path : list waypoint) (sim_drone_id : string)
    (safety_distance : Q) (time_threshold : Z) (reports : list conflict)
    (primary_min primary_max sim_min sim_max : datetime) :
  is_min_of primary_min (map timestamp primary_path) ->
  is_max_of primary_max (map timestamp primary_path) ->
  is_min_of sim_min (map timestamp sim_path) ->
  is_max_of sim_max (map timestamp sim_path) ->
  detect_path_conflicts pow_half primary_path sim_path sim_drone_id
    safety_distance time_threshold = ret reports ->
  Forall (fun r => on_grid (Z.max primary_min sim_min) (Z.min primary_max sim_max)
                     (timestamp_obj r)) reports.
Proof.
  intros Hpmin Hpmax Hsmin Hsmax H.
  rewrite detect_path_conflicts_deduplicates in H.
  apply bind_ret_inv in H. destruct H as [events [Hev H]]. injection H as <-.
  pose proof (detected_events_grid _ _ _ _ _ _ _ _ _ _ Hpmin Hpmax Hsmin Hsmax Hev)
    as Hgrid.
  rewrite Forall_forall in *. intros r Hr.
  destruct (deduplicate_incl _ _ _ _ Hr) as [[] | Hin]. exact (Hgrid _ Hin).
Qed.

(** X13. Every report of [detect_path_conflicts] is stamped with an
    instant of the sampling grid: inside the overlap window of the two
    paths (from the later of their first instants to the earlier of their
    last instants) and a whole number of 5-second intervals after its
    start; its three time fields are that instant cut to the second. *)
Theorem reports_on_grid (pow_half : Q -> Q)
    (primary_path sim_path : list waypoint) (sim_drone_id : string)
    (safety_distance : Q) (time_threshold : Z) (reports : list conflict)
    (primary_min primary_max sim_min sim_max : datetime) :
  is_min_of primary_min (map timestamp primary_path) ->
  is_max_of primary_max (map timestamp primary_path) ->
  is_min_of sim_min (map timestamp sim_path) ->
  is_max_of sim_max (map timestamp sim_path) ->
  detect_path_conflicts pow_half primary_path sim_path sim_drone_id
    safety_distance time_threshold = ret reports ->
  Forall (fun r =>
            on_grid (Z.max primary_min sim_min) (Z.min primary_max sim_max)
              (timestamp_obj r)
            /\ time r = strftime_seconds (timestamp_obj r)
            /\ primary_time r = time r /\ sim_time r = time r) reports.
Proof.
  intros Hpmin Hpmax Hsmin Hsmax H.
  pose proof (reports_grid _ _ _ _ _ _ _ _ _ _ _ Hpmin Hpmax Hsmin Hsmax H) as Hgrid.
  assert (Hfields : Forall (fun r => time r = strftime_seconds (timestamp_obj r)
                                     /\ primary_time r = time r
                                     /\ sim_time r = time r) reports).
  { refine (detect_path_conflicts_Forall _ _ _ _ _ _ _ _ _ H).
    intros t c Hc. unfold detect_at in Hc.
    apply bind_ret_inv in Hc. destruct Hc as [sep [_ Hc]].
    destruct sep as [[[[[px py_] pz] [[sx sy] sz]] dist] |]; [| discriminate Hc].
    destruct (Qle_bool dist safety_distance); [| discriminate Hc].
    injection Hc as <-. repeat split. }
  rewrite Forall_forall in *. intros r Hr.
  split; [exact (Hgrid r Hr) | exact (Hfields r Hr)].
Qed.

Lemma reports_on_grid_witness :
  is_min_of (make_datetime 2025 8 4 10 0 0) (map timestamp straight_line)
  /\ is_max_of (make_datetime 2025 8 4 10 4 10) (map timestamp straight_line)
  /\ is_min_of (make_datetime 2025 8 4 10 0 0) (map timestamp three_meetings)
  /\ is_max_of (make_datetime 2025 8 4 10 4 10) (map timestamp three_meetings)
  /\ exists reports,
       detect_path_conflicts pow_half_micro straight_line three_meetings "SIM_001"
         2 10 = ret reports
       /\ reports <> []
       /\ Forall (fun r =>
                    on_grid (Z.max (make_datetime 2025 8 4 10 0 0)
                               (make_datetime 2025 8 4 10 0 0))
                      (Z.min (make_datetime 2025 8 4 10 4 10)
                         (make_datetime 2025 8 4 10 4 10))
                      (timestamp_obj r)
                    /\ time r = strftime_seconds (timestamp_obj r)
                    /\ primary_time r = time r /\ sim_time r = time r) reports.
Proof.
  assert (H1 : is_min_of (make_datetime 2025 8 4 10 0 0)
                 (map timestamp straight_line)) by concrete_extremum.
  assert (H2 : is_max_of (make_datetime 2025 8 4 10 4 10)
                 (map timestamp straight_line)) by concrete_extremum.
  assert (H3 : is_min_of (make_datetime 2025 8 4 10 0 0)
                 (map timestamp three_meetings)) by concrete_extremum.
  assert (H4 : is_max_of (make_datetime 2025 8 4 10 4 10)
                 (map timestamp three_meetings)) by concrete_extremum.
  assert (H : detect_path_conflicts pow_half_micro straight_line three_meetings
                "SIM_001" 2 10 = ret _) by (vm_compute; reflexivity).
  repeat (split; [assumption |]).
  eexists. split; [exact H |]. split; [discriminate |].
  exact (reports_on_grid pow_half_micro straight_line three_meetings
           "SIM_001"%string 2 10 _ _ _ _ _ H1 H2 H3 H4 H).
Defined.

Lemma last_in {A : Type} (rest : list A) :
  forall r0, In (last rest r0) (r0 :: rest).
Proof.
  induction rest as [| r1 rest IH]; intros r0; [left; reflexivity |].
  rewrite last_cons. right. apply IH.
Qed.

Lemma apart_span (pow_half : Q -> Q) (rest : list conflict) :
  forall r0,
    ForallOrdPairs (apart_from pow_half) (r0 :: rest) ->
    timestamp_obj r0 + 120000000 * Z.of_nat (List.length rest)
    <= timestamp_obj (last rest r0).
Proof.
  induction rest as [| r1 rest IH]; intros r0 H; [simpl; lia |].
  inversion H as [| a l Hr0 Hrest]; subst.
  inversion Hr0 as [| a l [_ Hgap] _]; subst.
  specialize (IH _ Hrest). rewrite last_cons.
  cbn [List.length]. lia.
Qed.

(** X14. The number of reports for one flight is bounded by the length
    of the overlap window: [n] reports need at least [n - 1] times 120
    seconds of overlap window, so a window of [w] seconds holds at most
    [1 + w / 120] reports. *)
Theorem reports_count_bounded (pow_half : Q -> Q)
    (primary_path sim_path : list waypoint) (sim_drone_id : string)
    (safety_distance : Q) (time_threshold : Z) (reports : list conflict)
    (primary_min primary_max sim_min sim_max : datetime) :
  is_min_of primary_min (map timestamp primary_path) ->
  is_max_of primary_max (map timestamp primary_path) ->
  is_min_of sim_min (map timestamp sim_path) ->
  is_max_of sim_max (map timestamp sim_path) ->
  detect_path_conflicts pow_half primary_path sim_path sim_drone_id
    safety_distance time_threshold = ret reports ->
  reports <> [] ->
  120000000 * (Z.of_nat (List.length reports) - 1)
  <= Z.min primary_max sim_max - Z.max primary_min sim_min.
Proof.
  intros Hpmin Hpmax Hsmin Hsmax H Hne.
  pose proof (reports_grid _ _ _ _ _ _ _ _ _ _ _ Hpmin Hpmax Hsmin Hsmax H) as Hgrid.
  assert (Hapart : ForallOrdPairs (apart_from pow_half) reports).
  { rewrite detect_path_conflicts_deduplicates in H.
    apply bind_ret_inv in H. destruct H as [events [Hev H]]. injection H as <-.
    apply deduplicate_apart;
      [constructor | exact (detected_events_times _ _ _ _ _ _ Hev) | intros a e []]. }
  destruct reports as [| r0 rest]; [congruence |].
  pose proof (apart_span _ _ _ Hapart) as Hspan.
  rewrite Forall_forall in Hgrid.
  destruct (Hgrid r0 (or_introl eq_refl)) as [[Hlo _] _].
  pose proof (last_in rest r0) as Hlast.
  destruct (Hgrid _ Hlast) as [[_ Hhi] _].
  cbn [List.length]. lia.
Qed.

Lemma reports_count_bounded_witness :
  is_min_of (make_datetime 2025 8 4 10 0 0) (map timestamp straight_line)
  /\ is_max_of (make_datetime 2025 8 4 10 4 10) (map timestamp straight_line)
  /\ is_min_of (make_datetime 2025 8 4 10 0 0) (map timestamp three_meetings)
  /\ is_max_of (make_datetime 2025 8 4 10 4 10) (map timestamp three_meetings)
  /\ exists reports,
       detect_path_conflicts pow_half_micro straight_line three_meetings "SIM_001"
         2 10 = ret reports
       /\ reports <> []
       /\ 120000000 * (Z.of_nat (List.length reports) - 1)
          <= Z.min (make_datetime 2025 8 4 10 4 10) (make_datetime 2025 8 4 10 4 10)
             - Z.max (make_datetime 2025 8 4 10 0 0) (make_datetime 2025 8 4 10 0 0).
Proof.
  assert (H1 : is_min_of (make_datetime 2025 8 4 10 0 0)
                 (map timestamp straight_line)) by concrete_extremum.
  assert (H2 : is_max_of (make_datetime 2025 8 4 10 4 10)
                 (map timestamp straight_line)) by concrete_extremum.
  assert (H3 : is_min_of (make_datetime 2025 8 4 10 0 0)
                 (map timestamp three_meetings)) by concrete_extremum.
  assert (H4 : is_max_of (make_datetime 2025 8 4 10 4 10)
                 (map timestamp three_meetings)) by concrete_extremum.
  assert (H : detect_path_conflicts pow_half_micro straight_line three_meetings
                "SIM_001" 2 10 = ret _) by (vm_compute; reflexivity).
  assert (Hne : forall A (x : A) l, x :: l <> []) by discriminate.
  repeat (split; [assumption |]).
  eexists. split; [exact H |]. split; [apply Hne |].
  exact (reports_count_bounded pow_half_micro straight_line three_meetings
           "SIM_001"%string 2 10 _ _ _ _ _ H1 H2 H3 H4 H (Hne _ _ _)).
Defined.

Lemma deduplicate_prefix (pow_half : Q -> Q) (events : list conflict) :
  forall accepted,
    exists kept, deduplicate pow_half events accepted = accepted ++ kept.
Proof.
  induction events as [| e events IH]; intros accepted; cbn [deduplicate].
  - exists []. symmetry. apply app_nil_r.
  - destruct (is_new_conflict pow_half e accepted).
    + destruct (IH (accepted ++ [e])) as [kept ->].
      exists (e :: kept). rewrite <- app_assoc. reflexivity.
    + apply IH.
Qed.

Lemma deduplicate_covers (pow_half : Q -> Q) (events : list conflict) :
  forall accepted,
    strictly_increasing (map timestamp_obj events) ->
    forall e, In e events ->
      exists r, In r (deduplicate pow_half events accepted)
                /\ (r = e
                    \/ (same_zone_as pow_half e r
                        /\ (In r accepted \/ timestamp_obj r < timestamp_obj e))).
Proof.
  induction events as [| e0 events IH]; intros accepted Hinc e He; [destruct He |].
  cbn [deduplicate]. cbn [map] in Hinc.
  pose proof (strictly_increasing_tail _ _ Hinc) as Hinc'.
  destruct He as [<- | He].
  - destruct (is_new_conflict pow_half e0 accepted) eqn:Hnew.
    + exists e0. split; [| left; reflexivity].
      destruct (deduplicate_prefix pow_half events (accepted ++ [e0])) as [kept ->].
      apply in_or_app. left. apply in_or_app. right. left. reflexivity.
    + apply is_new_conflict_false in Hnew. destruct Hnew as [r [Hr Hz]].
      exists r. split; [| right; split; [exact Hz | left; exact Hr]].
      destruct (deduplicate_prefix pow_half events accepted) as [kept ->].
      apply in_or_app. left. exact Hr.
  - destruct (is_new_conflict pow_half e0 accepted).
    + destruct (IH (accepted ++ [e0]) Hinc' e He) as [r [Hr Hcase]].
      exists r. split; [exact Hr |].
      destruct Hcase as [-> | [Hz [Hacc | Hlt]]]; [left; reflexivity | |].
      * right. split; [exact Hz |].
        apply in_app_or in Hacc. destruct Hacc as [Hacc | [<- | []]];
          [left; exact Hacc | right].
        apply (strictly_increasing_head_lt _ _ Hinc). apply in_map. exact He.
      * right. split; [exact Hz | right; exact Hlt].
    + exact (IH accepted Hinc' e He).
Qed.

(** X15. Deduplication loses no conflict zone: every detected event is
    either reported itself or lies in the zone (within 120 seconds or
    within 50 units) of a report made at an earlier sampling instant; and
    the first detected event is always the first report. *)
Theorem detected_events_are_covered (pow_half : Q -> Q)
    (primary_path sim_path : list waypoint) (sim_drone_id : string)
    (safety_distance : Q) (time_threshold : Z) (events : list conflict) :
  detected_events pow_half primary_path sim_path sim_drone_id safety_distance
  = ret events ->
  exists reports,
    detect_path_conflicts pow_half primary_path sim_path sim_drone_id
      safety_distance time_threshold = ret reports
    /\ (forall e, In e events ->
          exists r, In r reports
                    /\ (r = e
                        \/ (same_zone_as pow_half e r
                            /\ timestamp_obj r < timestamp_obj e)))
    /\ (forall e later, events = e :: later -> exists rest, reports = e :: rest).
Proof.
  intros Hev. exists (deduplicate pow_half events []).
  split; [rewrite detect_path_conflicts_deduplicates, Hev; reflexivity |]. split.
  - intros e He.
    destruct (deduplicate_covers pow_half events []
                (detected_events_times _ _ _ _ _ _ Hev) e He) as [r [Hr Hcase]].
    exists r. split; [exact Hr |].
    destruct Hcase as [-> | [Hz [[] | Hlt]]]; [left; reflexivity |].
    right. split; [exact Hz | exact Hlt].
  - intros e later ->. cbn [deduplicate is_new_conflict].
    destruct (deduplicate_prefix pow_half later ([] ++ [e])) as [kept ->].
    exists kept. reflexivity.
Qed.

Lemma detected_events_are_covered_witness :
  exists events,
    detected_events pow_half_micro hover_origin hover_near "SIM_001" (1999 # 1000)
    = ret events
    /\ List.length events = 3%nat
    /\ exists reports,
         detect_path_conflicts pow_half_micro hover_origin hover_near "SIM_001"
           (1999 # 1000) 10 = ret reports
         /\ (forall e, In e events ->
               exists r, In r reports
                         /\ (r = e
                             \/ (same_zone_as pow_half_micro e r
                                 /\ timestamp_obj r < timestamp_obj e)))
         /\ (forall e later, events = e :: later -> exists rest, reports = e :: rest).
Proof.
  assert (H : detected_events pow_half_micro hover_origin hover_near "SIM_001"
                (1999 # 1000) = ret _) by (vm_compute; reflexivity).
  eexists. split; [exact H |]. split; [reflexivity |].
  exact (detected_events_are_covered pow_half_micro hover_origin hover_near
           "SIM_001"%string (1999 # 1000) 10 _ H).
Defined.

(** ** The query over all flights *)

Lemma detect_at_names (pow_half : Q -> Q) (primary_path sim_path : list waypoint)
    (sim_drone_id : string) (safety_distance : Q) (t : datetime) (c : conflict) :
  detect_at pow_half primary_path sim_path sim_drone_id safety_distance t
  = ret (Some c) ->
  conflicting_drone c = sim_drone_id /\ c_drone_id c = sim_drone_id.
Proof.
  unfold detect_at. intros H.
  apply bind_ret_inv in H. destruct H as [sep [_ H]].
  destruct sep as [[[[[px py_] pz] [[sx sy] sz]] dist] |]; [| discriminate H].
  destruct (Qle_bool dist safety_distance); [| discriminate H].
  injection H as <-. split; reflexivity.
Qed.

Lemma check_flights_concat (pow_half : Q -> Q) (primary_path : list waypoint)
    (safety_distance : Q) (time_threshold : Z) :
  forall simulated_flights conflicts reports,
    check_flights pow_half primary_path simulated_flights safety_distance
      time_threshold conflicts = ret reports ->
    exists per_flight,
      Forall2 (reports_of_flight pow_half primary_path safety_distance time_threshold)
        simulated_flights per_flight
      /\ reports = conflicts ++ List.concat per_flight.
Proof.
  induction simulated_flights as [| f fs IH]; intros conflicts reports;
    cbn [check_flights]; intros H.
  - injection H as <-. exists []. split; [constructor | symmetry; apply app_nil_r].
  - apply bind_ret_inv in H. destruct H as [sim_path [Hpath H]].
    apply bind_ret_inv in H. destruct H as [found [Hfound H]].
    destruct (IH _ _ H) as [per_flight [Hall ->]].
    exists (found :: per_flight). split.
    + constructor; [| exact Hall]. exists sim_path. split; [exact Hpath |].
      split; [exact Hfound |].
      refine (detect_path_conflicts_Forall _ _ _ _ _ _ _ _ _ Hfound).
      intros t c Hc. exact (detect_at_names _ _ _ _ _ _ _ Hc).
    + cbn [List.concat]. rewrite app_assoc. reflexivity.
Qed.

(** X16. The details of [check_deconfliction] are the reports of the
    simulated flights one flight after the other, in the order of the
    flights: each flight is checked on its own continuous path against the
    one continuous path of the primary mission, its reports carry its
    ['drone_id'], or else its ['id'], or else ['Unknown_Drone'], and the
    status is clear exactly when there is no report. *)
Theorem check_deconfliction_details (pow_half : Q -> Q) (primary_mission : mission)
    (simulated_flights : list mission) (safety_distance : Q) (time_threshold : Z)
    (r : deconfliction_result) :
  check_deconfliction pow_half primary_mission simulated_flights safety_distance
    time_threshold = ret r ->
  exists primary_path per_flight,
    generate_continuous_path primary_mission 1 = ret primary_path
    /\ Forall2 (reports_of_flight pow_half primary_path safety_distance time_threshold)
         simulated_flights per_flight
    /\ details r = List.concat per_flight
    /\ (res_status r = Clear <-> details r = []).
Proof.
  unfold check_deconfliction. intros H.
  apply bind_ret_inv in H. destruct H as [primary_path [Hpath H]].
  apply bind_ret_inv in H. destruct H as [conflicts [Hc H]].
  injection H as <-. cbn [details res_status].
  destruct (check_flights_concat _ _ _ _ _ _ _ Hc) as [per_flight [Hall ->]].
  exists primary_path, per_flight. split; [exact Hpath |]. split; [exact Hall |].
  split; [reflexivity |].
  destruct ([] ++ List.concat per_flight); split; intros E; try reflexivity; discriminate E.
Qed.

Lemma check_deconfliction_details_witness :
  exists r,
    check_deconfliction pow_half_micro hover_origin_mission
      [hover_origin_flight; hover_near_flight] 2 10 = ret r
    /\ List.length (details r) = 2%nat
    /\ exists primary_path per_flight,
         generate_continuous_path hover_origin_mission 1 = ret primary_path
         /\ Forall2 (reports_of_flight pow_half_micro primary_path 2 10)
              [hover_origin_flight; hover_near_flight] per_flight
         /\ details r = List.concat per_flight
         /\ (res_status r = Clear <-> details r = []).
Proof.
  assert (H : check_deconfliction pow_half_micro hover_origin_mission
                [hover_origin_flight; hover_near_flight] 2 10 = ret _)
    by (vm_compute; reflexivity).
  eexists. split; [exact H |]. split; [reflexivity |].
  exact (check_deconfliction_details pow_half_micro hover_origin_mission
           [hover_origin_flight; hover_near_flight] 2 10 _ H).
Defined.

Lemma check_flights_threshold (pow_half : Q -> Q) (primary_path : list waypoint)
    (safety_distance : Q) (time_threshold time_threshold' : Z) :
  forall simulated_flights conflicts,
    check_flights pow_half primary_path simulated_flights safety_distance
      time_threshold conflicts
    = check_flights pow_half primary_path simulated_flights safety_distance
        time_threshold' conflicts.
Proof.
  induction simulated_flights as [| f fs IH]; intros conflicts; cbn [check_flights];
    [reflexivity |].
  destruct (generate_continuous_path f 1) as [e | sim_path]; [reflexivity |].
  cbn [bind]. unfold detect_path_conflicts at 1 2.
  destruct (match map timestamp primary_path with
            | [] => _ | _ :: _ => _ end) as [e | found]; [reflexivity |].
  cbn [bind]. apply IH.
Qed.

(** X17. The argument [time_threshold] of [check_deconfliction] has no
    effect: the result, or the exception, is the same for every value of
    it. *)
Theorem check_deconfliction_ignores_time_threshold (pow_half : Q -> Q)
    (primary_mission : mission) (simulated_flights : list mission)
    (safety_distance : Q) (time_threshold time_threshold' : Z) :
  check_deconfliction pow_half primary_mission simulated_flights safety_distance
    time_threshold
  = check_deconfliction pow_half primary_mission simulated_flights safety_distance
      time_threshold'.
Proof.
  unfold check_deconfliction.
  destruct (generate_continuous_path primary_mission 1) as [e | primary_path];
    [reflexivity |].
  cbn [bind].
  rewrite (check_flights_threshold _ _ _ time_threshold time_threshold').
  reflexivity.
Qed.

Lemma detect_path_conflicts_short_primary (pow_half : Q -> Q)
    (primary_path sim_path : list waypoint) (sim_drone_id : string)
    (safety_distance : Q) (time_threshold : Z) :
  (List.length primary_path <= 1)%nat ->
  detect_path_conflicts pow_half primary_path sim_path sim_drone_id
    safety_distance time_threshold = ret [].
Proof.
  intros Hlen. unfold detect_path_conflicts.
  destruct primary_path as [| p [| p' ps]]; [reflexivity | | simpl in Hlen; lia].
  cbn [map]. destruct (map timestamp sim_path) as [| s ss]; [reflexivity |].
  unfold py_min at 1, py_max at 1. cbn [fold_left].
  destruct (Z.max (timestamp p) (py_min s ss) >=? Z.min (timestamp p) (py_max s ss))
    eqn:E; [reflexivity | lia].
Qed.

Lemma detect_path_conflicts_short_flight (pow_half : Q -> Q)
    (primary_path sim_path : list waypoint) (sim_drone_id : string)
    (safety_distance : Q) (time_threshold : Z) :
  (List.length sim_path <= 1)%nat ->
  detect_path_conflicts pow_half primary_path sim_path sim_drone_id
    safety_distance time_threshold = ret [].
Proof.
  intros Hlen. unfold detect_path_conflicts.
  destruct (map timestamp primary_path) as [| p ps]; [reflexivity |].
  destruct sim_path as [| s [| s' ss]]; [reflexivity | | simpl in Hlen; lia].
  cbn [map]. unfold py_min at 2, py_max at 2. cbn [fold_left].
  destruct (Z.max (py_min p ps) (timestamp s) >=? Z.min (py_max p ps) (timestamp s))
    eqn:E; [reflexivity | lia].
Qed.

Lemma generate_continuous_path_short (m : mission) (step_seconds : Z) :
  (List.length (waypoints m) <= 1)%nat ->
  generate_continuous_path m step_seconds = ret (waypoints m).
Proof.
  intros Hlen. unfold generate_continuous_path.
  destruct (waypoints m) as [| w [| w' ws]]; [reflexivity | reflexivity |].
  simpl in Hlen. lia.
Qed.

Lemma check_flights_short_primary (pow_half : Q -> Q) (primary_path : list waypoint)
    (safety_distance : Q) (time_threshold : Z) :
  (List.length primary_path <= 1)%nat ->
  forall simulated_flights conflicts,
    Forall has_continuous_path simulated_flights ->
    check_flights pow_half primary_path simulated_flights safety_distance
      time_threshold conflicts = ret conflicts.
Proof.
  intros Hlen. induction simulated_flights as [| f fs IH]; intros conflicts Hall;
    cbn [check_flights]; [reflexivity |].
  inversion Hall as [| f' fs' [sim_path Hpath] Hrest]; subst.
  rewrite Hpath. cbn [bind ret].
  rewrite (detect_path_conflicts_short_primary _ _ _ _ _ _ Hlen). cbn [bind ret].
  rewrite app_nil_r. exact (IH _ Hrest).
Qed.

(** X18. A mission of a single waypoint (or of none) is always clear:
    its continuous path is that one waypoint, the overlap window with any
    other path is empty, so [check_deconfliction] reports no conflict and
    the positions are never compared, even against a drone that is at
    that very point at that very instant.  In the same way a simulated
    flight of a single waypoint yields no report against any path. *)
Theorem single_waypoint_never_conflicts (pow_half : Q -> Q)
    (safety_distance : Q) (time_threshold : Z) :
  (forall primary_mission simulated_flights,
      (List.length (waypoints primary_mission) <= 1)%nat ->
      Forall has_continuous_path simulated_flights ->
      check_deconfliction pow_half primary_mission simulated_flights
        safety_distance time_threshold
      = ret {| res_status := Clear; details := [] |})
  /\ (forall primary_path sim_flight,
         (List.length (waypoints sim_flight) <= 1)%nat ->
         reports_of_flight pow_half primary_path safety_distance time_threshold
           sim_flight []).
Proof.
  split.
  - intros primary_mission simulated_flights Hlen Hall. unfold check_deconfliction.
    rewrite (generate_continuous_path_short _ _ Hlen). cbn [bind ret].
    rewrite (check_flights_short_primary _ _ _ _ Hlen _ _ Hall). reflexivity.
  - intros primary_path sim_flight Hlen. exists (waypoints sim_flight).
    split; [exact (generate_continuous_path_short _ _ Hlen) |].
    split; [exact (detect_path_conflicts_short_flight _ _ _ _ _ _ Hlen) | constructor].
Qed.

Lemma single_waypoint_never_conflicts_witness :
  check_deconfliction pow_half_micro single_point_mission [hover_origin_flight] 2 10
  = ret {| res_status := Clear; details := [] |}
  /\ reports_of_flight pow_half_micro hover_origin 2 10 single_point_mission []
  /\ exists r,
       check_deconfliction pow_half_micro hover_origin_mission [hover_origin_flight]
         2 10 = ret r
       /\ res_status r = Conflict.
Proof.
  assert (Hlen : (List.length (waypoints single_point_mission) <= 1)%nat)
    by (simpl; lia).
  assert (Hall : Forall has_continuous_path [hover_origin_flight])
    by (constructor; [eexists; vm_compute; reflexivity | constructor]).
  split; [| split].
  - exact (proj1 (single_waypoint_never_conflicts pow_half_micro 2 10)
             single_point_mission [hover_origin_flight] Hlen Hall).
  - exact (proj2 (single_waypoint_never_conflicts pow_half_micro 2 10)
             hover_origin single_point_mission Hlen).
  - eexists. split; [vm_compute; reflexivity | reflexivity].
Defined.

(** ** check_waypoint_conflicts *)

Lemma has_xyz_readable (w : waypoint) : has_xyz w -> readable w.
Proof.
  intros [x [y [z H]]]. unfold readable. rewrite H. eexists. reflexivity.
Qed.

Lemma check_pair_readable (sqrt : Q -> Q) (sim_flight : mission)
    (safety_distance time_threshold : Q) (p_wp s_wp : waypoint)
    (conflicts : list waypoint_conflict) :
  readable p_wp -> readable s_wp ->
  check_pair sqrt sim_flight safety_distance time_threshold p_wp s_wp conflicts
  = if within_thresholds sqrt safety_distance time_threshold p_wp s_wp
    then
      drone <- key_id sim_flight ;;
      x <- key_x (wp_coords s_wp) ;;
      y <- key_y (wp_coords s_wp) ;;
      ret (conflicts
           ++ [mkWaypointConflict drone
                 (mkLocation x y (match wp_coords s_wp with
                                  | Named _ _ (Some v) => v
                                  | _ => 0%Q
                                  end))
                 (timestamp s_wp)])
    else ret conflicts.
Proof.
  intros [[[x1 y1] z1] Hp] [[[x2 y2] z2] Hs].
  unfold check_pair, within_thresholds, Utils.euclidean_distance.
  rewrite Hp, Hs. reflexivity.
Qed.

Section LegacyLoops.

Variable sqrt : Q -> Q.
Variables safety_distance time_threshold : Q.

Lemma check_sim_waypoints_reportable (sim_flight : mission) (p_wp : waypoint) :
  readable p_wp -> id sim_flight <> None ->
  forall s_wps conflicts,
    Forall has_xyz s_wps ->
    exists out,
      check_sim_waypoints sqrt sim_flight safety_distance time_threshold p_wp s_wps
        conflicts = ret out
      /\ forall d,
           In d out
           <-> In d conflicts
               \/ exists s_wp,
                    In s_wp s_wps
                    /\ within_thresholds sqrt safety_distance time_threshold
                         p_wp s_wp = true
                    /\ reported_as sim_flight s_wp d.
Proof.
  intros Hp Hid. induction s_wps as [| s s_wps IH]; intros conflicts Hall;
    cbn [check_sim_waypoints].
  - exists conflicts. split; [reflexivity |]. intros d. split; [auto |].
    intros [H | [s [[] _]]]. exact H.
  - inversion Hall as [| s' l' Hs Hrest]; subst.
    rewrite (check_pair_readable _ _ _ _ _ _ _ Hp (has_xyz_readable _ Hs)).
    destruct Hs as [x [y [z Hs]]].
    destruct (within_thresholds sqrt safety_distance time_threshold p_wp s) eqn:Hw.
    + unfold key_id. destruct (id sim_flight) as [i |] eqn:Ei; [| contradiction].
      rewrite Hs. cbn [bind ret key_x key_y].
      destruct (IH (conflicts ++ [mkWaypointConflict i (mkLocation x y z) (timestamp s)])
                  Hrest) as [out [Hout Hin]].
      exists out. split; [exact Hout |]. intros d. rewrite Hin. split.
      * intros [H | [s' [Hs' H]]].
        -- apply in_app_or in H. destruct H as [H | [<- | []]]; [left; exact H |].
           right. exists s. split; [left; reflexivity |]. split; [exact Hw |].
           unfold reported_as. cbn. rewrite Hs. auto.
        -- right. exists s'. split; [right; exact Hs' | exact H].
      * intros [H | [s' [[<- | Hs'] [Hw' Hr]]]].
        -- left. apply in_or_app. left. exact H.
        -- left. apply in_or_app. right. left.
           destruct Hr as [Hr1 [Hr2 Hr3]]. destruct d as [dn [dx dy dz] dt].
           cbn in Hr1, Hr2, Hr3. rewrite Hs in Hr2.
           rewrite Ei in Hr1. injection Hr1 as <-. injection Hr2 as <- <- <-.
           subst dt. reflexivity.
        -- right. exists s'. auto.
    + cbn [bind ret]. destruct (IH conflicts Hrest) as [out [Hout Hin]].
      exists out. split; [exact Hout |]. intros d. rewrite Hin. split.
      * intros [H | [s' [Hs' H]]]; [left; exact H |].
        right. exists s'. split; [right; exact Hs' | exact H].
      * intros [H | [s' [[<- | Hs'] [Hw' Hr]]]]; [left; exact H | congruence |].
        right. exists s'. auto.
Qed.

Lemma check_primary_waypoints_reportable (sim_flight : mission) :
  reportable sim_flight ->
  forall p_wps conflicts,
    Forall readable p_wps ->
    exists out,
      check_primary_waypoints sqrt sim_flight safety_distance time_threshold p_wps
        conflicts = ret out
      /\ forall d,
           In d out
           <-> In d conflicts
               \/ exists p_wp s_wp,
                    In p_wp p_wps /\ In s_wp (waypoints sim_flight)
                    /\ within_thresholds sqrt safety_distance time_threshold
                         p_wp s_wp = true
                    /\ reported_as sim_flight s_wp d.
Proof.
  intros [Hid Hxyz]. induction p_wps as [| p p_wps IH]; intros conflicts Hall;
    cbn [check_primary_waypoints].
  - exists conflicts. split; [reflexivity |]. intros d. split; [auto |].
    intros [H | [p [s [[] _]]]]. exact H.
  - inversion Hall as [| p' l' Hp Hrest]; subst.
    destruct (check_sim_waypoints_reportable sim_flight p Hp Hid _ conflicts Hxyz)
      as [mid [Hmid Hin1]].
    rewrite Hmid. cbn [bind ret].
    destruct (IH mid Hrest) as [out [Hout Hin2]].
    exists out. split; [exact Hout |]. intros d. rewrite Hin2, Hin1. split.
    + intros [[H | [s [Hs H]]] | [p' [s [Hp' H]]]].
      * left. exact H.
      * right. exists p, s. split; [left; reflexivity |]. split; [exact Hs | exact H].
      * right. exists p', s. split; [right; exact Hp' | exact H].
    + intros [H | [p' [s [[<- | Hp'] [Hs H]]]]].
      * left. left. exact H.
      * left. right. exists s. split; [exact Hs | exact H].
      * right. exists p', s. auto.
Qed.

Lemma check_sim_flights_reportable (primary_mission : mission) :
  Forall readable (waypoints primary_mission) ->
  forall simulated_flights conflicts,
    Forall reportable simulated_flights ->
    exists out,
      check_sim_flights sqrt primary_mission safety_distance time_threshold
        simulated_flights conflicts = ret out
      /\ forall d,
           In d out
           <-> In d conflicts
               \/ exists sim_flight p_wp s_wp,
                    In sim_flight simulated_flights
                    /\ In p_wp (waypoints primary_mission)
                    /\ In s_wp (waypoints sim_flight)
                    /\ within_thresholds sqrt safety_distance time_threshold
                         p_wp s_wp = true
                    /\ reported_as sim_flight s_wp d.
Proof.
  intros Hp. induction simulated_flights as [| f fs IH]; intros conflicts Hall;
    cbn [check_sim_flights].
  - exists conflicts. split; [reflexivity |]. intros d. split; [auto |].
    intros [H | [f [p [s [[] _]]]]]. exact H.
  - inversion Hall as [| f' l' Hf Hrest]; subst.
    destruct (check_primary_waypoints_reportable f Hf _ conflicts Hp)
      as [mid [Hmid Hin1]].
    rewrite Hmid. cbn [bind ret].
    destruct (IH mid Hrest) as [out [Hout Hin2]].
    exists out. split; [exact Hout |]. intros d. rewrite Hin2, Hin1. split.
    + intros [[H | [p [s H]]] | [f' [p [s [Hf' H]]]]].
      * left. exact H.
      * right. exists f, p, s. split; [left; reflexivity | exact H].
      * right. exists f', p, s. split; [right; exact Hf' | exact H].
    + intros [H | [f' [p [s [[<- | Hf'] H]]]]].
      * left. left. exact H.
      * left. right. exists p, s. exact H.
      * right. exists f', p, s. auto.
Qed.

End LegacyLoops.

Lemma reportable_reported (sim_flight : mission) (s_wp : waypoint) :
  reportable sim_flight -> In s_wp (waypoints sim_flight) ->
  exists d, reported_as sim_flight s_wp d.
Proof.
  intros [Hid Hall] Hin. rewrite Forall_forall in Hall.
  destruct (Hall _ Hin) as [x [y [z Hs]]].
  destruct (id sim_flight) as [i |] eqn:Ei; [| contradiction].
  exists (mkWaypointConflict i (mkLocation x y z) (timestamp s_wp)).
  unfold reported_as. cbn. rewrite Hs. auto.
Qed.

Lemma has_close_pair_spec (sqrt : Q -> Q) (safety_distance time_threshold : Q)
    (primary_mission sim_flight : mission) :
  has_close_pair sqrt safety_distance time_threshold primary_mission sim_flight = true
  <-> exists p_wp s_wp,
        In p_wp (waypoints primary_mission) /\ In s_wp (waypoints sim_flight)
        /\ within_thresholds sqrt safety_distance time_threshold p_wp s_wp = true.
Proof.
  unfold has_close_pair. rewrite existsb_exists. split.
  - intros [p [Hp H]]. apply existsb_exists in H. destruct H as [s [Hs H]].
    exists p, s. auto.
  - intros [p [s [Hp [Hs H]]]]. exists p. split; [exact Hp |].
    apply existsb_exists. exists s. auto.
Qed.

(** X19. On a primary mission whose waypoints can be read and flights
    that have an ['id'] and waypoints with ['x'], ['y'] and ['z'],
    [check_waypoint_conflicts] returns; its details describe exactly the
    waypoints of the flights that are within the safety distance and
    within the time threshold (both included) of some waypoint of the
    primary mission, each under the ['id'] of its flight, and the status
    is a conflict exactly when some flight has such a pair of waypoints. *)
Theorem check_waypoint_conflicts_reports (sqrt : Q -> Q)
    (primary_mission : mission) (simulated_flights : list mission)
    (safety_distance time_threshold : Q) :
  Forall readable (waypoints primary_mission) ->
  Forall reportable simulated_flights ->
  exists r,
    check_waypoint_conflicts sqrt primary_mission simulated_flights safety_distance
      time_threshold = ret r
    /\ (forall d,
          In d (wr_details r)
          <-> exists sim_flight p_wp s_wp,
                In sim_flight simulated_flights
                /\ In p_wp (waypoints primary_mission)
                /\ In s_wp (waypoints sim_flight)
                /\ within_thresholds sqrt safety_distance time_threshold
                     p_wp s_wp = true
                /\ reported_as sim_flight s_wp d)
    /\ (wr_status r = Conflict
        <-> exists sim_flight,
              In sim_flight simulated_flights
              /\ has_close_pair sqrt safety_distance time_threshold
                   primary_mission sim_flight = true).
Proof.
  intros Hp Hall. unfold check_waypoint_conflicts.
  destruct (check_sim_flights_reportable sqrt safety_distance time_threshold
              primary_mission Hp simulated_flights [] Hall) as [out [Hout Hin]].
  rewrite Hout. cbn [bind ret]. eexists. split; [reflexivity |].
  cbn [wr_details wr_status].
  assert (Hin' : forall d,
             In d out
             <-> exists sim_flight p_wp s_wp,
                   In sim_flight simulated_flights
                   /\ In p_wp (waypoints primary_mission)
                   /\ In s_wp (waypoints sim_flight)
                   /\ within_thresholds sqrt safety_distance time_threshold
                        p_wp s_wp = true
                   /\ reported_as sim_flight s_wp d).
  { intros d. rewrite Hin. split; [intros [[] | H]; exact H | intros H; right; exact H]. }
  split; [exact Hin' |]. split.
  - intros Hst. destruct out as [| d out]; [discriminate Hst |].
    destruct (proj1 (Hin' d) (or_introl eq_refl)) as [f [p [s [Hf [Hp' [Hs [Hw _]]]]]]].
    exists f. split; [exact Hf |]. apply has_close_pair_spec. exists p, s. auto.
  - intros [f [Hf Hc]]. apply has_close_pair_spec in Hc.
    destruct Hc as [p [s [Hp' [Hs Hw]]]].
    rewrite Forall_forall in Hall.
    destruct (reportable_reported f s (Hall _ Hf) Hs) as [d Hd].
    assert (Hd' : In d out) by (apply Hin'; exists f, p, s; auto).
    destruct out as [| d0 out]; [destruct Hd' | reflexivity].
Qed.

Lemma check_waypoint_conflicts_reports_witness :
  exists r,
    check_waypoint_conflicts pow_half_micro hover_origin_mission
      [hover_origin_flight; hover_near_flight] 2 10 = ret r
    /\ (forall d,
          In d (wr_details r)
          <-> exists sim_flight p_wp s_wp,
                In sim_flight [hover_origin_flight; hover_near_flight]
                /\ In p_wp (waypoints hover_origin_mission)
                /\ In s_wp (waypoints sim_flight)
                /\ within_thresholds pow_half_micro 2 10 p_wp s_wp = true
                /\ reported_as sim_flight s_wp d)
    /\ (wr_status r = Conflict
        <-> exists sim_flight,
              In sim_flight [hover_origin_flight; hover_near_flight]
              /\ has_close_pair pow_half_micro 2 10 hover_origin_mission sim_flight
                 = true).
Proof.
  assert (Hp : Forall readable (waypoints hover_origin_mission))
    by (repeat constructor; eexists; reflexivity).
  assert (Hall : Forall reportable [hover_origin_flight; hover_near_flight]).
  { repeat constructor; try discriminate; do 3 eexists; reflexivity. }
  exact (check_waypoint_conflicts_reports pow_half_micro hover_origin_mission
           [hover_origin_flight; hover_near_flight] 2 10 Hp Hall).
Defined.

Section LegacyErrors.

Variable sqrt : Q -> Q.
Variables safety_distance time_threshold : Q.

Lemma check_sim_waypoints_unreportable (sim_flight : mission) (p_wp : waypoint) :
  readable p_wp ->
  forall s_wps conflicts,
    Forall readable s_wps ->
    id sim_flight = None \/ Forall is_packed s_wps ->
    check_sim_waypoints sqrt sim_flight safety_distance time_threshold p_wp s_wps
      conflicts
    = if existsb (within_thresholds sqrt safety_distance time_threshold p_wp) s_wps
      then raise (legacy_error sim_flight)
      else ret conflicts.
Proof.
  intros Hp. induction s_wps as [| s s_wps IH]; intros conflicts Hall Hun;
    cbn [check_sim_waypoints existsb]; [reflexivity |].
  inversion Hall as [| s' l' Hs Hrest]; subst.
  rewrite (check_pair_readable _ _ _ _ _ _ _ Hp Hs).
  destruct (within_thresholds sqrt safety_distance time_threshold p_wp s).
  - cbn [orb]. unfold key_id, legacy_error.
    destruct (id sim_flight) as [i |]; [| reflexivity].
    destruct Hun as [Hun | Hun]; [discriminate Hun |].
    inversion Hun as [| s' l' [l Hl] _]; subst. rewrite Hl. reflexivity.
  - cbn [orb bind ret]. apply IH; [exact Hrest |].
    destruct Hun as [Hun | Hun]; [left; exact Hun | right].
    inversion Hun; assumption.
Qed.

Lemma check_primary_waypoints_unreportable (sim_flight : mission) :
  unreportable sim_flight ->
  forall p_wps conflicts,
    Forall readable p_wps ->
    check_primary_waypoints sqrt sim_flight safety_distance time_threshold p_wps
      conflicts
    = if existsb (fun p_wp =>
                    existsb (within_thresholds sqrt safety_distance time_threshold p_wp)
                      (waypoints sim_flight)) p_wps
      then raise (legacy_error sim_flight)
      else ret conflicts.
Proof.
  intros [Hread Hun]. induction p_wps as [| p p_wps IH]; intros conflicts Hall;
    cbn [check_primary_waypoints existsb]; [reflexivity |].
  inversion Hall as [| p' l' Hp Hrest]; subst.
  rewrite (check_sim_waypoints_unreportable sim_flight p Hp _ conflicts Hread Hun).
  destruct (existsb _ (waypoints sim_flight)); [reflexivity |].
  cbn [orb bind ret]. exact (IH _ Hrest).
Qed.

Lemma check_sim_flights_unreportable (primary_mission : mission) :
  Forall readable (waypoints primary_mission) ->
  forall simulated_flights conflicts,
    Forall unreportable simulated_flights ->
    check_sim_flights sqrt primary_mission safety_distance time_threshold
      simulated_flights conflicts
    = match find (has_close_pair sqrt safety_distance time_threshold primary_mission)
              simulated_flights with
      | Some sim_flight => raise (legacy_error sim_flight)
      | None => ret conflicts
      end.
Proof.
  intros Hp. induction simulated_flights as [| f fs IH]; intros conflicts Hall;
    cbn [check_sim_flights find]; [reflexivity |].
  inversion Hall as [| f' l' Hf Hrest]; subst.
  rewrite (check_primary_waypoints_unreportable f Hf _ conflicts Hp).
  unfold has_close_pair at 1.
  destruct (existsb _ (waypoints primary_mission)); [reflexivity |].
  cbn [bind ret]. exact (IH _ Hrest).
Qed.

End LegacyErrors.

(** X20. [check_waypoint_conflicts] cannot report a conflict of a flight
    that is known by its ['drone_id'] only, or whose waypoints use the key
    ['position'], although [check_deconfliction] and [euclidean_distance]
    accept both: on such flights it answers clear when no pair of
    waypoints is within the two thresholds, and otherwise raises
    [KeyError('id')], or [KeyError('x')] when the flight has an ['id'],
    at the first flight that has such a pair. *)
Theorem check_waypoint_conflicts_unreportable (sqrt : Q -> Q)
    (primary_mission : mission) (simulated_flights : list mission)
    (safety_distance time_threshold : Q) :
  Forall readable (waypoints primary_mission) ->
  Forall unreportable simulated_flights ->
  check_waypoint_conflicts sqrt primary_mission simulated_flights safety_distance
    time_threshold
  = match find (has_close_pair sqrt safety_distance time_threshold primary_mission)
            simulated_flights with
    | Some sim_flight => raise (legacy_error sim_flight)
    | None => ret {| wr_status := Clear; wr_details := [] |}
    end.
Proof.
  intros Hp Hall. unfold check_waypoint_conflicts.
  rewrite (check_sim_flights_unreportable sqrt safety_distance time_threshold
             primary_mission Hp simulated_flights [] Hall).
  destruct (find _ simulated_flights); reflexivity.
Qed.

Lemma check_waypoint_conflicts_unreportable_witness :
  check_waypoint_conflicts pow_half_micro hover_origin_mission
    [hover_near_by_drone_id] 2 10 = raise (KeyError "id")
  /\ check_waypoint_conflicts pow_half_micro hover_origin_mission
       [hover_near_by_drone_id] 1 10
     = ret {| wr_status := Clear; wr_details := [] |}
  /\ exists r,
       check_deconfliction pow_half_micro hover_origin_mission
         [hover_near_by_drone_id] 2 10 = ret r
       /\ res_status r = Conflict.
Proof.
  assert (Hp : Forall readable (waypoints hover_origin_mission))
    by (repeat constructor; eexists; reflexivity).
  assert (Hall : Forall unreportable [hover_near_by_drone_id]).
  { constructor; [| constructor]. split; [| left; reflexivity].
    repeat constructor; eexists; reflexivity. }
  split; [| split].
  - rewrite (check_waypoint_conflicts_unreportable pow_half_micro
               hover_origin_mission [hover_near_by_drone_id] 2 10 Hp Hall).
    vm_compute. reflexivity.
  - rewrite (check_waypoint_conflicts_unreportable pow_half_micro
               hover_origin_mission [hover_near_by_drone_id] 1 10 Hp Hall).
    vm_compute. reflexivity.
  - eexists. split; [vm_compute; reflexivity | reflexivity].
Defined.

(** ** The position query of the simulator *)

Lemma simulator_get_coords (c : coords) :
  RealtimeSimulator.get_coords c = Utils.get_coords (Utils.Dict c).
Proof.
  destruct c; reflexivity.
Qed.

Lemma checker_get_coords (c : coords) (v : Q * Q * Q) :
  Utils.get_coords (Utils.Dict c) = ret v -> get_coords c = ret v.
Proof.
  destruct c as [x y [z |] | p]; simpl; intros H; [exact H | discriminate H | exact H].
Qed.

Lemma lerp_start (b a f : Q) : (f == 0 -> b == b + f * (a - b))%Q.
Proof.
  intros ->. ring.
Qed.

Lemma find_brackets_inside (p : waypoint) (ps : list waypoint) (t : datetime) :
  timestamp p <= t ->
  (exists w, In w (p :: ps) /\ t < timestamp w) ->
  exists b a,
    find_brackets (p :: ps) t None = (Some b, Some a)
    /\ In b (p :: ps) /\ In a (p :: ps)
    /\ timestamp b <= t < timestamp a.
Proof.
  intros Hfirst Hlater.
  pose proof (find_brackets_has_after _ t Hlater None) as Hafter.
  assert (Hbefore : fst (find_brackets (p :: ps) t None) <> None).
  { simpl. destruct (timestamp p <=? t) eqn:Hle; [| lia].
    apply find_brackets_has_before. discriminate. }
  destruct (find_brackets (p :: ps) t None) as [[b |] [a |]] eqn:Hbr;
    simpl in Hafter, Hbefore; try congruence.
  exists b, a. split; [reflexivity |].
  destruct (find_brackets_after _ _ _ _ _ Hbr) as [Hina Ha].
  destruct (find_brackets_before _ _ _ _ _ Hbr) as [[Hinb | Hinb] Hb];
    [discriminate Hinb |].
  assert (Hb' : timestamp b <= t) by (apply Hb; discriminate).
  repeat split; try assumption; lia.
Qed.

(** X21. Inside the time span of a path (at or after its first sample
    and before one of its samples) whose coordinates can be read with
    their ['z'], the position query of the simulator and the one of the
    checker both answer, with the same point: at the instant of a sample
    the simulator hands back the sample itself and the checker a new
    dictionary of equal coordinates. *)
Theorem simulator_position_agrees (p : waypoint) (ps : list waypoint)
    (t : datetime) :
  timestamp p <= t ->
  (exists w, In w (p :: ps) /\ t < timestamp w) ->
  Forall readable (p :: ps) ->
  exists simulated checked,
    RealtimeSimulator.get_drone_position_at_time (p :: ps) t = ret (Some simulated)
    /\ get_drone_position_at_time (p :: ps) t = ret (Some checked)
    /\ same_place (wp_coords simulated) (wp_coords checked)
    /\ timestamp simulated = t /\ timestamp checked = t.
Proof.
  intros Hfirst Hlater Hread.
  destruct (find_brackets_inside p ps t Hfirst Hlater)
    as [b [a [Hbr [Hinb [Hina [Hb Ha]]]]]].
  rewrite Forall_forall in Hread.
  destruct (Hread _ Hinb) as [[[bx by_] bz] Hcb].
  destruct (Hread _ Hina) as [[[ax ay] az] Hca].
  pose proof (checker_get_coords _ _ Hcb) as Hcb'.
  pose proof (checker_get_coords _ _ Hca) as Hca'.
  assert (Hz : Qeq_bool (total_seconds (timestamp a - timestamp b)) 0 = false).
  { destruct (Qeq_bool _ 0) eqn:E; [| reflexivity].
    apply total_seconds_zero in E. lia. }
  assert (Hchk : get_drone_position_at_time (p :: ps) t
                 = ret (Some (position_dict
                    (bx + total_seconds (t - timestamp b)
                          / total_seconds (timestamp a - timestamp b) * (ax - bx))
                    (by_ + total_seconds (t - timestamp b)
                           / total_seconds (timestamp a - timestamp b) * (ay - by_))
                    (bz + total_seconds (t - timestamp b)
                          / total_seconds (timestamp a - timestamp b) * (az - bz))
                    t))).
  { unfold get_drone_position_at_time. rewrite Hbr, Hz. unfold py_div. rewrite Hz.
    cbn [bind ret]. rewrite Hcb'. cbn [bind ret]. rewrite Hca'. reflexivity. }
  rewrite Hchk. unfold RealtimeSimulator.get_drone_position_at_time. rewrite Hbr.
  destruct (timestamp b =? t) eqn:Heq.
  - apply Z.eqb_eq in Heq. eexists. eexists. split; [reflexivity |].
    split; [reflexivity |]. split; [| split; [exact Heq | reflexivity]].
    cbn [position_dict wp_coords].
    assert (Hf : (total_seconds (t - timestamp b)
                  / total_seconds (timestamp a - timestamp b) == 0)%Q).
    { rewrite <- Heq, Z.sub_diag. unfold total_seconds, Qdiv, Qmult, Qeq. simpl.
      reflexivity. }
    exists bx, by_, bz. do 3 eexists. split; [exact Hcb' |].
    split; [reflexivity |].
    repeat split; apply lerp_start; exact Hf.
  - assert (Hpos : Qle_bool (total_seconds (timestamp a - timestamp b)) 0 = false).
    { destruct (Qle_bool _ 0) eqn:E; [| reflexivity].
      apply total_seconds_le0 in E. lia. }
    rewrite Hpos. cbn [negb]. unfold py_div. rewrite Hz. cbn [bind ret].
    rewrite !simulator_get_coords, Hcb. cbn [bind ret]. rewrite Hca. cbn [bind ret].
    eexists. eexists. split; [reflexivity |]. split; [reflexivity |].
    split; [| split; reflexivity].
    cbn [position_dict wp_coords]. do 6 eexists.
    split; [reflexivity |]. split; [reflexivity |].
    repeat split; ring.
Qed.

Lemma simulator_position_agrees_witness :
  exists simulated checked,
    RealtimeSimulator.get_drone_position_at_time straight_line
      (make_datetime 2025 8 4 10 1 0) = ret (Some simulated)
    /\ get_drone_position_at_time straight_line (make_datetime 2025 8 4 10 1 0)
       = ret (Some checked)
    /\ same_place (wp_coords simulated) (wp_coords checked)
    /\ timestamp simulated = make_datetime 2025 8 4 10 1 0
    /\ timestamp checked = make_datetime 2025 8 4 10 1 0.
Proof.
  assert (Hfirst : make_datetime 2025 8 4 10 0 0 <= make_datetime 2025 8 4 10 1 0)
    by (vm_compute; discriminate).
  assert (Hlater : exists w,
             In w straight_line /\ make_datetime 2025 8 4 10 1 0 < timestamp w).
  { eexists. split; [right; left; reflexivity | vm_compute; reflexivity]. }
  assert (Hread : Forall readable straight_line)
    by (repeat constructor; eexists; reflexivity).
  exact (simulator_position_agrees
           (mkWaypoint (Named 0 0 (Some 0%Q)) (make_datetime 2025 8 4 10 0 0))
           [mkWaypoint (Named 250 0 (Some 0%Q)) (make_datetime 2025 8 4 10 4 10)]
           (make_datetime 2025 8 4 10 1 0) Hfirst Hlater Hread).
Defined.

Lemma simulator_position_late (path : list waypoint) (t : datetime) :
  (forall wp, In wp path -> timestamp wp <= t) ->
  RealtimeSimulator.get_drone_position_at_time path t = ret None.
Proof.
  intros H. unfold RealtimeSimulator.get_drone_position_at_time.
  rewrite (find_brackets_late _ _ H). destruct path; reflexivity.
Qed.

Lemma get_time_boundaries_extrema (primary : list waypoint)
    (simulated : list RealtimeSimulator.simulated_path) (lo hi : datetime) :
  RealtimeSimulator.get_time_boundaries primary simulated = ret (lo, hi) ->
  is_min_of lo (RealtimeSimulator.all_times primary simulated)
  /\ is_max_of hi (RealtimeSimulator.all_times primary simulated).
Proof.
  unfold RealtimeSimulator.get_time_boundaries.
  destruct (RealtimeSimulator.all_times primary simulated) as [| t ts];
    [discriminate |].
  intros H. injection H as <- <-. split; [apply py_min_is_min | apply py_max_is_max].
Qed.

Lemma init_fields (primary_mission : mission) (simulated_flights : list mission)
    (safety : Q) (self : RealtimeSimulator.simulator) :
  RealtimeSimulator.init primary_mission simulated_flights safety = ret self ->
  interpolate_mission_path (waypoints primary_mission) 1
  = ret (RealtimeSimulator.primary_path self)
  /\ RealtimeSimulator.init_simulated_paths simulated_flights
     = ret (RealtimeSimulator.simulated_paths self)
  /\ RealtimeSimulator.get_time_boundaries (RealtimeSimulator.primary_path self)
       (RealtimeSimulator.simulated_paths self)
     = ret (RealtimeSimulator.start_time self, RealtimeSimulator.end_time self)
  /\ RealtimeSimulator.safety_distance self = safety.
Proof.
  unfold RealtimeSimulator.init. intros H.
  apply bind_ret_inv in H. destruct H as [primary [Hp H]].
  apply bind_ret_inv in H. destruct H as [simulated [Hs H]].
  apply bind_ret_inv in H. destruct H as [[lo hi] [Hb H]].
  injection H as <-. cbn. auto.
Qed.

(** X22. The simulator has no position for a drone at or after the last
    sample of its path, where the checker keeps the drone at its last
    waypoint; so at the last instant of the simulation, which is at or
    after every sample of the primary path, [check_collisions_at_time]
    reports no collision, wherever the drones are. *)
Theorem simulator_ends_without_collision (sqrt : Q -> Q) :
  (forall path t,
      (forall wp, In wp path -> timestamp wp <= t) ->
      RealtimeSimulator.get_drone_position_at_time path t = ret None)
  /\ (forall primary_mission simulated_flights safety self,
         RealtimeSimulator.init primary_mission simulated_flights safety = ret self ->
         RealtimeSimulator.check_collisions_at_time sqrt self
           (RealtimeSimulator.end_time self) = ret []).
Proof.
  split; [exact simulator_position_late |].
  intros primary_mission simulated_flights safety self Hinit.
  destruct (init_fields _ _ _ _ Hinit) as [_ [_ [Hb _]]].
  destruct (get_time_boundaries_extrema _ _ _ _ Hb) as [_ [_ Hmax]].
  unfold RealtimeSimulator.check_collisions_at_time.
  rewrite simulator_position_late; [reflexivity |].
  intros wp Hwp. apply Hmax. unfold RealtimeSimulator.all_times.
  apply in_or_app. left. apply in_map. exact Hwp.
Qed.

Lemma simulator_ends_without_collision_witness :
  exists self,
    RealtimeSimulator.init hover_origin_mission [hover_origin_flight] 2 = ret self
    /\ RealtimeSimulator.end_time self = make_datetime 2025 8 4 10 0 10
    /\ RealtimeSimulator.check_collisions_at_time pow_half_micro self
         (RealtimeSimulator.end_time self) = ret []
    /\ exists found,
         get_drone_position_at_time (RealtimeSimulator.primary_path self)
           (RealtimeSimulator.end_time self) = ret (Some found).
Proof.
  assert (H : RealtimeSimulator.init hover_origin_mission [hover_origin_flight] 2
              = ret _) by (vm_compute; reflexivity).
  eexists. split; [exact H |]. split; [vm_compute; reflexivity |].
  split.
  - exact (proj2 (simulator_ends_without_collision pow_half_micro)
             hover_origin_mission [hover_origin_flight] 2%Q _ H).
  - eexists. vm_compute. reflexivity.
Defined.

Lemma init_simulated_paths_ids (simulated_flights : list mission) :
  forall simulated,
    RealtimeSimulator.init_simulated_paths simulated_flights = ret simulated ->
    map RealtimeSimulator.sp_id simulated = map flight_id simulated_flights.
Proof.
  induction simulated_flights as [| f fs IH]; intros simulated;
    cbn [RealtimeSimulator.init_simulated_paths]; intros H.
  - injection H as <-. reflexivity.
  - apply bind_ret_inv in H. destruct H as [path [_ H]].
    apply bind_ret_inv in H. destruct H as [later [Hl H]].
    injection H as <-. cbn [map RealtimeSimulator.sp_id]. f_equal. exact (IH _ Hl).
Qed.

Lemma init_simulated_paths_empty (simulated_flights : list mission) :
  Forall (fun f => waypoints f = []) simulated_flights ->
  exists simulated,
    RealtimeSimulator.init_simulated_paths simulated_flights = ret simulated
    /\ flat_map (fun sim_path => map timestamp (RealtimeSimulator.sp_path sim_path))
         simulated = [].
Proof.
  induction 1 as [| f fs Hf _ [simulated [IH1 IH2]]];
    cbn [RealtimeSimulator.init_simulated_paths].
  - exists []. split; reflexivity.
  - rewrite Hf, IH1. cbn [interpolate_mission_path bind ret].
    eexists. split; [reflexivity |]. cbn [flat_map RealtimeSimulator.sp_path map app].
    exact IH2.
Qed.

(** X23. A simulator that [__init__] builds runs from the earliest to
    the latest instant over the interpolated paths of all drones, the
    simulated paths carrying, in order, the identifiers that
    [check_deconfliction] gives the flights; when neither the primary
    mission nor any flight has a waypoint, [__init__] raises the
    [ValueError] of [min] on an empty list. *)
Theorem simulator_time_boundaries (safety : Q) :
  (forall primary_mission simulated_flights self,
      RealtimeSimulator.init primary_mission simulated_flights safety = ret self ->
      is_min_of (RealtimeSimulator.start_time self)
        (RealtimeSimulator.all_times (RealtimeSimulator.primary_path self)
           (RealtimeSimulator.simulated_paths self))
      /\ is_max_of (RealtimeSimulator.end_time self)
           (RealtimeSimulator.all_times (RealtimeSimulator.primary_path self)
              (RealtimeSimulator.simulated_paths self))
      /\ RealtimeSimulator.start_time self <= RealtimeSimulator.end_time self
      /\ map RealtimeSimulator.sp_id (RealtimeSimulator.simulated_paths self)
         = map flight_id simulated_flights)
  /\ (forall primary_mission simulated_flights,
         waypoints primary_mission = [] ->
         Forall (fun f => waypoints f = []) simulated_flights ->
         RealtimeSimulator.init primary_mission simulated_flights safety
         = raise ValueError).
Proof.
  split.
  - intros primary_mission simulated_flights self Hinit.
    destruct (init_fields _ _ _ _ Hinit) as [_ [Hs [Hb _]]].
    destruct (get_time_boundaries_extrema _ _ _ _ Hb) as [Hmin Hmax].
    split; [exact Hmin |]. split; [exact Hmax |]. split.
    + destruct Hmin as [Hin _]. destruct Hmax as [_ Hle]. exact (Hle _ Hin).
    + exact (init_simulated_paths_ids _ _ Hs).
  - intros primary_mission simulated_flights Hp Hall.
    unfold RealtimeSimulator.init. rewrite Hp. cbn [interpolate_mission_path bind ret].
    destruct (init_simulated_paths_empty _ Hall) as [simulated [-> Hflat]].
    cbn [bind ret].
    unfold RealtimeSimulator.get_time_boundaries, RealtimeSimulator.all_times.
    rewrite Hflat. reflexivity.
Qed.

Lemma simulator_time_boundaries_witness :
  (exists self,
      RealtimeSimulator.init hover_origin_mission [hover_near_flight; late_start] 2
      = ret self
      /\ RealtimeSimulator.start_time self = make_datetime 2025 8 4 10 0 0
      /\ RealtimeSimulator.end_time self = make_datetime 2025 8 4 10 15 0
      /\ is_min_of (RealtimeSimulator.start_time self)
           (RealtimeSimulator.all_times (RealtimeSimulator.primary_path self)
              (RealtimeSimulator.simulated_paths self))
      /\ is_max_of (RealtimeSimulator.end_time self)
           (RealtimeSimulator.all_times (RealtimeSimulator.primary_path self)
              (RealtimeSimulator.simulated_paths self))
      /\ RealtimeSimulator.start_time self <= RealtimeSimulator.end_time self
      /\ map RealtimeSimulator.sp_id (RealtimeSimulator.simulated_paths self)
         = map flight_id [hover_near_flight; late_start])
  /\ RealtimeSimulator.init no_waypoints [no_waypoints] 2 = raise ValueError.
Proof.
  split.
  - assert (H : RealtimeSimulator.init hover_origin_mission
                  [hover_near_flight; late_start] 2 = ret _)
      by (vm_compute; reflexivity).
    eexists. split; [exact H |].
    split; [vm_compute; reflexivity |]. split; [vm_compute; reflexivity |].
    exact (proj1 (simulator_time_boundaries 2) hover_origin_mission
             [hover_near_flight; late_start] _ H).
  - assert (Hp : waypoints no_waypoints = []) by reflexivity.
    assert (Hall : Forall (fun f => waypoints f = []) [no_waypoints])
      by (repeat constructor).
    exact (proj2 (simulator_time_boundaries 2) no_waypoints [no_waypoints] Hp Hall).
Defined.

Lemma check_simulated_collisions (sqrt : Q -> Q) (self : RealtimeSimulator.simulator)
    (t : datetime) (primary : waypoint) :
  RealtimeSimulator.get_drone_position_at_time (RealtimeSimulator.primary_path self) t
  = ret (Some primary) ->
  forall sim_paths collisions out,
    incl sim_paths (RealtimeSimulator.simulated_paths self) ->
    Forall (is_collision sqrt self t) collisions ->
    RealtimeSimulator.check_simulated sqrt (RealtimeSimulator.safety_distance self) t
      primary sim_paths collisions = ret out ->
    Forall (is_collision sqrt self t) out
    /\ (List.length out <= List.length collisions + List.length sim_paths)%nat.
Proof.
  intros Hprimary. induction sim_paths as [| sp sim_paths IH];
    intros collisions out Hincl Hall; cbn [RealtimeSimulator.check_simulated].
  - intros H. injection H as <-. split; [exact Hall | lia].
  - assert (Hrest : incl sim_paths (RealtimeSimulator.simulated_paths self))
      by (intros x Hx; apply Hincl; right; exact Hx).
    intros H. apply bind_ret_inv in H. destruct H as [sim_pos [Hsim H]].
    destruct sim_pos as [sim_pos |].
    + apply bind_ret_inv in H. destruct H as [dist [Hdist H]].
      destruct (Qle_bool (RealtimeSimulator.safety_distance self) dist) eqn:E;
        cbn [negb] in H.
      * destruct (IH _ _ Hrest Hall H) as [Hout Hlen].
        split; [exact Hout | cbn [List.length]; lia].
      * assert (Hlt : (dist < RealtimeSimulator.safety_distance self)%Q).
        { apply Qnot_le_lt. intros Hle. apply Qle_bool_iff in Hle. congruence. }
        refine ((fun IH' => conj (proj1 IH') _) (IH _ _ Hrest _ H)).
        -- destruct IH' as [_ Hlen]. rewrite length_app in Hlen.
           cbn [List.length] in *. lia.
        -- apply Forall_app. split; [exact Hall |]. constructor; [| constructor].
           unfold is_collision. cbn.
           split; [reflexivity |]. split; [exact Hprimary |].
           split; [exists sp; split; [apply Hincl; left; reflexivity | auto] |].
           split; [exact Hdist |]. split; [exact Hlt |]. split; [reflexivity |].
           unfold Qminus. rewrite <- Qlt_minus_iff. exact Hlt.
    + destruct (IH _ _ Hrest Hall H) as [Hout Hlen].
      split; [exact Hout | cbn [List.length]; lia].
Qed.

(** X24. Every collision that [check_collisions_at_time] reports at an
    instant holds the positions that the simulator gives the primary
    drone and one simulated drone at that instant, under the identifier
    of that drone, with their distance strictly below the safety distance
    and a positive violation; there are at most as many collisions as
    simulated drones.  Two drones exactly at the safety distance do not
    collide, although the checker reports them as a conflict. *)
Theorem collisions_are_strict (sqrt : Q -> Q) (self : RealtimeSimulator.simulator)
    (current_time : datetime) (collisions : list RealtimeSimulator.collision) :
  RealtimeSimulator.check_collisions_at_time sqrt self current_time = ret collisions ->
  Forall (is_collision sqrt self current_time) collisions
  /\ (List.length collisions
      <= List.length (RealtimeSimulator.simulated_paths self))%nat.
Proof.
  unfold RealtimeSimulator.check_collisions_at_time. intros H.
  apply bind_ret_inv in H. destruct H as [primary [Hprimary H]].
  destruct primary as [primary |].
  - exact (check_simulated_collisions sqrt self current_time primary Hprimary
             _ [] _ (fun x Hx => Hx) (Forall_nil _) H).
  - injection H as <-. split; [constructor | cbn [List.length]; lia].
Qed.

Lemma collisions_are_strict_witness :
  exists collisions,
    RealtimeSimulator.check_collisions_at_time pow_half_micro hover_simulator
      (make_datetime 2025 8 4 10 0 5) = ret collisions
    /\ map RealtimeSimulator.simulated_drone collisions = ["SIM_001"%string]
    /\ Forall (is_collision pow_half_micro hover_simulator
                 (make_datetime 2025 8 4 10 0 5)) collisions
    /\ (List.length collisions
        <= List.length (RealtimeSimulator.simulated_paths hover_simulator))%nat
    /\ exists r,
         check_deconfliction pow_half_micro hover_origin_mission [hover_at_two] 2 10
         = ret r
         /\ res_status r = Conflict.
Proof.
  assert (H : RealtimeSimulator.check_collisions_at_time pow_half_micro
                hover_simulator (make_datetime 2025 8 4 10 0 5) = ret _)
    by (vm_compute; reflexivity).
  eexists. split; [exact H |]. split; [reflexivity |].
  pose proof (collisions_are_strict pow_half_micro hover_simulator
                (make_datetime 2025 8 4 10 0 5) _ H) as [Hall Hlen].
  split; [exact Hall |]. split; [exact Hlen |].
  eexists. split; [vm_compute; reflexivity | reflexivity].
Defined.

(** ** The waypoints of the plotter *)

(** X25. [remove_last_waypoint] undoes [add_waypoint]: the waypoints and
    the mission times are those of before the call. *)
Theorem remove_last_undoes_add (self : PrimaryDronePlotter.plotter) (x y z : Q) :
  PrimaryDronePlotter.remove_last_waypoint
    (PrimaryDronePlotter.add_waypoint self x y z) = self.
Proof.
  destruct self as [wps start_dt end_dt].
  unfold PrimaryDronePlotter.remove_last_waypoint, PrimaryDronePlotter.add_waypoint.
  cbn [PrimaryDronePlotter.primary_waypoints PrimaryDronePlotter.primary_start_time
       PrimaryDronePlotter.primary_end_time].
  destruct (wps ++ [_]) as [| w ws] eqn:E.
  - destruct wps; discriminate E.
  - rewrite <- E, removelast_last. reflexivity.
Qed.

Lemma py_int_whole (q : Q) (k : Z) : (q == inject_Z k)%Q -> py_int q = k.
Proof.
  unfold Qeq, py_int. simpl. intros H.
  replace (Qnum q) with (k * Zpos (Qden q)) by lia.
  apply Z.quot_mul. discriminate.
Qed.

Lemma strftime_seconds_whole (t : datetime) :
  whole_second t -> strftime_seconds t = t.
Proof.
  unfold whole_second, strftime_seconds. lia.
Qed.

Lemma new_timestamp_later (self : PrimaryDronePlotter.plotter) :
  whole_second (PrimaryDronePlotter.primary_start_time self) ->
  whole_second (PrimaryDronePlotter.primary_end_time self) ->
  PrimaryDronePlotter.primary_waypoints self <> [] ->
  PrimaryDronePlotter.new_timestamp self = PrimaryDronePlotter.primary_end_time self.
Proof.
  destruct self as [wps start_dt end_dt].
  unfold PrimaryDronePlotter.new_timestamp, whole_second.
  cbn [PrimaryDronePlotter.primary_waypoints PrimaryDronePlotter.primary_start_time
       PrimaryDronePlotter.primary_end_time].
  intros Hs He Hne. destruct wps as [| w wps]; [contradiction |].
  set (n := Z.of_nat (List.length (w :: wps)) + 1).
  assert (Hn : 0 < n) by (unfold n; lia).
  rewrite (py_int_whole _ ((end_dt - start_dt) / 1000000)).
  - unfold timedelta_seconds.
    replace (start_dt + (end_dt - start_dt) / 1000000 * 1000000) with end_dt.
    + apply strftime_seconds_whole. exact He.
    + assert (Hd : (end_dt - start_dt) mod 1000000 = 0).
      { rewrite Zminus_mod, He, Hs. reflexivity. }
      pose proof (Z.div_mod (end_dt - start_dt) 1000000). lia.
  - assert (Hq : (total_seconds (end_dt - start_dt)
                  == inject_Z ((end_dt - start_dt) / 1000000))%Q).
    { unfold total_seconds, Qeq. simpl.
      assert (Hd : (end_dt - start_dt) mod 1000000 = 0).
      { rewrite Zminus_mod, He, Hs. reflexivity. }
      pose proof (Z.div_mod (end_dt - start_dt) 1000000). lia. }
    rewrite <- Hq. field.
    intros E. unfold Qeq in E. simpl in E. lia.
Qed.

Lemma add_waypoints_later (points : list (Q * Q * Q)) :
  forall self,
    whole_second (PrimaryDronePlotter.primary_start_time self) ->
    whole_second (PrimaryDronePlotter.primary_end_time self) ->
    PrimaryDronePlotter.primary_waypoints self <> [] ->
    map timestamp (PrimaryDronePlotter.primary_waypoints (add_waypoints self points))
    = map timestamp (PrimaryDronePlotter.primary_waypoints self)
      ++ repeat (PrimaryDronePlotter.primary_end_time self) (List.length points).
Proof.
  unfold add_waypoints.
  induction points as [| [[x y] z] points IH]; intros self Hs He Hne;
    cbn [fold_left List.length repeat].
  - symmetry. apply app_nil_r.
  - rewrite IH.
    + cbn [PrimaryDronePlotter.add_waypoint PrimaryDronePlotter.primary_waypoints
           PrimaryDronePlotter.primary_end_time].
      rewrite map_app, <- app_assoc. cbn [map timestamp app].
      rewrite (new_timestamp_later self Hs He Hne). reflexivity.
    + exact Hs.
    + exact He.
    + cbn [PrimaryDronePlotter.add_waypoint PrimaryDronePlotter.primary_waypoints].
      intros E. destruct (PrimaryDronePlotter.primary_waypoints self); discriminate E.
Qed.

(** X26. [add_waypoint] does not spread the waypoints over the mission:
    with a start and an end time in whole seconds, the first waypoint of
    a path is stamped with the start time and every waypoint added after
    it with the end time, however many there are.  The instants are
    spread only by [recalculate_timestamps], which [check_conflicts] does
    not call. *)
Theorem add_waypoint_stamps (self : PrimaryDronePlotter.plotter)
    (x y z : Q) (points : list (Q * Q * Q)) :
  whole_second (PrimaryDronePlotter.primary_start_time self) ->
  whole_second (PrimaryDronePlotter.primary_end_time self) ->
  map timestamp
    (PrimaryDronePlotter.primary_waypoints
       (add_waypoints (PrimaryDronePlotter.clear_primary_path self)
          ((x, y, z) :: points)))
  = PrimaryDronePlotter.primary_start_time self
    :: repeat (PrimaryDronePlotter.primary_end_time self) (List.length points).
Proof.
  intros Hs He. unfold add_waypoints. cbn [fold_left].
  change (fold_left _ points ?s) with (add_waypoints s points).
  rewrite add_waypoints_later; [reflexivity | exact Hs | exact He | discriminate].
Qed.

Lemma add_waypoint_stamps_witness :
  map timestamp
    (PrimaryDronePlotter.primary_waypoints
       (add_waypoints (PrimaryDronePlotter.clear_primary_path new_plotter)
          three_clicks))
  = [ make_datetime 2025 8 4 10 0 0; make_datetime 2025 8 4 10 15 0;
      make_datetime 2025 8 4 10 15 0 ].
Proof.
  assert (Hs : whole_second (PrimaryDronePlotter.primary_start_time new_plotter))
    by (vm_compute; reflexivity).
  assert (He : whole_second (PrimaryDronePlotter.primary_end_time new_plotter))
    by (vm_compute; reflexivity).
  exact (add_waypoint_stamps new_plotter 0 0 10 [(50, 0, 10); (50, 50, 10)]%Q Hs He).
Defined.

Lemma py_int_mono (p q : Q) : (0 <= p)%Q -> (p <= q)%Q -> py_int p <= py_int q.
Proof.
  intros H0 Hle.
  assert (Hfloor : forall r, (0 <= r)%Q -> py_int r = Qfloor r).
  { intros [n d] Hr. unfold py_int. cbn [Qfloor Qnum Qden].
    apply Z.quot_div_nonneg; [| reflexivity].
    unfold Qle in Hr. simpl in Hr. lia. }
  rewrite (Hfloor p H0), (Hfloor q (Qle_trans _ _ _ H0 Hle)).
  apply Qfloor_resp_le. exact Hle.
Qed.

Lemma spread_offset_mono (total_duration : Q) (n i : Z) :
  2 <= n -> (0 <= total_duration)%Q -> 0 <= i ->
  py_int (inject_Z i * total_duration / inject_Z (n - 1))
  <= py_int (inject_Z (i + 1) * total_duration / inject_Z (n - 1)).
Proof.
  intros Hn Ht Hi.
  assert (Hd : (0 <= / inject_Z (n - 1))%Q).
  { apply Qinv_le_0_compat. change 0%Q with (inject_Z 0). rewrite <- Zle_Qle. lia. }
  assert (H0 : (0 <= inject_Z i)%Q)
    by (change 0%Q with (inject_Z 0); rewrite <- Zle_Qle; exact Hi).
  apply py_int_mono; unfold Qdiv.
  - apply Qmult_le_0_compat; [apply Qmult_le_0_compat |]; assumption.
  - apply Qmult_le_compat_r; [| exact Hd].
    apply Qmult_le_compat_r; [| exact Ht].
    rewrite <- Zle_Qle. lia.
Qed.

Lemma strftime_seconds_offset (start_dt o : Z) :
  strftime_seconds (start_dt + timedelta_seconds o)
  = strftime_seconds start_dt + timedelta_seconds o.
Proof.
  unfold strftime_seconds, timedelta_seconds. rewrite Z.mod_add by discriminate. lia.
Qed.

Lemma spread_stamps_fit (start_dt : datetime) (total_duration : Q) (n : Z) :
  2 <= n -> (0 <= total_duration)%Q ->
  forall count i, 0 <= i ->
    steps_fit 1 (spread_stamps start_dt total_duration n i count).
Proof.
  intros Hn Ht. induction count as [| count IH]; intros i Hi; [exact I |].
  cbn [spread_stamps]. destruct count as [| count]; [exact I |].
  specialize (IH (i + 1) ltac:(lia)). cbn [spread_stamps] in IH |- *.
  cbn [steps_fit]. split; [| exact IH].
  unfold spread_stamp. rewrite !strftime_seconds_offset.
  pose proof (spread_offset_mono total_duration n i Hn Ht Hi) as Hmono.
  unfold timedelta_seconds in *. lia.
Qed.

Lemma spread_stamps_last (start_dt : datetime) (total_duration : Q) (n : Z) :
  forall count i d,
    i + Z.of_nat count = n - 1 ->
    last (spread_stamps start_dt total_duration n i (S count)) d
    = spread_stamp start_dt total_duration n (n - 1).
Proof.
  induction count as [| count IH]; intros i d Hi.
  - cbn [spread_stamps last]. f_equal. lia.
  - change (spread_stamps start_dt total_duration n i (S (S count)))
      with (spread_stamp start_dt total_duration n i
            :: spread_stamps start_dt total_duration n (i + 1) (S count)).
    rewrite last_cons. apply IH. lia.
Qed.

Lemma restamp_spread (start_dt : datetime) (total_duration : Q) (n : Z) :
  n <> 1 ->
  forall wps i,
    exists out,
      PrimaryDronePlotter.restamp start_dt total_duration n i wps = ret out
      /\ map wp_coords out = map wp_coords wps
      /\ map timestamp out
         = spread_stamps start_dt total_duration n i (List.length wps).
Proof.
  intros Hn. induction wps as [| w wps IH]; intros i;
    cbn [PrimaryDronePlotter.restamp].
  - exists []. repeat split.
  - destruct (n =? 1) eqn:E; [lia |].
    unfold py_div.
    assert (Hz : Qeq_bool (inject_Z (n - 1)) 0 = false).
    { destruct (Qeq_bool _ 0) eqn:E'; [| reflexivity].
      apply Qeq_bool_iff in E'. unfold Qeq in E'. simpl in E'. lia. }
    rewrite Hz. cbn [bind ret].
    destruct (IH (i + 1)) as [later [-> [Hc Ht]]]. cbn [bind ret].
    eexists. split; [reflexivity |].
    cbn [map wp_coords timestamp List.length spread_stamps].
    rewrite Hc, Ht. split; reflexivity.
Qed.

Lemma generate_continuous_path_sorted (m : mission) (step_seconds : Z)
    (path : list waypoint) :
  0 < step_seconds ->
  steps_fit step_seconds (map timestamp (waypoints m)) ->
  generate_continuous_path m step_seconds = ret path ->
  nondecreasing (map timestamp path).
Proof.
  intros Hs Hfit H. unfold generate_continuous_path in H.
  apply bind_ret_inv in H. destruct H as [segments [Hseg H]].
  destruct (waypoints m) as [| w ws] eqn:Hw.
  - simpl in Hseg. injection Hseg as <-. injection H as <-. exact I.
  - injection H as <-.
    destruct (interpolate_segments_sorted _ Hs _ _ _ Hfit Hseg) as [tl [-> Hnd]].
    exact Hnd.
Qed.

(** X27. With a start time at or before the end time,
    [recalculate_timestamps] raises nothing and keeps the coordinates
    and the mission times; consecutive waypoints get the same instant or
    instants a whole number of seconds apart, at least one, so the
    continuous path of the mission, generated with the step of 1 second,
    is in time order; and with mission times in whole seconds the first
    waypoint is stamped with the start time and the last of two or more
    with the end time. *)
Theorem recalculate_timestamps_spreads (self : PrimaryDronePlotter.plotter) :
  PrimaryDronePlotter.primary_start_time self
  <= PrimaryDronePlotter.primary_end_time self ->
  exists self',
    PrimaryDronePlotter.recalculate_timestamps self = ret self'
    /\ map wp_coords (PrimaryDronePlotter.primary_waypoints self')
       = map wp_coords (PrimaryDronePlotter.primary_waypoints self)
    /\ PrimaryDronePlotter.primary_start_time self'
       = PrimaryDronePlotter.primary_start_time self
    /\ PrimaryDronePlotter.primary_end_time self'
       = PrimaryDronePlotter.primary_end_time self
    /\ steps_fit 1 (map timestamp (PrimaryDronePlotter.primary_waypoints self'))
    /\ (forall path,
          generate_continuous_path (PrimaryDronePlotter.primary_mission self') 1
          = ret path ->
          nondecreasing (map timestamp path))
    /\ (whole_second (PrimaryDronePlotter.primary_start_time self) ->
        whole_second (PrimaryDronePlotter.primary_end_time self) ->
        forall w ws,
          PrimaryDronePlotter.primary_waypoints self' = w :: ws ->
          timestamp w = PrimaryDronePlotter.primary_start_time self
          /\ (ws <> [] ->
              last (map timestamp ws) 0
              = PrimaryDronePlotter.primary_end_time self)).
Proof.
  destruct self as [wps start_dt end_dt].
  cbn [PrimaryDronePlotter.primary_start_time PrimaryDronePlotter.primary_end_time
       PrimaryDronePlotter.primary_waypoints].
  intros Hle. unfold PrimaryDronePlotter.recalculate_timestamps.
  cbn [PrimaryDronePlotter.primary_start_time PrimaryDronePlotter.primary_end_time
       PrimaryDronePlotter.primary_waypoints].
  destruct wps as [| w1 [| w2 wps]].
  - eexists. split; [reflexivity |].
    cbn [PrimaryDronePlotter.primary_start_time PrimaryDronePlotter.primary_end_time
         PrimaryDronePlotter.primary_waypoints map steps_fit].
    repeat split; try exact I.
    + intros path H. vm_compute in H. injection H as <-. exact I.
    + discriminate H1.
    + discriminate H1.
  - eexists. split; [reflexivity |].
    cbn [PrimaryDronePlotter.primary_start_time PrimaryDronePlotter.primary_end_time
         PrimaryDronePlotter.primary_waypoints map steps_fit wp_coords timestamp].
    repeat split; try exact I.
    + intros path H.
      eapply generate_continuous_path_sorted; [| | exact H]; [lia | exact I].
    + injection H1 as <- <-. reflexivity.
    + injection H1 as <- <-. intros Hne. contradiction.
  - set (all := w1 :: w2 :: wps).
    set (n := Z.of_nat (List.length all)).
    assert (Hn : 2 <= n) by (unfold n, all; cbn [List.length]; lia).
    assert (Ht : (0 <= total_seconds (end_dt - start_dt))%Q)
      by (apply (proj1 (total_seconds_nonneg _)); lia).
    destruct (restamp_spread start_dt (total_seconds (end_dt - start_dt)) n
                ltac:(lia) all 0) as [out [-> [Hc Hstamps]]].
    cbn [bind ret]. eexists. split; [reflexivity |].
    cbn [PrimaryDronePlotter.primary_start_time PrimaryDronePlotter.primary_end_time
         PrimaryDronePlotter.primary_waypoints].
    assert (Hfit : steps_fit 1 (map timestamp out)).
    { rewrite Hstamps. apply spread_stamps_fit; [exact Hn | exact Ht | lia]. }
    split; [exact Hc |]. split; [reflexivity |]. split; [reflexivity |].
    split; [exact Hfit |]. split.
    + intros path H.
      eapply generate_continuous_path_sorted; [| | exact H]; [lia | exact Hfit].
    + intros Hs He w ws Hout. subst out.
      cbn [map] in Hstamps. unfold all in Hstamps.
      cbn [List.length spread_stamps] in Hstamps.
      injection Hstamps as Hw Hws. split.
      * rewrite Hw. unfold spread_stamp.
        rewrite (py_int_whole _ 0).
        -- unfold timedelta_seconds. rewrite Z.add_0_r.
           apply strftime_seconds_whole. exact Hs.
        -- unfold Qdiv. rewrite Qmult_0_l, Qmult_0_l. reflexivity.
      * intros _. rewrite Hws.
        assert (Hcount : 1 + Z.of_nat (List.length wps) = n - 1)
          by (unfold n, all; cbn [List.length]; lia).
        etransitivity;
          [exact (spread_stamps_last start_dt (total_seconds (end_dt - start_dt)) n
                    (List.length wps) 1 0 Hcount) |].
        unfold spread_stamp.
        assert (Hd : (end_dt - start_dt) mod 1000000 = 0).
        { unfold whole_second in *. rewrite Zminus_mod, He, Hs. reflexivity. }
        pose proof (Z.div_mod (end_dt - start_dt) 1000000 ltac:(lia)) as Hdm.
        rewrite (py_int_whole _ ((end_dt - start_dt) / 1000000)).
        -- unfold timedelta_seconds.
           replace (start_dt + (end_dt - start_dt) / 1000000 * 1000000)
             with end_dt by lia.
           apply strftime_seconds_whole. exact He.
        -- assert (Hq : (total_seconds (end_dt - start_dt)
                         == inject_Z ((end_dt - start_dt) / 1000000))%Q).
           { unfold total_seconds, Qeq. simpl. lia. }
           rewrite <- Hq. field.
           intros E. unfold Qeq in E. cbn [Qnum Qden inject_Z] in E. lia.
Qed.

Lemma recalculate_timestamps_spreads_witness :
  exists self',
    PrimaryDronePlotter.recalculate_timestamps (add_waypoints new_plotter three_clicks)
    = ret self'
    /\ map timestamp (PrimaryDronePlotter.primary_waypoints self')
       = [ make_datetime 2025 8 4 10 0 0; make_datetime 2025 8 4 10 7 30;
           make_datetime 2025 8 4 10 15 0 ]
    /\ steps_fit 1 (map timestamp (PrimaryDronePlotter.primary_waypoints self'))
    /\ forall path,
         generate_continuous_path (PrimaryDronePlotter.primary_mission self') 1
         = ret path ->
         nondecreasing (map timestamp path).
Proof.
  assert (Hle : PrimaryDronePlotter.primary_start_time
                  (add_waypoints new_plotter three_clicks)
                <= PrimaryDronePlotter.primary_end_time
                     (add_waypoints new_plotter three_clicks))
    by (vm_compute; discriminate).
  destruct (recalculate_timestamps_spreads (add_waypoints new_plotter three_clicks)
              Hle) as [self' [Hret [_ [_ [_ [Hfit [Hpath _]]]]]]].
  exists self'. split; [exact Hret |]. split; [| split; [exact Hfit | exact Hpath]].
  vm_compute in Hret. injection Hret as <-. vm_compute. reflexivity.
Defined.

(** ** The position query at a sample *)

Lemma find_brackets_at_sample (w : waypoint) (l2 : list waypoint) :
  forall l1 b0,
    strictly_increasing (map timestamp (l1 ++ w :: l2)) ->
    find_brackets (l1 ++ w :: l2) (timestamp w) b0 = (Some w, hd_error l2).
Proof.
  induction l1 as [| u l1 IH]; intros b0 Hinc.
  - cbn [app find_brackets]. rewrite Z.leb_refl.
    destruct l2 as [| a l2]; [reflexivity |].
    cbn [app map] in Hinc. destruct Hinc as [Hlt _].
    cbn [find_brackets hd_error].
    destruct (timestamp a <=? timestamp w) eqn:E1; [lia |].
    destruct (timestamp a >? timestamp w) eqn:E2; [reflexivity | lia].
  - cbn [app map] in Hinc. cbn [app find_brackets].
    assert (Hu : timestamp u < timestamp w).
    { apply (strictly_increasing_head_lt _ _ Hinc). apply in_map.
      apply in_or_app. right. left. reflexivity. }
    destruct (timestamp u <=? timestamp w) eqn:E; [| lia].
    apply IH. exact (strictly_increasing_tail _ _ Hinc).
Qed.

(** X28. On a path whose instants increase strictly and whose
    coordinates can be read, the position query of the checker, asked at
    the instant of a sample, answers with the point of that sample: the
    interpolated trajectory passes through every sample at its own
    instant. *)
Theorem position_at_a_sample (l1 l2 : list waypoint) (w : waypoint) :
  strictly_increasing (map timestamp (l1 ++ w :: l2)) ->
  Forall located (l1 ++ w :: l2) ->
  exists found,
    get_drone_position_at_time (l1 ++ w :: l2) (timestamp w) = ret (Some found)
    /\ same_place (wp_coords found) (wp_coords w)
    /\ timestamp found = timestamp w.
Proof.
  intros Hinc Hall.
  pose proof (find_brackets_at_sample w l2 l1 None Hinc) as Hbr.
  rewrite Forall_forall in Hall.
  destruct (Hall w) as [[[x y] z] Hw]; [apply in_or_app; right; left; reflexivity |].
  unfold get_drone_position_at_time. rewrite Hbr.
  destruct (l1 ++ w :: l2) as [| p ps] eqn:Hpath; [destruct l1; discriminate Hpath |].
  destruct l2 as [| a l2]; cbn [hd_error].
  - rewrite Hw. cbn [bind ret]. eexists. split; [reflexivity |].
    split; [| reflexivity]. cbn [position_dict wp_coords].
    exists x, y, z, x, y, z. split; [reflexivity |]. split; [exact Hw |].
    repeat split; reflexivity.
  - destruct (Hall a) as [[[ax ay] az] Ha].
    { rewrite <- Hpath. apply in_or_app. right. right. left. reflexivity. }
    assert (Hlt : timestamp w < timestamp a).
    { rewrite <- Hpath in Hinc. clear - Hinc.
      induction l1 as [| u l1 IH]; cbn [app map] in Hinc.
      - destruct Hinc as [Hlt _]. exact Hlt.
      - apply IH. exact (strictly_increasing_tail _ _ Hinc). }
    assert (Hz : Qeq_bool (total_seconds (timestamp a - timestamp w)) 0 = false).
    { destruct (Qeq_bool _ 0) eqn:E; [| reflexivity].
      apply total_seconds_zero in E. lia. }
    rewrite Hz. unfold py_div. rewrite Hz. cbn [bind ret].
    rewrite Hw. cbn [bind ret]. rewrite Ha. cbn [bind ret].
    eexists. split; [reflexivity |]. split; [| reflexivity].
    cbn [position_dict wp_coords]. do 3 eexists. exists x, y, z.
    split; [reflexivity |]. split; [exact Hw |].
    assert (Hf : (total_seconds (timestamp w - timestamp w)
                  / total_seconds (timestamp a - timestamp w) == 0)%Q).
    { rewrite Z.sub_diag. unfold total_seconds, Qdiv, Qmult, Qeq. simpl. reflexivity. }
    repeat split; symmetry; apply lerp_start; exact Hf.
Qed.

Lemma position_at_a_sample_witness :
  exists found,
    get_drone_position_at_time three_meetings (make_datetime 2025 8 4 10 2 5)
    = ret (Some found)
    /\ same_place (wp_coords found) (Named 125 0 (Some 0%Q))
    /\ timestamp found = make_datetime 2025 8 4 10 2 5.
Proof.
  assert (Hinc : strictly_increasing (map timestamp three_meetings))
    by (vm_compute; repeat split; reflexivity).
  assert (Hall : Forall located three_meetings)
    by (repeat constructor; eexists; reflexivity).
  exact (position_at_a_sample
           [ mkWaypoint (Named 0 0 (Some 0%Q)) (make_datetime 2025 8 4 10 0 0);
             mkWaypoint (Named 0 1000 (Some 0%Q)) (make_datetime 2025 8 4 10 0 5);
             mkWaypoint (Named 125 1000 (Some 0%Q)) (make_datetime 2025 8 4 10 2 0) ]
           [ mkWaypoint (Named 125 1000 (Some 0%Q)) (make_datetime 2025 8 4 10 2 10);
             mkWaypoint (Named 250 1000 (Some 0%Q)) (make_datetime 2025 8 4 10 4 5);
             mkWaypoint (Named 250 0 (Some 0%Q)) (make_datetime 2025 8 4 10 4 10) ]
           (mkWaypoint (Named 125 0 (Some 0%Q)) (make_datetime 2025 8 4 10 2 5))
           Hinc Hall).
Defined.
